(** * The stock-game simulation servers, embedded and verified

    Two Express servers are embedded here: the expert game server and the
    casual game server (the second half of [main.js]).  Both prompt a
    language model for JSON, validate what comes back and, for the day
    simulation and the news prediction, fall back on a local pseudo-random
    generator.

    Conventions of the embedding.
    - A JavaScript number is an exact rational ([Q]): rounding, [NaN] and
      the infinities of IEEE doubles are not represented.  Day numbers are
      integers ([Z]).
    - [Math.random()] reads the head of an explicit stream of draws that
      is threaded through the code in evaluation order.
    - The language model, [JSON.parse], [JSON.stringify] and [Date.now()]
      are outside the repository: their results are inputs of the
      embedded functions.
    - An exception is a value of a sum type; a [try]/[catch] is a match on
      it.
    - The bodies of the requests are typed: [stocks] is an array of
      stocks, [days] and [currentDay] are integers.  Requests are handled
      one at a time. *)

From Stdlib Require Import ZArith QArith Qround List String Lia Lqa.
From stdpp Require Import base gmap strings pretty.

Open Scope Q_scope.

(** ** JavaScript values and primitives *)

Module Js.

(** What [JSON.parse] can return.  [undefined] is not a JSON value: it
    only shows up as the result of reading a property, as [None]. *)
#[warnings="-register-all"]
Inductive value : Type :=
| JNull
| JBool (b : bool)
| JNum (q : Q)
| JStr (s : string)
| JArr (items : list value)
| JObj (fields : list (string * value)).

Inductive jstype : Type :=
| TUndefined | TObject | TBoolean | TNumber | TString.

(** [typeof x], where [None] is [undefined]. *)
Definition typeof (x : option value) : jstype :=
  match x with
  | None => TUndefined
  | Some JNull => TObject
  | Some (JBool _) => TBoolean
  | Some (JNum _) => TNumber
  | Some (JStr _) => TString
  | Some (JArr _) => TObject
  | Some (JObj _) => TObject
  end.

Definition is_type (t : jstype) (x : option value) : bool :=
  match t, typeof x with
  | TUndefined, TUndefined | TObject, TObject | TBoolean, TBoolean
  | TNumber, TNumber | TString, TString => true
  | _, _ => false
  end.

(** Truthiness, as used by [&&], [||] and [!]. *)
Definition truthy (x : option value) : bool :=
  match x with
  | None => false
  | Some JNull => false
  | Some (JBool b) => b
  | Some (JNum q) => negb (Qeq_bool q 0)
  | Some (JStr s) => negb (String.eqb s EmptyString)
  | Some (JArr _) => true
  | Some (JObj _) => true
  end.

Fixpoint assoc (k : string) (fields : list (string * value)) : option value :=
  match fields with
  | [] => None
  | (k', v) :: rest => if String.eqb k k' then Some v else assoc k rest
  end.

(** [x.k] for a value [x] that is not [null]; the property names read by
    the servers ([ticker], [day], [price], ...) exist on no prototype, so
    a primitive or an array yields [undefined].  Reading a property of
    [null] throws; the callers below make that case explicit. *)
Definition prop (k : string) (x : value) : option value :=
  match x with
  | JObj fields => assoc k fields
  | _ => None
  end.

Definition Array_isArray (x : option value) : bool :=
  match x with Some (JArr _) => true | _ => false end.

(** [xs[i]] for an integer [i]; [None] is [undefined]. *)
Definition at_index {A} (xs : list A) (i : Z) : option A :=
  if (i <? 0)%Z then None else nth_error xs (Z.to_nat i).

(** [xs.includes(x)] for an array of strings. *)
Definition includes (xs : list string) (x : option value) : bool :=
  match x with
  | Some (JStr s) => existsb (String.eqb s) xs
  | _ => false
  end.

(** [Number.isInteger(x)] *)
Definition Number_isInteger (x : option value) : bool :=
  match x with
  | Some (JNum q) => Qeq_bool q (inject_Z (Qfloor q))
  | _ => false
  end.

Definition Qlt_bool (a b : Q) : bool := negb (Qle_bool b a).

Definition Math_floor (q : Q) : Z := Qfloor q.

Definition Math_max (a b : Q) : Q := if Qle_bool a b then b else a.

(** [Math.max(...xs)] over day numbers; the callers never spread an
    empty array. *)
Definition Math_max_list (x : Z) (xs : list Z) : Z := fold_left Z.max xs x.

(** The source of randomness: the stream of the values that the
    successive calls of [Math.random()] return. *)
Definition RandomSource : Type := nat -> Q.

Definition Rand (A : Type) : Type := RandomSource -> A * RandomSource.

Definition ret {A} (a : A) : Rand A := fun s => (a, s).

Definition bind {A B} (m : Rand A) (k : A -> Rand B) : Rand B :=
  fun s => let (a, s') := m s in k a s'.

Definition Math_random : Rand Q :=
  fun s => (s 0%nat, fun n => s (S n)).

(** Every draw lies in [0, 1), as [Math.random()] promises. *)
Definition unit_draws (s : RandomSource) : Prop :=
  forall n, 0 <= s n /\ s n < 1.

Definition constant_source (q : Q) : RandomSource := fun _ => q.

(** The draws [q :: rest] first, then [s]. *)
Fixpoint draws (qs : list Q) (s : RandomSource) : RandomSource :=
  match qs with
  | [] => s
  | q :: rest => fun n => match n with O => q | S n' => draws rest s n' end
  end.

(** Exceptions, and the outcome of code that may throw.
    [CompletionError] is whatever the call of the language model throws. *)
Inductive exn : Type :=
| TypeError
| SyntaxError
| Error (message : string)
| CompletionError.

Inductive Result (A : Type) : Type :=
| Ok (a : A)
| Throw (e : exn).
Arguments Ok {A} a.
Arguments Throw {A} e.

(** [xs.filter(f)] for a callback that may throw: the first exception
    aborts the whole call. *)
Fixpoint filterM {A} (f : A -> Result bool) (xs : list A) : Result (list A) :=
  match xs with
  | [] => Ok []
  | x :: rest =>
      match f x with
      | Throw e => Throw e
      | Ok keep =>
          match filterM f rest with
          | Throw e => Throw e
          | Ok kept => Ok (if keep then x :: kept else kept)
          end
      end
  end.

(** ** Strings *)

Definition newline : string := String (Ascii.ascii_of_nat 10) EmptyString.
Definition fence_open : string := "```json" +:+ newline.
Definition fence_close : string := newline +:+ "```".

(** The global replacement of the two code-fence patterns by the empty
    string: a left-to-right scan; [skip] counts the characters of a
    match that are still to be dropped. *)
Fixpoint stripFences (skip : nat) (s : string) : string :=
  match s with
  | EmptyString => EmptyString
  | String c rest =>
      match skip with
      | S k => stripFences k rest
      | O =>
          if String.prefix fence_open s then stripFences 7 rest
          else if String.prefix fence_close s then stripFences 3 rest
          else String c (stripFences 0 rest)
      end
  end.

(** White space of [trim()], for the characters below 128. *)
Definition is_space (c : Ascii.ascii) : bool :=
  let n := Ascii.nat_of_ascii c in
  ((9 <=? n)%nat && (n <=? 13)%nat) || (n =? 32)%nat.

Fixpoint trimStart (s : string) : string :=
  match s with
  | EmptyString => EmptyString
  | String c rest => if is_space c then trimStart rest else s
  end.

Fixpoint trimEnd (s : string) : string :=
  match s with
  | EmptyString => EmptyString
  | String c rest =>
      match trimEnd rest with
      | EmptyString => if is_space c then EmptyString else String c EmptyString
      | rest' => String c rest'
      end
  end.

Definition trim (s : string) : string := trimEnd (trimStart s).

Definition toUpperCase (c : Ascii.ascii) : Ascii.ascii :=
  let n := Ascii.nat_of_ascii c in
  if ((97 <=? n)%nat && (n <=? 122)%nat) then Ascii.ascii_of_nat (n - 32) else c.

(** [s.charAt(0).toUpperCase() + s.slice(1)] *)
Definition capitalize (s : string) : string :=
  match s with
  | EmptyString => EmptyString
  | String c rest => String (toUpperCase c) rest
  end.

End Js.

Import Js.

Notation "'let!' x ':=' m 'in' k" := (bind m (fun x => k))
  (at level 10, x name, m at level 100, k at level 200, only parsing).

(** ** Data shared by the two servers *)

(** The fields of a stock that the simulation reads. *)
Module Stock.
Record t : Type := mk {
  ticker : string;
  name : string;
  price : Q;
  volatility : Q
}.
End Stock.

(** * The expert server *)

Module Expert.

(** The object pushed on [simulated] by the fallback loop. *)
Module Tick.
Record t : Type := mk {
  ticker : string;
  day : Z;
  price : Q;
  previousDayPrice : Q;
  priceChange : Q;
  volatility : Q;
  headline : string;
  description : string
}.
End Tick.

(** The body of the inner [for] loop of the fallback simulation.  The
    division of the [priceChange] field is the total one of [Q]; no
    property below reads that field. *)
Definition fallbackTick (stock : Stock.t) (currentDay i : Z) (prevPrice : Q)
  : Rand Tick.t :=
  let day := (currentDay + i + 1)%Z in
  let isEarningsDay := (Z.rem day 10 =? 0)%Z in
  let quarter := if isEarningsDay then "Q" +:+ pretty (day / 10)%Z else EmptyString in
  let! performance :=
    (if isEarningsDay
     then let! r := Math_random in
          ret (if Qlt_bool (1 # 2) r then "positive" else "negative")
     else ret EmptyString) in
  let! r := Math_random in
  let dailyVolatility := Stock.volatility stock * ((1 # 2) + r) in
  let! priceChange :=
    (if isEarningsDay
     then ret (if String.eqb performance "positive" then 2 # 10 else - (2 # 10))
     else let! r' := Math_random in
          ret ((r' - (1 # 2)) * (dailyVolatility / 100))) in
  let price := Math_max (1 # 10) (prevPrice * (1 + priceChange)) in
  let previousDayPrice := prevPrice in
  ret {| Tick.ticker := Stock.ticker stock;
         Tick.day := day;
         Tick.price := price;
         Tick.previousDayPrice := previousDayPrice;
         Tick.priceChange := ((price - previousDayPrice) / previousDayPrice) * 100;
         Tick.volatility := dailyVolatility;
         Tick.headline :=
           if isEarningsDay then quarter +:+ " Earnings Call"
           else "Update for " +:+ Stock.name stock;
         Tick.description :=
           if isEarningsDay
           then if String.eqb performance "positive"
                then Stock.name stock +:+ " reports strong revenue growth"
                else Stock.name stock +:+ " misses earnings expectations"
           else "Price changed on day " +:+ pretty day |}.

(** [for (let i = 0; i < days; i++)]: [n] iterations are left, the
    counter is [i], and [prevPrice] is chained. *)
Fixpoint fallbackDays (stock : Stock.t) (currentDay : Z) (n : nat) (i : Z)
    (prevPrice : Q) : Rand (list Tick.t) :=
  match n with
  | O => ret []
  | S n' =>
      let! tick := fallbackTick stock currentDay i prevPrice in
      let! rest := fallbackDays stock currentDay n' (i + 1)%Z (Tick.price tick) in
      ret (tick :: rest)
  end.

(** [for (const stock of stocks)] *)
Fixpoint fallbackSimulate (stocks : list Stock.t) (currentDay days : Z)
  : Rand (list Tick.t) :=
  match stocks with
  | [] => ret []
  | stock :: rest =>
      let! mine := fallbackDays stock currentDay (Z.to_nat days) 0%Z (Stock.price stock) in
      let! others := fallbackSimulate rest currentDay days in
      ret (mine ++ others)
  end.

(** ** Economic events *)

(** An element of [newEconEvents]. *)
Module EconEvent.
Record t : Type := mk {
  sector : option string;
  headline : string;
  daysLeft : Z;
  startDay : Z;
  direction : string
}.
End EconEvent.

(** An element of the [activeEconEffects] array of a request: an event
    as the client sends it back; [startDay] may be missing. *)
Module EconEffect.
Record t : Type := mk {
  sector : string;
  headline : string;
  daysLeft : Z;
  startDay : option Z;
  direction : string
}.

Definition toObject (e : t) : value :=
  JObj ([("sector", JStr (sector e));
         ("headline", JStr (headline e));
         ("daysLeft", JNum (inject_Z (daysLeft e)))]
        ++ match startDay e with
           | Some d => [("startDay", JNum (inject_Z d))]
           | None => []
           end
        ++ [("direction", JStr (direction e))]).
End EconEffect.

(** The value of the module variable [predictedEconEvent] when it is
    not [null]. *)
Module PredictedEconEvent.
Record t : Type := mk {
  sector : option string;
  headline : string;
  day : Z;
  daysLeft : Z;
  direction : string
}.
End PredictedEconEvent.

Definition sectors : list string :=
  ["Technology"; "Healthcare"; "Finance"; "Energy"; "Consumer Goods"; "Utilities"].

Definition sectorAt (i : Z) : option string := at_index sectors i.

(** [e.startDay || currentDay] *)
Definition startDayOr (currentDay : Z) (e : EconEffect.t) : Z :=
  match EconEffect.startDay e with
  | Some d => if (d =? 0)%Z then currentDay else d
  | None => currentDay
  end.

Definition lastEconEventDay (activeEconEffects : list EconEffect.t)
    (currentDay : Z) : Z :=
  match map (startDayOr currentDay) activeEconEffects with
  | [] => 0%Z
  | d :: ds => Math_max_list d ds
  end.

Definition daysSinceLastEvent (activeEconEffects : list EconEffect.t)
    (currentDay : Z) : Z :=
  (currentDay - lastEconEventDay activeEconEffects currentDay)%Z.

(** [daysSinceLastEvent >= 6 && Math.random() < (daysSinceLastEvent >= 10 ? 1 : 0.5)];
    [&&] draws only when its left operand holds. *)
Definition generateEconEvent (daysSince : Z) : Rand bool :=
  if (6 <=? daysSince)%Z
  then let! r := Math_random in
       ret (Qlt_bool r (if (10 <=? daysSince)%Z then 1 else 1 # 2))
  else ret false.

Definition marketShift (direction : string) (sector : option string) : string :=
  capitalize direction +:+ " Market Shift in " +:+ default "undefined" sector.

(** The object that the promotion of [predictedEconEvent] pushes on
    [newEconEvents]. *)
Definition activate (p : PredictedEconEvent.t) : EconEvent.t :=
  {| EconEvent.sector := PredictedEconEvent.sector p;
     EconEvent.headline := PredictedEconEvent.headline p;
     EconEvent.daysLeft := PredictedEconEvent.daysLeft p;
     EconEvent.startDay := PredictedEconEvent.day p;
     EconEvent.direction := PredictedEconEvent.direction p |}.

(** The check of the predicted event against the simulated days: the new
    events so far, and the new value of [predictedEconEvent]. *)
Definition promotePredicted (predicted : option PredictedEconEvent.t)
    (currentDay days : Z)
  : list EconEvent.t * option PredictedEconEvent.t :=
  match predicted with
  | Some p =>
      if ((currentDay + 1 <=? PredictedEconEvent.day p)%Z
          && (PredictedEconEvent.day p <=? currentDay + days)%Z)%bool
      then ([activate p], None)
      else ([], Some p)
  | None => ([], None)
  end.

Definition freshEconEvent (currentDay : Z) : Rand EconEvent.t :=
  let! r1 := Math_random in
  let sector := sectorAt (Math_floor (r1 * inject_Z (Z.of_nat (length sectors)))) in
  let! r2 := Math_random in
  let daysLast := (3 + Math_floor (r2 * 2))%Z in
  let! r3 := Math_random in
  let direction := if Qlt_bool (1 # 2) r3 then "positive" else "negative" in
  ret {| EconEvent.sector := sector;
         EconEvent.headline := marketShift direction sector;
         EconEvent.daysLeft := daysLast;
         EconEvent.startDay := (currentDay + 1)%Z;
         EconEvent.direction := direction |}.

(** The first part of the function that [/simulateDays] hands to the
    cache: the new events of the batch and the new value of
    [predictedEconEvent]. *)
Definition econEvents (predicted : option PredictedEconEvent.t)
    (activeEconEffects : list EconEffect.t) (currentDay days : Z)
  : Rand (list EconEvent.t * option PredictedEconEvent.t) :=
  let! generate :=
    generateEconEvent (daysSinceLastEvent activeEconEffects currentDay) in
  let promoted := promotePredicted predicted currentDay days in
  let newEconEvents := fst promoted in
  if (generate && (length newEconEvents =? 0)%nat)%bool
  then let! e := freshEconEvent currentDay in
       ret (newEconEvents ++ [e], snd promoted)
  else ret (newEconEvents, snd promoted).

(** ** Validation of what the language model returns *)

(** The callback of [stocks.filter] in [/stocks]. *)
Definition stockFilter (stock : value) : bool :=
  (truthy (Some stock)
   && is_type TString (prop "ticker" stock)
   && is_type TString (prop "name" stock)
   && is_type TNumber (prop "price" stock)
   && is_type TNumber (prop "previousDayPrice" stock)
   && is_type TNumber (prop "priceChange" stock)
   && is_type TNumber (prop "volatility" stock)
   && is_type TString (prop "sector" stock)
   && is_type TString (prop "tidbit" stock))%bool.

(** The statements of the [try] block of [/stocks] after [JSON.parse]. *)
Definition validateStocks (parsed : value) : Result (list value) :=
  match parsed with
  | JArr items =>
      let stocks := List.filter stockFilter items in
      if (length stocks =? 0)%nat then Throw (Error "No valid stocks returned")
      else Ok stocks
  | _ => Throw (Error "Response is not an array")
  end.

(** [x >= n] and [x <= n] for a property [x] that holds a number. *)
Definition num_ge (x : option value) (n : Q) : bool :=
  match x with Some (JNum q) => Qle_bool n q | _ => false end.

Definition num_le (x : option value) (n : Q) : bool :=
  match x with Some (JNum q) => Qle_bool q n | _ => false end.

(** The field checks of the callback of [simulated.filter]. *)
Definition tickChecks (currentDay days : Z) (s : value) : bool :=
  (truthy (prop "ticker" s)
   && is_type TNumber (prop "day" s)
   && num_ge (prop "day" s) (inject_Z (currentDay + 1))
   && num_le (prop "day" s) (inject_Z (currentDay + days))
   && is_type TNumber (prop "price" s)
   && num_ge (prop "price" s) 0
   && is_type TString (prop "headline" s)
   && is_type TString (prop "description" s))%bool.

(** The callback of [simulated.filter]: it starts with [s.ticker], which
    throws when [s] is [null]. *)
Definition tickFilter (currentDay days : Z) (s : value) : Result bool :=
  match s with
  | JNull => Throw TypeError
  | _ => Ok (tickChecks currentDay days s)
  end.

(** The statements of the [try] block of [/simulateDays] after
    [JSON.parse]; a [Throw] is what the [catch] receives. *)
Definition validateTicks (currentDay days : Z) (parsed : value)
  : Result (list value) :=
  match parsed with
  | JArr items =>
      match filterM (tickFilter currentDay days) items with
      | Throw e => Throw e
      | Ok simulated =>
          if (length simulated =? 0)%nat
          then Throw (Error "No valid simulation data")
          else Ok simulated
      end
  | _ => Throw (Error "Response is not an array")
  end.

(** The value of [simulated]: the filtered array of the language model,
    or the ticks of the fallback loop. *)
Inductive Simulated : Type :=
| Validated (ticks : list value)
| Fallback (ticks : list Tick.t).

(** ** The server: cache, state and request handlers *)

Inductive Body : Type :=
| StocksBody (stocks : list value)
| SimulateBody (simulated : Simulated) (newEconEvents : list EconEvent.t)
| PredictionBody (prediction : value)
| EconPredictionBody (prediction : PredictedEconEvent.t)
| AnalysisBody (analysis : string)
| ErrorBody (error : string).

Record Response : Type := mkResponse { status : Z; body : Body }.

Record CacheEntry : Type := mkEntry { data : Body; timestamp : Z }.

(** The two module variables of the server. *)
Record ServerState : Type := mkState {
  responseCache : gmap string CacheEntry;
  predictedEconEvent : option PredictedEconEvent.t
}.

Definition CACHE_TTL : Z := (5 * 60 * 1000)%Z.

(** [getOrCacheResponse(key, fn)].  [now] is what [Date.now()] returns at
    the freshness test and [now'] what it returns when the entry is
    stored; [fn] may draw random numbers, change the server state and
    throw. *)
Definition getOrCacheResponse (key : string)
    (fn : ServerState -> Rand (Result Body * ServerState))
    (now now' : Z) (st : ServerState) : Rand (Result Body * ServerState) :=
  let miss :=
    let! out := fn st in
    match fst out with
    | Throw e => ret (Throw e, snd out)
    | Ok d =>
        ret (Ok d,
             {| responseCache :=
                  <[ key := {| data := d; timestamp := now' |} ]>
                    (responseCache (snd out));
                predictedEconEvent := predictedEconEvent (snd out) |})
    end in
  match responseCache st !! key with
  | Some cached =>
      if (now - timestamp cached <? CACHE_TTL)%Z then ret (Ok (data cached), st)
      else miss
  | None => miss
  end.

Definition respond (code : Z) (b : Body) : Response :=
  {| status := code; body := b |}.

Module SimulateRequest.
Record t : Type := mk {
  stocks : list Stock.t;
  days : Z;
  predictions : list value;
  currentDay : Z;
  activeEconEffects : list EconEffect.t
}.
End SimulateRequest.

(** The body of a request to [/analyzePerformance]; [None] is a property
    that is missing. *)
Module AnalyzeRequest.
Record t : Type := mk {
  log : option value;
  portfolio : option value;
  budget : option value
}.
End AnalyzeRequest.

Section Server.

(** [JSON.parse]: [None] stands for the [SyntaxError] it throws. *)
Variable JSON_parse : string -> option value.
Variable JSON_stringify : value -> string.

Definition stocksCompute (llm : option string) : Result Body :=
  match llm with
  | None => Throw CompletionError
  | Some content =>
      match JSON_parse content with
      | None => Throw (Error "Failed to parse stocks JSON")
      | Some parsed =>
          match validateStocks parsed with
          | Throw _ => Throw (Error "Failed to parse stocks JSON")
          | Ok stocks => Ok (StocksBody stocks)
          end
      end
  end.

(** [GET /stocks] *)
Definition getStocks (llm : option string) (now now' : Z) (st : ServerState)
  : Rand (Response * ServerState) :=
  let! out :=
    getOrCacheResponse "stocks" (fun st' => ret (stocksCompute llm, st'))
      now now' st in
  match fst out with
  | Ok d => ret (respond 200 d, snd out)
  | Throw _ =>
      ret (respond 500
             (ErrorBody "Failed to generate stocks. Please try again later."),
           snd out)
  end.

(** The [try]/[catch] of [/simulateDays]: the validated ticks of the
    language model, or else the fallback simulation. *)
Definition simulatedOrFallback (stocks : list Stock.t) (currentDay days : Z)
    (content : string) : Rand Simulated :=
  let validated :=
    match JSON_parse content with
    | None => Throw SyntaxError
    | Some parsed => validateTicks currentDay days parsed
    end in
  match validated with
  | Ok simulated => ret (Validated simulated)
  | Throw _ =>
      let! ticks := fallbackSimulate stocks currentDay days in
      ret (Fallback ticks)
  end.

(** The function that [/simulateDays] hands to the cache.  [llm] is
    the text of the completion, [None] when the call fails. *)
Definition simulateCompute (req : SimulateRequest.t) (llm : option string)
    (st : ServerState) : Rand (Result Body * ServerState) :=
  let currentDay := SimulateRequest.currentDay req in
  let days := SimulateRequest.days req in
  let! events :=
    econEvents (predictedEconEvent st) (SimulateRequest.activeEconEffects req)
      currentDay days in
  let st' := {| responseCache := responseCache st;
                predictedEconEvent := snd events |} in
  match llm with
  | None => ret (Throw CompletionError, st')
  | Some raw =>
      let content := trim (stripFences 0 raw) in
      let! simulated :=
        simulatedOrFallback (SimulateRequest.stocks req) currentDay days content in
      ret (Ok (SimulateBody simulated (fst events)), st')
  end.

Definition simulateCacheKey (req : SimulateRequest.t) : string :=
  "simulate_" +:+ pretty (SimulateRequest.currentDay req) +:+ "_"
  +:+ pretty (SimulateRequest.days req) +:+ "_"
  +:+ JSON_stringify
        (JObj [("predictions", JArr (SimulateRequest.predictions req));
               ("activeEconEffects",
                JArr (map EconEffect.toObject
                        (SimulateRequest.activeEconEffects req)))]).

(** [POST /simulateDays], for a body whose [stocks] is an array and
    whose [days] is an integer. *)
Definition simulateDays (req : SimulateRequest.t) (llm : option string)
    (now now' : Z) (st : ServerState) : Rand (Response * ServerState) :=
  if (SimulateRequest.days req <? 1)%Z
  then ret (respond 400 (ErrorBody "Invalid input"), st)
  else
    let! out :=
      getOrCacheResponse (simulateCacheKey req) (simulateCompute req llm)
        now now' st in
    match fst out with
    | Ok d => ret (respond 200 d, snd out)
    | Throw _ => ret (respond 500 (ErrorBody "Failed to simulate days"), snd out)
    end.

(** The format test of the [try] block of [/predictNews]; it starts
    with [prediction.ticker], which throws when [prediction] is [null]. *)
Definition predictionFormat (prediction : value) : Result unit :=
  match prediction with
  | JNull => Throw TypeError
  | _ =>
      if (negb (truthy (prop "ticker" prediction))
          || negb (Number_isInteger (prop "day" prediction))
          || negb (includes ["rise"; "fall"] (prop "direction" prediction)))%bool
      then Throw (Error "Invalid prediction format")
      else Ok tt
  end.

(** The [catch] block of [/predictNews].  [randomStock.ticker] throws
    when [stocks] is empty, and nothing catches it here. *)
Definition predictionFallback (stocks : list Stock.t) (currentDay : Z)
  : Rand (Result value) :=
  let! r1 := Math_random in
  match at_index stocks (Math_floor (r1 * inject_Z (Z.of_nat (length stocks)))) with
  | None => ret (Throw TypeError)
  | Some randomStock =>
      let! r2 := Math_random in
      let! r3 := Math_random in
      ret (Ok (JObj [("ticker", JStr (Stock.ticker randomStock));
                     ("day", JNum (inject_Z (currentDay + Math_floor (r2 * 7) + 1)));
                     ("direction",
                      JStr (if Qlt_bool (1 # 2) r3 then "rise" else "fall"))]))
  end.

(** The [try]/[catch] of [/predictNews] on the text of the completion. *)
Definition predictionOrFallback (stocks : list Stock.t) (currentDay : Z)
    (content : string) : Rand (Result value) :=
  let candidate :=
    match JSON_parse content with
    | None => Throw SyntaxError
    | Some prediction =>
        match predictionFormat prediction with
        | Throw e => Throw e
        | Ok _ => Ok prediction
        end
    end in
  match candidate with
  | Ok prediction => ret (Ok prediction)
  | Throw _ => predictionFallback stocks currentDay
  end.

Definition predictCompute (stocks : list Stock.t) (currentDay : Z)
    (llm : option string) (st : ServerState) : Rand (Result Body * ServerState) :=
  match llm with
  | None => ret (Throw CompletionError, st)
  | Some raw =>
      let! prediction :=
        predictionOrFallback stocks currentDay (trim (stripFences 0 raw)) in
      match prediction with
      | Throw e => ret (Throw e, st)
      | Ok p => ret (Ok (PredictionBody p), st)
      end
  end.

(** [POST /predictNews], for a body whose [stocks] is an array and whose
    [currentDay] is a number. *)
Definition predictNews (stocks : list Stock.t) (currentDay : Z)
    (llm : option string) (now now' : Z) (st : ServerState)
  : Rand (Response * ServerState) :=
  let! out :=
    getOrCacheResponse ("predictNews_" +:+ pretty currentDay)
      (predictCompute stocks currentDay llm) now now' st in
  match fst out with
  | Ok d => ret (respond 200 d, snd out)
  | Throw _ =>
      ret (respond 500 (ErrorBody "Failed to generate prediction"), snd out)
  end.

(** The prediction that [/predictEconEvent] builds when none is stored. *)
Definition newEconPrediction (currentDay : Z)
    (activeEconEffects : list EconEffect.t) : Rand PredictedEconEvent.t :=
  let daysSince := daysSinceLastEvent activeEconEffects currentDay in
  let! r0 := Math_random in
  let daysUntilNext := (6 + Math_floor (r0 * 5))%Z in
  let daysUntilNext :=
    if (6 <=? daysSince)%Z then Z.min daysUntilNext (10 - daysSince)
    else daysUntilNext in
  let! r1 := Math_random in
  let sector := sectorAt (Math_floor (r1 * inject_Z (Z.of_nat (length sectors)))) in
  let! r2 := Math_random in
  let daysLast := (3 + Math_floor (r2 * 2))%Z in
  let! r3 := Math_random in
  let direction := if Qlt_bool (1 # 2) r3 then "positive" else "negative" in
  ret {| PredictedEconEvent.sector := sector;
         PredictedEconEvent.headline := marketShift direction sector;
         PredictedEconEvent.day := (currentDay + daysUntilNext)%Z;
         PredictedEconEvent.daysLeft := daysLast;
         PredictedEconEvent.direction := direction |}.

(** [POST /predictEconEvent], for a body whose [currentDay] is a number. *)
Definition predictEconEvent (currentDay : Z)
    (activeEconEffects : list EconEffect.t) (st : ServerState)
  : Rand (Response * ServerState) :=
  let st1 :=
    match predictedEconEvent st with
    | Some p =>
        if (PredictedEconEvent.day p <=? currentDay)%Z
        then {| responseCache := responseCache st; predictedEconEvent := None |}
        else st
    | None => st
    end in
  match predictedEconEvent st1 with
  | Some p => ret (respond 200 (EconPredictionBody p), st1)
  | None =>
      let! prediction := newEconPrediction currentDay activeEconEffects in
      ret (respond 200 (EconPredictionBody prediction),
           {| responseCache := responseCache st1;
              predictedEconEvent := Some prediction |})
  end.

(** [typeof log === 'string' ? JSON.parse(log) : log] *)
Definition parseLog (log : option value) : Result (option value) :=
  match log with
  | Some (JStr text) =>
      match JSON_parse text with
      | None => Throw SyntaxError
      | Some parsed => Ok (Some parsed)
      end
  | _ => Ok log
  end.

(** The condition of the [if] that answers 400. *)
Definition invalidAnalyzeInput (parsedLog portfolio budget : option value)
  : bool :=
  (negb (Array_isArray parsedLog)
   || negb (is_type TObject portfolio)
   || negb (is_type TNumber budget))%bool.

Definition analyzeCompute (llm : option string) (st : ServerState)
  : Rand (Result Body * ServerState) :=
  match llm with
  | None => ret (Throw CompletionError, st)
  | Some content => ret (Ok (AnalysisBody (trim content)), st)
  end.

(** [POST /analyzePerformance].  The parse of [log] stands before the
    [try] of the handler: an exception there leaves the handler, which
    sends no response; the result is then a [Throw]. *)
Definition analyzePerformance (req : AnalyzeRequest.t) (llm : option string)
    (now now' : Z) (st : ServerState) : Rand (Result Response * ServerState) :=
  match parseLog (AnalyzeRequest.log req) with
  | Throw e => ret (Throw e, st)
  | Ok parsedLog =>
      if invalidAnalyzeInput parsedLog (AnalyzeRequest.portfolio req)
           (AnalyzeRequest.budget req)
      then ret (Ok (respond 400 (ErrorBody "Invalid input")), st)
      else
        let cacheKey :=
          "analyze_" +:+ JSON_stringify
            (JObj [("log", default JNull parsedLog);
                   ("portfolio", default JNull (AnalyzeRequest.portfolio req));
                   ("budget", default JNull (AnalyzeRequest.budget req))]) in
        let! out := getOrCacheResponse cacheKey (analyzeCompute llm) now now' st in
        match fst out with
        | Ok d => ret (Ok (respond 200 d), snd out)
        | Throw _ =>
            ret (Ok (respond 500 (ErrorBody "Failed to analyze performance")),
                 snd out)
        end
  end.

End Server.

End Expert.

(** * The casual server *)

Module Casual.

Module Tick.
Record t : Type := mk {
  ticker : string;
  day : Z;
  price : Q;
  headline : string;
  description : string
}.

(** The tick as the object literal of the source: the properties it
    has, and no other. *)
Definition toObject (x : t) : value :=
  JObj [("ticker", JStr (ticker x));
        ("day", JNum (inject_Z (day x)));
        ("price", JNum (price x));
        ("headline", JStr (headline x));
        ("description", JStr (description x))].
End Tick.

Definition fallbackTick (stock : Stock.t) (currentDay i : Z) : Rand Tick.t :=
  let day := (currentDay + i + 1)%Z in
  let isEarningsDay := (Z.rem day 10 =? 0)%Z in
  let quarter := if isEarningsDay then "Q" +:+ pretty (day / 10)%Z else EmptyString in
  let! performance :=
    (if isEarningsDay
     then let! r := Math_random in
          ret (if Qlt_bool (1 # 2) r then "positive" else "negative")
     else ret EmptyString) in
  let! priceChange :=
    (if isEarningsDay
     then ret (if String.eqb performance "positive" then 2 # 10 else - (2 # 10))
     else let! r := Math_random in
          ret ((r - (1 # 2)) * (2 # 10))) in
  let price := Stock.price stock * (1 + priceChange) in
  ret {| Tick.ticker := Stock.ticker stock;
         Tick.day := day;
         Tick.price := price;
         Tick.headline :=
           if isEarningsDay then quarter +:+ " Earnings Call"
           else "Update for " +:+ Stock.name stock;
         Tick.description :=
           if isEarningsDay
           then if String.eqb performance "positive"
                then Stock.name stock +:+ " reports strong revenue growth"
                else Stock.name stock +:+ " misses earnings expectations"
           else "Price changed on day " +:+ pretty day |}.

Fixpoint fallbackDays (stock : Stock.t) (currentDay : Z) (n : nat) (i : Z)
  : Rand (list Tick.t) :=
  match n with
  | O => ret []
  | S n' =>
      let! tick := fallbackTick stock currentDay i in
      let! rest := fallbackDays stock currentDay n' (i + 1)%Z in
      ret (tick :: rest)
  end.

Fixpoint fallbackSimulate (stocks : list Stock.t) (currentDay days : Z)
  : Rand (list Tick.t) :=
  match stocks with
  | [] => ret []
  | stock :: rest =>
      let! mine := fallbackDays stock currentDay (Z.to_nat days) 0%Z in
      let! others := fallbackSimulate rest currentDay days in
      ret (mine ++ others)
  end.

(** ** Validation of what the language model returns *)

(** The callback of [stocks.filter] in [/stocks]. *)
Definition stockFilter (stock : value) : bool :=
  (truthy (Some stock)
   && is_type TString (prop "ticker" stock)
   && is_type TString (prop "name" stock)
   && is_type TNumber (prop "price" stock)
   && is_type TNumber (prop "previousDayPrice" stock)
   && is_type TNumber (prop "priceChange" stock)
   && is_type TNumber (prop "volatility" stock))%bool.

Definition validateStocks (parsed : value) : Result (list value) :=
  match parsed with
  | JArr items =>
      let stocks := List.filter stockFilter items in
      if (length stocks =? 0)%nat then Throw (Error "No valid stocks returned")
      else Ok stocks
  | _ => Throw (Error "Response is not an array")
  end.

Definition num_ge (x : option value) (n : Q) : bool :=
  match x with Some (JNum q) => Qle_bool n q | _ => false end.

Definition num_le (x : option value) (n : Q) : bool :=
  match x with Some (JNum q) => Qle_bool q n | _ => false end.

Definition num_lt (x : option value) (n : Q) : bool :=
  match x with Some (JNum q) => Qlt_bool q n | _ => false end.

Definition num_gt (x : option value) (n : Q) : bool :=
  match x with Some (JNum q) => Qlt_bool n q | _ => false end.

Definition tickChecks (currentDay days : Z) (s : value) : bool :=
  (truthy (prop "ticker" s)
   && is_type TNumber (prop "day" s)
   && num_ge (prop "day" s) (inject_Z (currentDay + 1))
   && num_le (prop "day" s) (inject_Z (currentDay + days))
   && is_type TNumber (prop "price" s)
   && num_ge (prop "price" s) 0
   && is_type TString (prop "headline" s)
   && is_type TString (prop "description" s))%bool.

Definition tickFilter (currentDay days : Z) (s : value) : Result bool :=
  match s with
  | JNull => Throw TypeError
  | _ => Ok (tickChecks currentDay days s)
  end.

Definition validateTicks (currentDay days : Z) (parsed : value)
  : Result (list value) :=
  match parsed with
  | JArr items =>
      match filterM (tickFilter currentDay days) items with
      | Throw e => Throw e
      | Ok simulated =>
          if (length simulated =? 0)%nat
          then Throw (Error "No valid simulation data")
          else Ok simulated
      end
  | _ => Throw (Error "Response is not an array")
  end.

Inductive Simulated : Type :=
| Validated (ticks : list value)
| Fallback (ticks : list Tick.t).

(** [stock.ticker === x] for a stock whose ticker is a string. *)
Definition tickerIs (x : option value) (stock : Stock.t) : bool :=
  match x with
  | Some (JStr s) => String.eqb (Stock.ticker stock) s
  | _ => false
  end.

(** The three tests of the [try] block of [/predictNews], in order. *)
Definition predictionChecks (stocks : list Stock.t) (currentDay : Z)
    (prediction : value) : Result unit :=
  match prediction with
  | JNull => Throw TypeError
  | _ =>
      if (negb (truthy (prop "ticker" prediction))
          || negb (Number_isInteger (prop "day" prediction))
          || negb (includes ["rise"; "fall"] (prop "direction" prediction)))%bool
      then Throw (Error "Invalid prediction format")
      else if negb (existsb (tickerIs (prop "ticker" prediction)) stocks)
      then Throw (Error "Prediction ticker does not match any stock")
      else if (num_lt (prop "day" prediction) (inject_Z (currentDay + 1))
               || num_gt (prop "day" prediction) (inject_Z (currentDay + 7)))%bool
      then Throw (Error "Prediction day out of range")
      else Ok tt
  end.

Definition predictionFallback (stocks : list Stock.t) (currentDay : Z)
  : Rand (Result value) :=
  let! r1 := Math_random in
  match at_index stocks (Math_floor (r1 * inject_Z (Z.of_nat (length stocks)))) with
  | None => ret (Throw TypeError)
  | Some randomStock =>
      let! r2 := Math_random in
      let! r3 := Math_random in
      ret (Ok (JObj [("ticker", JStr (Stock.ticker randomStock));
                     ("day", JNum (inject_Z (currentDay + Math_floor (r2 * 7) + 1)));
                     ("direction",
                      JStr (if Qlt_bool (1 # 2) r3 then "rise" else "fall"))]))
  end.

Section Server.

Variable JSON_parse : string -> option value.

(** The [try]/[catch] of [/simulateDays]. *)
Definition simulatedOrFallback (stocks : list Stock.t) (currentDay days : Z)
    (content : string) : Rand Simulated :=
  let validated :=
    match JSON_parse content with
    | None => Throw SyntaxError
    | Some parsed => validateTicks currentDay days parsed
    end in
  match validated with
  | Ok simulated => ret (Validated simulated)
  | Throw _ =>
      let! ticks := fallbackSimulate stocks currentDay days in
      ret (Fallback ticks)
  end.

(** The [try]/[catch] of [/predictNews] on the text of the completion. *)
Definition predictionOrFallback (stocks : list Stock.t) (currentDay : Z)
    (content : string) : Rand (Result value) :=
  let candidate :=
    match JSON_parse content with
    | None => Throw SyntaxError
    | Some prediction =>
        match predictionChecks stocks currentDay prediction with
        | Throw e => Throw e
        | Ok _ => Ok prediction
        end
    end in
  match candidate with
  | Ok prediction => ret (Ok prediction)
  | Throw _ => predictionFallback stocks currentDay
  end.

End Server.

End Casual.

(** * Properties *)

(** ** Vocabulary of the statements *)

(** The price that the tick before position [j] of a run of ticks carries;
    [start] before the first position. *)
Definition priceBefore (start : Q) (ticks : list Expert.Tick.t) (j : nat) : Q :=
  match j with
  | O => start
  | S j' => from_option Expert.Tick.price 0 (ticks !! j')
  end.

(** The ticks of the [k]-th stock of the request in [simulated]: the
    [k]-th run of [len] ticks. *)
Definition ticksOfStock (k len : nat) (ticks : list Expert.Tick.t)
  : list Expert.Tick.t :=
  take len (drop (k * len) ticks).

Definition acme : Stock.t :=
  {| Stock.ticker := "ACME"; Stock.name := "Acme Tools";
     Stock.price := 100; Stock.volatility := 20 |}.

Definition bolt : Stock.t :=
  {| Stock.ticker := "BOLT"; Stock.name := "Bolt Energy";
     Stock.price := 40; Stock.volatility := 5 |}.

(** A stock whose price is the floor itself. *)
Definition penny : Stock.t :=
  {| Stock.ticker := "PNY"; Stock.name := "Penny Corp";
     Stock.price := 1 # 10; Stock.volatility := 20 |}.

(** An element that passes every check of the tick filter for day 1. *)
Definition goodTick : value :=
  JObj [("ticker", JStr "ACME"); ("day", JNum 1); ("price", JNum 101);
        ("headline", JStr "Steady"); ("description", JStr "Little news")].

(** A stock object that passes every check of the expert stock filter, and
    one whose [price] is a string. *)
Definition goodStock (ticker : string) : value :=
  JObj [("ticker", JStr ticker); ("name", JStr "Acme Tools"); ("price", JNum 100);
        ("previousDayPrice", JNum 98); ("priceChange", JNum 2);
        ("volatility", JNum 7); ("sector", JStr "Energy");
        ("tidbit", JStr "Makes tools.")].

Definition badStock : value :=
  JObj [("ticker", JStr "BAD"); ("name", JStr "Bad Data"); ("price", JStr "100");
        ("previousDayPrice", JNum 98); ("priceChange", JNum 2);
        ("volatility", JNum 7); ("sector", JStr "Energy");
        ("tidbit", JStr "Quotes its price.")].

(** What a freshly scheduled event looks like. *)
Definition freshShape (currentDay : Z) (e : Expert.EconEvent.t) : Prop :=
  (exists s, In s Expert.sectors /\ Expert.EconEvent.sector e = Some s)
  /\ (Expert.EconEvent.daysLeft e = 3%Z \/ Expert.EconEvent.daysLeft e = 4%Z)
  /\ (Expert.EconEvent.direction e = "positive"
      \/ Expert.EconEvent.direction e = "negative")
  /\ Expert.EconEvent.startDay e = (currentDay + 1)%Z.

(** Following the words of the specification, not the code: the days
    since the last event as [currentDay - max(startDay over
    activeEconEffects, default 0)], over the effects that have a [startDay]. *)
Definition specDaysSinceLastEvent (activeEconEffects : list Expert.EconEffect.t)
    (currentDay : Z) : Z :=
  (currentDay
   - match omap Expert.EconEffect.startDay activeEconEffects with
     | [] => 0
     | d :: ds => fold_left Z.max ds d
     end)%Z.

Definition effectStarting (startDay : option Z) : Expert.EconEffect.t :=
  {| Expert.EconEffect.sector := "Energy";
     Expert.EconEffect.headline := "Positive Market Shift in Energy";
     Expert.EconEffect.daysLeft := 3;
     Expert.EconEffect.startDay := startDay;
     Expert.EconEffect.direction := "positive" |}.

Definition predictionFor (day : Z) : Expert.PredictedEconEvent.t :=
  {| Expert.PredictedEconEvent.sector := Some "Finance";
     Expert.PredictedEconEvent.headline := "Negative Market Shift in Finance";
     Expert.PredictedEconEvent.day := day;
     Expert.PredictedEconEvent.daysLeft := 4;
     Expert.PredictedEconEvent.direction := "negative" |}.

Definition stateWith (predicted : option Expert.PredictedEconEvent.t)
  : Expert.ServerState :=
  {| Expert.responseCache := ∅; Expert.predictedEconEvent := predicted |}.

(** A [JSON.parse] that knows the value of one text and rejects every
    other text. *)
Definition parseOnly (text : string) (v : value) : string -> option value :=
  fun s => if String.eqb s text then Some v else None.

(** A text that is not JSON, and a [JSON.parse] that rejects it. *)
Definition apology : string := "I am sorry, I cannot simulate that.".

Definition parseEmptyArray : string -> option value := parseOnly "[]" (JArr []).

(** A request for days 5 to 7. *)
Definition batchRequest : Expert.SimulateRequest.t :=
  {| Expert.SimulateRequest.stocks := [acme; bolt];
     Expert.SimulateRequest.days := 3;
     Expert.SimulateRequest.predictions := [];
     Expert.SimulateRequest.currentDay := 4;
     Expert.SimulateRequest.activeEconEffects := [] |}.

(** A candidate prediction for a ticker that no stock has and a day far
    outside the week, and its JSON text. *)
Definition strayPrediction : value :=
  JObj [("ticker", JStr "ZZZ"); ("day", JNum 99); ("direction", JStr "rise")].

Definition quoted (s : string) : string :=
  String (Ascii.ascii_of_nat 34) s +:+ String (Ascii.ascii_of_nat 34) EmptyString.

Definition strayText : string :=
  "{" +:+ quoted "ticker" +:+ ":" +:+ quoted "ZZZ" +:+ ","
  +:+ quoted "day" +:+ ":99,"
  +:+ quoted "direction" +:+ ":" +:+ quoted "rise" +:+ "}".

(** A prediction names a stock of the catalog and a day of the coming
    week. *)
Definition predictionInCatalog (stocks : list Stock.t) (currentDay : Z)
    (prediction : value) : Prop :=
  (exists stock,
      In stock stocks
      /\ prop "ticker" prediction = Some (JStr (Stock.ticker stock)))
  /\ (exists q,
         prop "day" prediction = Some (JNum q)
         /\ inject_Z currentDay < q /\ q <= inject_Z (currentDay + 7)).

(** A stand-in for [JSON.stringify] in the examples. *)
Definition stringifyKind (v : value) : string :=
  match v with
  | JNull => "null"
  | JBool _ => "boolean"
  | JNum _ => "number"
  | JStr _ => "string"
  | JArr _ => "[...]"
  | JObj _ => "{...}"
  end.

Definition cachedBatch : Expert.CacheEntry :=
  {| Expert.data := Expert.SimulateBody (Expert.Validated [goodTick]) [];
     Expert.timestamp := 1000 |}.

(** A server that has answered [batchRequest] at time 1000 and holds a
    prediction for day 6, inside the days 5 to 7 of the request. *)
Definition warmState : Expert.ServerState :=
  {| Expert.responseCache :=
       {[ Expert.simulateCacheKey stringifyKind batchRequest := cachedBatch ]};
     Expert.predictedEconEvent := Some (predictionFor 6) |}.

Definition malformedLogRequest : Expert.AnalyzeRequest.t :=
  {| Expert.AnalyzeRequest.log := Some (JStr apology);
     Expert.AnalyzeRequest.portfolio := Some (JObj []);
     Expert.AnalyzeRequest.budget := Some (JNum 8000) |}.

(** A response body, or a cache, that carries at most one new event. *)
Definition atMostOneEvent (b : Expert.Body) : Prop :=
  match b with
  | Expert.SimulateBody _ newEconEvents => (length newEconEvents <= 1)%nat
  | _ => True
  end.

Definition cacheAtMostOneEvent (st : Expert.ServerState) : Prop :=
  forall key entry,
    Expert.responseCache st !! key = Some entry ->
    atMostOneEvent (Expert.data entry).

(** The entry of [key] is in the cache and younger than [CACHE_TTL]. *)
Definition cacheFresh (now : Z) (st : Expert.ServerState) (key : string) : bool :=
  match Expert.responseCache st !! key with
  | Some cached => (now - Expert.timestamp cached <? Expert.CACHE_TTL)%Z
  | None => false
  end.

(** The object literal that the fallback loop of the expert server pushes
    on [simulated], property by property. *)
Definition expertTickObject (t : Expert.Tick.t) : value :=
  JObj [("ticker", JStr (Expert.Tick.ticker t));
        ("day", JNum (inject_Z (Expert.Tick.day t)));
        ("price", JNum (Expert.Tick.price t));
        ("previousDayPrice", JNum (Expert.Tick.previousDayPrice t));
        ("priceChange", JNum (Expert.Tick.priceChange t));
        ("volatility", JNum (Expert.Tick.volatility t));
        ("headline", JStr (Expert.Tick.headline t));
        ("description", JStr (Expert.Tick.description t))].

(** A tick of the fallback belongs to a stock of the request and to one of
    the requested days. *)
Definition onGrid (stocks : list Stock.t) (currentDay days : Z)
    (ticker : string) (day : Z) : Prop :=
  (exists stock, In stock stocks /\ ticker = Stock.ticker stock)
  /\ (currentDay + 1 <= day <= currentDay + days)%Z.

(** The price of a tick of the casual fallback against the price of its
    stock in the request: 20% up or down on a day that is a multiple of 10,
    within 10% on any other day. *)
Definition casualBand (stock : Stock.t) (t : Casual.Tick.t) : Prop :=
  if (Z.rem (Casual.Tick.day t) 10 =? 0)%Z
  then Casual.Tick.price t == (12 # 10) * Stock.price stock
       \/ Casual.Tick.price t == (8 # 10) * Stock.price stock
  else (9 # 10) * Stock.price stock <= Casual.Tick.price t
       /\ Casual.Tick.price t <= (11 # 10) * Stock.price stock.

(** A property that holds a string, and one that holds a number. *)
Definition holdsString (k : string) (x : value) : Prop :=
  exists s, prop k x = Some (JStr s).

Definition holdsNumber (k : string) (x : value) : Prop :=
  exists q, prop k x = Some (JNum q).

(** What the stock filter of the expert server lets through. *)
Definition wellTypedStock (stock : value) : Prop :=
  holdsString "ticker" stock /\ holdsString "name" stock
  /\ holdsNumber "price" stock /\ holdsNumber "previousDayPrice" stock
  /\ holdsNumber "priceChange" stock /\ holdsNumber "volatility" stock
  /\ holdsString "sector" stock /\ holdsString "tidbit" stock.

(** What the tick filter lets through. *)
Definition wellTypedTick (currentDay days : Z) (s : value) : Prop :=
  truthy (prop "ticker" s) = true
  /\ (exists d, prop "day" s = Some (JNum d)
                /\ inject_Z (currentDay + 1) <= d /\ d <= inject_Z (currentDay + days))
  /\ (exists p, prop "price" s = Some (JNum p) /\ 0 <= p)
  /\ holdsString "headline" s /\ holdsString "description" s.

(** An active effect that keeps the scheduler quiet on [currentDay]: it
    has no [startDay], or 0, or one fewer than 6 days back. *)
Definition recentEffect (currentDay : Z) (e : Expert.EconEffect.t) : Prop :=
  match Expert.EconEffect.startDay e with
  | Some d => d = 0%Z \/ (currentDay - 6 < d)%Z
  | None => True
  end.

(** A tick for day 1.5 at price 0. *)
Definition oddTick : value :=
  JObj [("ticker", JStr "ACME"); ("day", JNum (3 # 2)); ("price", JNum 0);
        ("headline", JStr "Halt"); ("description", JStr "Trading halted")].

(** The text has a backquote somewhere. *)
Fixpoint hasBackquote (s : string) : bool :=
  match s with
  | EmptyString => false
  | String c rest => Ascii.eqb c (Ascii.ascii_of_nat 96) || hasBackquote rest
  end.

(** The key under which [/analyzePerformance] caches its answer. *)
Definition analyzeCacheKey (JSON_stringify : value -> string)
    (parsedLog portfolio budget : option value) : string :=
  "analyze_" +:+ JSON_stringify
    (JObj [("log", default JNull parsedLog);
           ("portfolio", default JNull portfolio);
           ("budget", default JNull budget)]).

(** What the validation of [/analyzePerformance] lets through: an array
    as log, a number as budget, and as portfolio anything whose [typeof]
    is object, which includes an array and [null]. *)
Definition acceptedAnalyzeInput (req : Expert.AnalyzeRequest.t) : Prop :=
  (exists items, Expert.AnalyzeRequest.log req = Some (JArr items))
  /\ (Expert.AnalyzeRequest.portfolio req = Some JNull
      \/ (exists items, Expert.AnalyzeRequest.portfolio req = Some (JArr items))
      \/ (exists fields, Expert.AnalyzeRequest.portfolio req = Some (JObj fields)))
  /\ (exists b, Expert.AnalyzeRequest.budget req = Some (JNum b)).

(** A run with an empty log, no portfolio object and the starting budget. *)
Definition emptyRunRequest : Expert.AnalyzeRequest.t :=
  {| Expert.AnalyzeRequest.log := Some (JArr []);
     Expert.AnalyzeRequest.portfolio := Some JNull;
     Expert.AnalyzeRequest.budget := Some (JNum 8000) |}.

(** ** The random-walk fallback *)

Ltac run := unfold bind, ret, Math_random; cbn [fst snd].

Lemma Math_max_floor (a b : Q) : a <= Math_max a b.
Proof.
  unfold Math_max. destruct (Qle_bool a b) eqn:E.
  - now apply Qle_bool_iff.
  - apply Qle_refl.
Qed.

(** One iteration of the inner loop of the expert server: the fields that
    do not depend on the draws, and the shape of the price. *)
Lemma expert_fallbackTick_fields stock currentDay i prevPrice src :
  let t := fst (Expert.fallbackTick stock currentDay i prevPrice src) in
  Expert.Tick.ticker t = Stock.ticker stock
  /\ Expert.Tick.day t = (currentDay + i + 1)%Z
  /\ Expert.Tick.previousDayPrice t = prevPrice
  /\ exists priceChange,
       Expert.Tick.price t = Math_max (1 # 10) (prevPrice * (1 + priceChange)).
Proof.
  unfold Expert.fallbackTick.
  destruct (Z.rem (currentDay + i + 1) 10 =? 0)%Z; run;
    repeat split; eexists; reflexivity.
Qed.

Lemma expert_fallbackDays_cons stock currentDay n i prevPrice src :
  let first := Expert.fallbackTick stock currentDay i prevPrice src in
  fst (Expert.fallbackDays stock currentDay (S n) i prevPrice src)
  = fst first
    :: fst (Expert.fallbackDays stock currentDay n (i + 1)%Z
              (Expert.Tick.price (fst first)) (snd first)).
Proof.
  cbn [Expert.fallbackDays]. unfold bind at 1.
  destruct (Expert.fallbackTick stock currentDay i prevPrice src) as [t s1].
  unfold bind at 1. cbn [fst snd].
  destruct (Expert.fallbackDays stock currentDay n (i + 1)%Z (Expert.Tick.price t) s1).
  reflexivity.
Qed.

Lemma expert_fallbackSimulate_cons stock rest currentDay days src :
  exists src',
    fst (Expert.fallbackSimulate (stock :: rest) currentDay days src)
    = fst (Expert.fallbackDays stock currentDay (Z.to_nat days) 0%Z
             (Stock.price stock) src)
      ++ fst (Expert.fallbackSimulate rest currentDay days src').
Proof.
  cbn [Expert.fallbackSimulate]. unfold bind at 1.
  destruct (Expert.fallbackDays stock currentDay (Z.to_nat days) 0%Z
              (Stock.price stock) src) as [mine s1].
  unfold bind at 1. exists s1.
  destruct (Expert.fallbackSimulate rest currentDay days s1). reflexivity.
Qed.

(** The ticks of one stock: one per day, in order, each carrying the price
    of the tick before it. *)
Lemma expert_fallbackDays_chain stock currentDay n :
  forall i prevPrice src,
    let ticks := fst (Expert.fallbackDays stock currentDay n i prevPrice src) in
    length ticks = n
    /\ forall j t, ticks !! j = Some t ->
         Expert.Tick.ticker t = Stock.ticker stock
         /\ Expert.Tick.day t = (currentDay + i + Z.of_nat j + 1)%Z
         /\ Expert.Tick.previousDayPrice t = priceBefore prevPrice ticks j.
Proof.
  induction n as [|n IH]; intros i prevPrice src ticks.
  - split; [reflexivity | intros j t H; destruct j; discriminate H].
  - subst ticks. rewrite expert_fallbackDays_cons. cbv zeta.
    set (t0 := fst (Expert.fallbackTick stock currentDay i prevPrice src)).
    destruct (expert_fallbackTick_fields stock currentDay i prevPrice src)
      as (Hk & Hd & Hp & _). fold t0 in Hk, Hd, Hp.
    specialize (IH (i + 1)%Z (Expert.Tick.price t0)
                   (snd (Expert.fallbackTick stock currentDay i prevPrice src))).
    cbv zeta in IH. destruct IH as [Hlen IH].
    split; [cbn [length]; now rewrite Hlen|].
    intros [|j] t Hj.
    + cbn in Hj. injection Hj as <-. rewrite Hk, Hd, Hp.
      repeat split. f_equal. lia.
    + cbn in Hj. destruct (IH j t Hj) as (Hk' & Hd' & Hp').
      rewrite Hk', Hd', Hp'. repeat split; [lia|].
      destruct j; reflexivity.
Qed.

(** The output of the fallback is the concatenation, stock by stock, of
    runs of [days] ticks. *)
Lemma expert_fallbackSimulate_segments stocks currentDay days :
  forall src k stock,
    stocks !! k = Some stock ->
    exists src',
      ticksOfStock k (Z.to_nat days)
        (fst (Expert.fallbackSimulate stocks currentDay days src))
      = fst (Expert.fallbackDays stock currentDay (Z.to_nat days) 0%Z
               (Stock.price stock) src').
Proof.
  unfold ticksOfStock.
  induction stocks as [|s0 rest IH]; intros src k stock Hk; [discriminate Hk|].
  destruct (expert_fallbackSimulate_cons s0 rest currentDay days src) as [s1 ->].
  pose proof (proj1 (expert_fallbackDays_chain s0 currentDay (Z.to_nat days)
                       0%Z (Stock.price s0) src)) as Hlen.
  cbv zeta in Hlen.
  destruct k as [|k].
  - injection Hk as <-. exists src. rewrite Nat.mul_0_l, drop_0.
    rewrite take_app_le by lia. apply take_ge. lia.
  - cbn in Hk. destruct (IH s1 k stock Hk) as [src' IHk]. exists src'.
    rewrite <- IHk. f_equal. replace (S k * Z.to_nat days)%nat
      with (Z.to_nat days + k * Z.to_nat days)%nat by lia.
    rewrite <- drop_drop.
    f_equal. rewrite drop_app_length'; [reflexivity | symmetry; exact Hlen].
Qed.

(** Every tick of the output lies in the run of some stock of the list. *)
Lemma expert_fallbackSimulate_covers stocks currentDay days :
  forall src t,
    In t (fst (Expert.fallbackSimulate stocks currentDay days src)) ->
    exists k stock j,
      stocks !! k = Some stock
      /\ ticksOfStock k (Z.to_nat days)
           (fst (Expert.fallbackSimulate stocks currentDay days src)) !! j = Some t.
Proof.
  unfold ticksOfStock.
  induction stocks as [|s0 rest IH]; intros src t Hin; [destruct Hin|].
  pose proof (proj1 (expert_fallbackDays_chain s0 currentDay (Z.to_nat days)
                       0%Z (Stock.price s0) src)) as Hlen.
  cbv zeta in Hlen.
  destruct (expert_fallbackSimulate_cons s0 rest currentDay days src) as [s1 Heq].
  rewrite Heq in Hin |- *. apply in_app_or in Hin. destruct Hin as [Hin|Hin].
  - exists 0%nat, s0. apply list_elem_of_In, list_elem_of_lookup in Hin.
    destruct Hin as [j Hj]. exists j. split; [reflexivity|].
    rewrite Nat.mul_0_l, drop_0, take_app_le by lia.
    rewrite take_ge by lia. exact Hj.
  - destruct (IH s1 t Hin) as (k & stock & j & Hk & Hj).
    exists (S k), stock, j. split; [exact Hk|].
    replace (S k * Z.to_nat days)%nat
      with (Z.to_nat days + k * Z.to_nat days)%nat by lia.
    rewrite <- drop_drop, drop_app_length'; [exact Hj | symmetry; exact Hlen].
Qed.

(** X24: the chain read by ticker and day: where the stocks of the request have
    distinct tickers, the tick of a ticker for the day after another tick of
    that ticker carries its price. *)
Lemma expert_fallback_chain_by_ticker stocks currentDay days src t1 t2 :
  NoDup (map Stock.ticker stocks) ->
  In t1 (fst (Expert.fallbackSimulate stocks currentDay days src)) ->
  In t2 (fst (Expert.fallbackSimulate stocks currentDay days src)) ->
  Expert.Tick.ticker t2 = Expert.Tick.ticker t1 ->
  Expert.Tick.day t2 = (Expert.Tick.day t1 + 1)%Z ->
  Expert.Tick.previousDayPrice t2 = Expert.Tick.price t1.
Proof.
  intros Hnodup Hin1 Hin2 Hticker Hday.
  destruct (expert_fallbackSimulate_covers _ _ _ _ _ Hin1)
    as (k1 & s1 & j1 & Hk1 & Hj1).
  destruct (expert_fallbackSimulate_covers _ _ _ _ _ Hin2)
    as (k2 & s2 & j2 & Hk2 & Hj2).
  destruct (expert_fallbackSimulate_segments stocks currentDay days src k1 s1 Hk1)
    as [src1 Hrun1].
  destruct (expert_fallbackSimulate_segments stocks currentDay days src k2 s2 Hk2)
    as [src2 Hrun2].
  pose proof (proj2 (expert_fallbackDays_chain s1 currentDay (Z.to_nat days) 0%Z
                       (Stock.price s1) src1)) as Hc1.
  pose proof (proj2 (expert_fallbackDays_chain s2 currentDay (Z.to_nat days) 0%Z
                       (Stock.price s2) src2)) as Hc2.
  cbv zeta in Hc1, Hc2. rewrite <- Hrun1 in Hc1. rewrite <- Hrun2 in Hc2.
  destruct (Hc1 j1 t1 Hj1) as (Ht1 & Hd1 & _).
  destruct (Hc2 j2 t2 Hj2) as (Ht2 & Hd2 & Hp2).
  assert (k2 = k1) as ->.
  { apply (NoDup_lookup _ k2 k1 (Stock.ticker s1) Hnodup).
    - rewrite list_lookup_fmap, Hk2. cbn. congruence.
    - rewrite list_lookup_fmap, Hk1. reflexivity. }
  assert (j2 = S j1) as -> by lia.
  rewrite Hp2. cbn [priceBefore]. rewrite Hj1. reflexivity.
Qed.

(** C1, as amended: in the fallback of the expert server, the ticks of
    each stock of the list (the [k]-th run of [days] ticks of [simulated])
    are one per day from [currentDay + 1] on, carry the ticker of the stock,
    and chain their prices: the first [previousDayPrice] is the price of the
    stock in the request, every later one is the [price] of the tick of the
    day before. *)
Theorem expert_fallback_price_chain stocks currentDay days src k stock :
  stocks !! k = Some stock ->
  let run :=
    ticksOfStock k (Z.to_nat days)
      (fst (Expert.fallbackSimulate stocks currentDay days src)) in
  length run = Z.to_nat days
  /\ forall j t, run !! j = Some t ->
       Expert.Tick.ticker t = Stock.ticker stock
       /\ Expert.Tick.day t = (currentDay + Z.of_nat j + 1)%Z
       /\ Expert.Tick.previousDayPrice t = priceBefore (Stock.price stock) run j.
Proof.
  intros Hk run. subst run.
  destruct (expert_fallbackSimulate_segments stocks currentDay days src k stock Hk)
    as [src' ->].
  destruct (expert_fallbackDays_chain stock currentDay (Z.to_nat days) 0%Z
              (Stock.price stock) src') as [Hlen Hrun].
  split; [exact Hlen|].
  intros j t Hj. destruct (Hrun j t Hj) as (H1 & H2 & H3).
  repeat split; [exact H1 | rewrite H2; lia | exact H3].
Qed.

Lemma expert_fallback_price_chain_witness :
  [acme; bolt] !! 1%nat = Some bolt
  /\ length (ticksOfStock 1 2
               (fst (Expert.fallbackSimulate [acme; bolt] 9 2
                       (constant_source (1 # 4))))) = 2%nat
  /\ forall j t,
       ticksOfStock 1 2
         (fst (Expert.fallbackSimulate [acme; bolt] 9 2 (constant_source (1 # 4))))
         !! j = Some t ->
       Expert.Tick.ticker t = "BOLT"
       /\ Expert.Tick.day t = (9 + Z.of_nat j + 1)%Z
       /\ Expert.Tick.previousDayPrice t
          = priceBefore 40
              (ticksOfStock 1 2
                 (fst (Expert.fallbackSimulate [acme; bolt] 9 2
                         (constant_source (1 # 4))))) j.
Proof.
  split; [reflexivity|].
  apply (expert_fallback_price_chain [acme; bolt] 9 2 (constant_source (1 # 4))
           1 bolt).
  reflexivity.
Defined.

(** C1 fails on the casual server: its ticks have no [previousDayPrice]
    property, and the price of a day is computed from the price of the
    stock in the request, not from the tick of the day before.  Here day 1
    closes at 95 and day 2 at 105 = 100 * 1.05. *)
Lemma casual_fallback_no_price_chain :
  exists t1 t2,
    fst (Casual.fallbackSimulate [acme] 0 2 (draws [1 # 4; 3 # 4] (constant_source 0)))
    = [t1; t2]
    /\ Casual.Tick.day t1 = 1%Z /\ Casual.Tick.day t2 = 2%Z
    /\ prop "price" (Casual.Tick.toObject t1) = Some (JNum (Casual.Tick.price t1))
    /\ Casual.Tick.price t1 == 95
    /\ prop "previousDayPrice" (Casual.Tick.toObject t2) = None
    /\ Casual.Tick.price t2 == 105.
Proof.
  do 2 eexists. split; [vm_compute; reflexivity|].
  repeat split; vm_compute; reflexivity.
Qed.

Lemma expert_fallbackDays_floor stock currentDay n :
  forall i prevPrice src,
    Forall
      (fun t =>
         1 # 10 <= Expert.Tick.price t
         /\ exists priceChange,
              Expert.Tick.price t
              = Math_max (1 # 10) (Expert.Tick.previousDayPrice t * (1 + priceChange)))
      (fst (Expert.fallbackDays stock currentDay n i prevPrice src)).
Proof.
  induction n as [|n IH]; intros i prevPrice src.
  - constructor.
  - rewrite expert_fallbackDays_cons. cbv zeta. constructor; [|apply IH].
    destruct (expert_fallbackTick_fields stock currentDay i prevPrice src)
      as (_ & _ & Hp & pc & Hprice).
    rewrite Hp. split; [|exists pc; exact Hprice].
    rewrite Hprice. apply Math_max_floor.
Qed.

(** The floor at work: the expert server keeps a stock priced 0.1 at 0.1
    on an earnings day with a negative move. *)
Example expert_fallback_floor_active :
  exists t,
    fst (Expert.fallbackSimulate [penny] 9 1 (constant_source 0)) = [t]
    /\ Expert.Tick.headline t = "Q1 Earnings Call"
    /\ Expert.Tick.description t = "Penny Corp misses earnings expectations"
    /\ Expert.Tick.price t == 1 # 10.
Proof.
  eexists. split; [vm_compute; reflexivity|].
  repeat split; vm_compute; reflexivity.
Qed.

(** C2 fails on the casual server, whose fallback has no floor: a stock
    priced 0.1 closes an earnings day with a negative move at 0.08. *)
Lemma casual_fallback_below_floor :
  0 < Stock.price penny
  /\ exists t,
       fst (Casual.fallbackSimulate [penny] 9 1 (constant_source 0)) = [t]
       /\ Casual.Tick.day t = 10%Z
       /\ Casual.Tick.price t == 8 # 100
       /\ Casual.Tick.price t < 1 # 10.
Proof.
  split; [reflexivity|].
  eexists. split; [vm_compute; reflexivity|].
  repeat split; vm_compute; reflexivity.
Qed.

(** ** The validators *)

(** The stock validator drops the elements that fail a check, keeps the
    others in order, and fails exactly when none is left. *)
Lemma expert_validateStocks_filter items :
  Expert.validateStocks (JArr items)
  = match List.filter Expert.stockFilter items with
    | [] => Throw (Error "No valid stocks returned")
    | kept => Ok kept
    end.
Proof.
  unfold Expert.validateStocks.
  destruct (List.filter Expert.stockFilter items); reflexivity.
Qed.

Lemma casual_validateStocks_filter items :
  Casual.validateStocks (JArr items)
  = match List.filter Casual.stockFilter items with
    | [] => Throw (Error "No valid stocks returned")
    | kept => Ok kept
    end.
Proof.
  unfold Casual.validateStocks.
  destruct (List.filter Casual.stockFilter items); reflexivity.
Qed.

Example expert_validateStocks_three_of_five :
  Expert.validateStocks
    (JArr [goodStock "AAA"; badStock; goodStock "BBB"; JNull; goodStock "CCC"])
  = Ok [goodStock "AAA"; goodStock "BBB"; goodStock "CCC"].
Proof. vm_compute. reflexivity. Qed.

Lemma filterM_total {A} (f : A -> Result bool) (g : A -> bool) (xs : list A) :
  Forall (fun x => f x = Ok (g x)) xs -> filterM f xs = Ok (List.filter g xs).
Proof.
  induction 1 as [|x xs Hx _ IH]; [reflexivity|].
  cbn [filterM List.filter]. rewrite Hx, IH.
  destruct (g x); reflexivity.
Qed.

(** On an array without [null] the tick validator follows the same
    policy. *)
Lemma expert_validateTicks_filter currentDay days items :
  Forall (fun s => s <> JNull) items ->
  Expert.validateTicks currentDay days (JArr items)
  = match List.filter (Expert.tickChecks currentDay days) items with
    | [] => Throw (Error "No valid simulation data")
    | kept => Ok kept
    end.
Proof.
  intros Hnn. unfold Expert.validateTicks.
  rewrite (filterM_total _ (Expert.tickChecks currentDay days)).
  - destruct (List.filter _ items); reflexivity.
  - eapply Forall_impl; [exact Hnn|].
    intros s Hs. destruct s; try reflexivity. now destruct Hs.
Qed.

(** C3, at the input where the code departs from it: the array
    [[null, t]] with a well-formed tick [t].  The field checks alone would
    keep [t], but the callback reads [s.ticker] of [null], the exception
    ends the [try] block, and both servers fall back as if nothing valid
    had been returned; the stock filter, which tests [stock] first, drops
    the [null] and keeps the rest. *)
Theorem validateTicks_null_element :
  List.filter (Expert.tickChecks 0 1) [JNull; goodTick] = [goodTick]
  /\ Expert.validateTicks 0 1 (JArr [JNull; goodTick]) = Throw TypeError
  /\ Casual.validateTicks 0 1 (JArr [JNull; goodTick]) = Throw TypeError
  /\ Expert.validateTicks 0 1 (JArr [goodTick]) = Ok [goodTick]
  /\ Expert.validateStocks (JArr [JNull; goodStock "AAA"]) = Ok [goodStock "AAA"].
Proof. repeat split; vm_compute; reflexivity. Qed.

(** With that array as the completion, both servers discard the valid
    tick and simulate on their own. *)
Lemma simulatedOrFallback_null_element JSON_parse content stocks src :
  JSON_parse content = Some (JArr [JNull; goodTick]) ->
  (exists ticks,
      fst (Expert.simulatedOrFallback JSON_parse stocks 0 1 content src)
      = Expert.Fallback ticks)
  /\ (exists ticks,
         fst (Casual.simulatedOrFallback JSON_parse stocks 0 1 content src)
         = Casual.Fallback ticks).
Proof.
  intros Hparse.
  unfold Expert.simulatedOrFallback, Casual.simulatedOrFallback.
  rewrite Hparse. cbn [Expert.validateTicks Casual.validateTicks filterM
    Expert.tickFilter Casual.tickFilter]. unfold bind, ret.
  destruct (Expert.fallbackSimulate stocks 0 1 src) as [ticks s1].
  destruct (Casual.fallbackSimulate stocks 0 1 src) as [ticks' s1'].
  split; eexists; reflexivity.
Qed.

(** A completion that is not JSON, one stock, one day after day 9: the
    fallback of the expert server reports the earnings call of day 10. *)
Example expert_fallback_earnings_day :
  exists t,
    fst (Expert.simulatedOrFallback parseEmptyArray [acme] 9 1 apology
           (constant_source (3 # 4)))
    = Expert.Fallback [t]
    /\ Expert.Tick.day t = 10%Z
    /\ Expert.Tick.headline t = "Q1 Earnings Call"
    /\ Expert.Tick.description t = "Acme Tools reports strong revenue growth"
    /\ Expert.Tick.previousDayPrice t = 100
    /\ Expert.Tick.price t == 120.
Proof.
  eexists. split; [vm_compute; reflexivity|].
  repeat split; vm_compute; reflexivity.
Qed.

(** ** The scheduler of economic events *)

Lemma floor_draw_range (r : Q) (n : Z) :
  0 <= r -> r < 1 -> (0 < n)%Z -> (0 <= Math_floor (r * inject_Z n) < n)%Z.
Proof.
  intros H0 H1 Hn. unfold Math_floor.
  assert (Hn' : 0 < inject_Z n) by (change 0 with (inject_Z 0); now rewrite <- Zlt_Qlt).
  split.
  - change 0%Z with (Qfloor 0). apply Qfloor_resp_le.
    apply Qmult_le_0_compat; [exact H0 | now apply Qlt_le_weak].
  - rewrite Zlt_Qlt. eapply Qle_lt_trans; [apply Qfloor_le|].
    rewrite <- (Qmult_1_l (inject_Z n)) at 2.
    now apply Qmult_lt_compat_r.
Qed.

Lemma sectorAt_in (i : Z) :
  (0 <= i < 6)%Z -> exists s, In s Expert.sectors /\ Expert.sectorAt i = Some s.
Proof.
  intros Hi.
  assert (i = 0 \/ i = 1 \/ i = 2 \/ i = 3 \/ i = 4 \/ i = 5)%Z
    as [->|[->|[->|[->|[->| ->]]]]] by lia;
    eexists; (split; [|reflexivity]); cbn; tauto.
Qed.

Lemma expert_freshEconEvent_shape currentDay src :
  unit_draws src ->
  freshShape currentDay (fst (Expert.freshEconEvent currentDay src)).
Proof.
  intros Hsrc. unfold Expert.freshEconEvent. run.
  unfold freshShape. cbn [Expert.EconEvent.sector Expert.EconEvent.daysLeft
    Expert.EconEvent.direction Expert.EconEvent.startDay].
  repeat split.
  - apply sectorAt_in.
    destruct (Hsrc 0%nat). now apply (floor_draw_range (src 0%nat) 6).
  - destruct (Hsrc 1%nat) as [H0 H1].
    pose proof (floor_draw_range (src 1%nat) 2 H0 H1 ltac:(lia)) as Hr.
    change (inject_Z 2) with 2 in Hr. lia.
  - destruct (Qlt_bool (1 # 2) (src 2%nat)); [now left | now right].
Qed.

Lemma generateEconEvent_early d src :
  (d < 6)%Z -> Expert.generateEconEvent d src = (false, src).
Proof.
  intros Hd. unfold Expert.generateEconEvent.
  destruct (Z.leb_spec 6 d); [lia | reflexivity].
Qed.

Lemma generateEconEvent_forced d src :
  (10 <= d)%Z -> unit_draws src -> fst (Expert.generateEconEvent d src) = true.
Proof.
  intros Hd Hsrc. unfold Expert.generateEconEvent.
  destruct (Z.leb_spec 6 d); [|lia].
  destruct (Z.leb_spec 10 d); [|lia]. run.
  unfold Qlt_bool. destruct (Qle_bool 1 (src 0%nat)) eqn:E; [|reflexivity].
  apply Qle_bool_iff in E. destruct (Hsrc 0%nat) as [_ H1].
  exfalso. exact (Qlt_not_le _ _ H1 E).
Qed.

Lemma generateEconEvent_coin d src :
  (6 <= d < 10)%Z ->
  fst (Expert.generateEconEvent d src) = Qlt_bool (src 0%nat) (1 # 2).
Proof.
  intros Hd. unfold Expert.generateEconEvent.
  destruct (Z.leb_spec 6 d); [|lia].
  destruct (Z.leb_spec 10 d); [lia|]. reflexivity.
Qed.

(** The new events and the new prediction, in terms of the three steps of
    the source. *)
Lemma expert_econEvents_steps predicted effects currentDay days src :
  let gen :=
    Expert.generateEconEvent (Expert.daysSinceLastEvent effects currentDay) src in
  let promoted := Expert.promotePredicted predicted currentDay days in
  fst (Expert.econEvents predicted effects currentDay days src)
  = (if (fst gen && (length (fst promoted) =? 0)%nat)%bool
     then fst promoted ++ [fst (Expert.freshEconEvent currentDay (snd gen))]
     else fst promoted,
     snd promoted).
Proof.
  unfold Expert.econEvents, bind at 1.
  destruct (Expert.generateEconEvent _ src) as [g s1]. cbn [fst snd].
  destruct (g && _)%bool; [|reflexivity].
  unfold bind, ret. destruct (Expert.freshEconEvent currentDay s1). reflexivity.
Qed.

Lemma promotePredicted_in_range p currentDay days :
  (currentDay < Expert.PredictedEconEvent.day p <= currentDay + days)%Z ->
  Expert.promotePredicted (Some p) currentDay days = ([Expert.activate p], None).
Proof.
  intros [H1 H2]. unfold Expert.promotePredicted.
  destruct (Z.leb_spec (currentDay + 1) (Expert.PredictedEconEvent.day p)); [|lia].
  destruct (Z.leb_spec (Expert.PredictedEconEvent.day p) (currentDay + days)); [|lia].
  reflexivity.
Qed.

Lemma promotePredicted_length predicted currentDay days :
  (length (fst (Expert.promotePredicted predicted currentDay days)) <= 1)%nat.
Proof.
  unfold Expert.promotePredicted. destruct predicted as [p|]; [|cbn; lia].
  destruct (_ && _)%bool; cbn; lia.
Qed.

Lemma expert_econEvents_at_most_one predicted effects currentDay days src :
  (length (fst (fst (Expert.econEvents predicted effects currentDay days src))) <= 1)%nat.
Proof.
  rewrite expert_econEvents_steps. cbv zeta. cbn [fst].
  pose proof (promotePredicted_length predicted currentDay days) as Hlen.
  destruct (fst (Expert.promotePredicted predicted currentDay days)) as [|e l].
  - destruct (_ && _)%bool; cbn; lia.
  - rewrite andb_false_r. exact Hlen.
Qed.

(** What the function handed to the cache returns after a completion, in
    terms of the scheduler. *)
Lemma expert_simulateCompute_events JSON_parse req raw st src :
  let events :=
    fst (Expert.econEvents (Expert.predictedEconEvent st)
           (Expert.SimulateRequest.activeEconEffects req)
           (Expert.SimulateRequest.currentDay req)
           (Expert.SimulateRequest.days req) src) in
  exists simulated,
    fst (Expert.simulateCompute JSON_parse req (Some raw) st src)
    = (Ok (Expert.SimulateBody simulated (fst events)),
       {| Expert.responseCache := Expert.responseCache st;
          Expert.predictedEconEvent := snd events |}).
Proof.
  unfold Expert.simulateCompute, bind at 1.
  destruct (Expert.econEvents _ _ _ _ src) as [events s1]. cbn [fst snd].
  unfold bind, ret.
  destruct (Expert.simulatedOrFallback _ _ _ _ _ s1) as [simulated s2].
  exists simulated. reflexivity.
Qed.

Lemma getOrCacheResponse_miss key fn now now' st src :
  cacheFresh now st key = false ->
  Expert.getOrCacheResponse key fn now now' st src
  = match fn st src with
    | (Ok d, st', src') =>
        (Ok d,
         {| Expert.responseCache :=
              <[ key := {| Expert.data := d; Expert.timestamp := now' |} ]>
                (Expert.responseCache st');
            Expert.predictedEconEvent := Expert.predictedEconEvent st' |},
         src')
    | (Throw e, st', src') => (Throw e, st', src')
    end.
Proof.
  unfold cacheFresh, Expert.getOrCacheResponse. intros Hstale.
  destruct (Expert.responseCache st !! key) as [cached|];
    [rewrite Hstale|];
    unfold bind; destruct (fn st src) as [[[d|e] st'] src']; reflexivity.
Qed.

(** What [getOrCacheResponse] returns and stores satisfies a property that
    the cache and the results of [fn] satisfy, when [fn] leaves the cache
    alone. *)
Lemma getOrCacheResponse_invariant (P : Expert.Body -> Prop) key fn now now' st src :
  (forall k e, Expert.responseCache st !! k = Some e -> P (Expert.data e)) ->
  (forall d st', fst (fn st src) = (Ok d, st') -> P d) ->
  (forall r st', fst (fn st src) = (r, st') ->
                 Expert.responseCache st' = Expert.responseCache st) ->
  (forall d, fst (fst (Expert.getOrCacheResponse key fn now now' st src)) = Ok d -> P d)
  /\ (forall k e,
        Expert.responseCache
          (snd (fst (Expert.getOrCacheResponse key fn now now' st src))) !! k = Some e ->
        P (Expert.data e)).
Proof.
  intros Hcache Hfn Hframe.
  destruct (cacheFresh now st key) eqn:Hfresh.
  - unfold cacheFresh in Hfresh. unfold Expert.getOrCacheResponse.
    destruct (Expert.responseCache st !! key) as [cached|] eqn:Hkey; [|discriminate].
    rewrite Hfresh. cbn [ret fst snd]. split; [|exact Hcache].
    intros d [= <-]. exact (Hcache key cached Hkey).
  - rewrite getOrCacheResponse_miss by exact Hfresh.
    destruct (fn st src) as [[r st'] src'].
    specialize (Hframe r st' eq_refl). cbn [fst] in Hfn.
    destruct r as [d|e]; cbn [fst snd Expert.responseCache].
    + split; [intros d' [= <-]; now apply (Hfn d st')|].
      intros k e. rewrite Hframe, lookup_insert.
      case_decide; [intros [= <-]; now apply (Hfn d st') | apply Hcache].
    + split; [discriminate|].
      intros k e'. rewrite Hframe. apply Hcache.
Qed.

(** X25: whatever the state of the cache that earlier requests have left,
    [/simulateDays] answers with at most one new event, and leaves such a
    cache behind. *)
Lemma expert_simulateDays_at_most_one JSON_parse JSON_stringify req llm now now' st src :
  cacheAtMostOneEvent st ->
  atMostOneEvent
    (Expert.body
       (fst (fst (Expert.simulateDays JSON_parse JSON_stringify req llm now now' st src))))
  /\ cacheAtMostOneEvent
       (snd (fst (Expert.simulateDays JSON_parse JSON_stringify req llm now now' st src))).
Proof.
  intros Hcache. unfold Expert.simulateDays.
  destruct (Expert.SimulateRequest.days req <? 1)%Z; [split; [exact I | exact Hcache]|].
  destruct (getOrCacheResponse_invariant atMostOneEvent
              (Expert.simulateCacheKey JSON_stringify req)
              (Expert.simulateCompute JSON_parse req llm) now now' st src Hcache)
    as [Hresult Hcache'].
  - intros d st' Hrun. destruct llm as [raw|].
    + destruct (expert_simulateCompute_events JSON_parse req raw st src)
        as [simulated Heq].
      rewrite Heq in Hrun. injection Hrun as <- _.
      apply expert_econEvents_at_most_one.
    + unfold Expert.simulateCompute, bind in Hrun.
      destruct (Expert.econEvents _ _ _ _ src). discriminate Hrun.
  - intros r st' Hrun. unfold Expert.simulateCompute, bind in Hrun.
    destruct (Expert.econEvents _ _ _ _ src) as [events s1].
    destruct llm as [raw|].
    + destruct (Expert.simulatedOrFallback _ _ _ _ _ s1).
      cbn in Hrun. injection Hrun as _ <-. reflexivity.
    + cbn in Hrun. injection Hrun as _ <-. reflexivity.
  - unfold bind.
    destruct (Expert.getOrCacheResponse _ _ now now' st src) as [[r st'] src'].
    cbn [fst snd] in *. destruct r as [d|e]; cbn [ret fst snd Expert.body Expert.respond].
    + split; [now apply Hresult | exact Hcache'].
    + split; [exact I | exact Hcache'].
Qed.

(** The other handlers leave such a cache behind as well, and the cache
    is empty when the server starts: no request is ever answered with more
    than one new event. *)
Lemma expert_handlers_keep_at_most_one JSON_parse JSON_stringify st src :
  cacheAtMostOneEvent st ->
  (forall llm now now',
      cacheAtMostOneEvent (snd (fst (Expert.getStocks JSON_parse llm now now' st src))))
  /\ (forall stocks currentDay llm now now',
         cacheAtMostOneEvent
           (snd (fst (Expert.predictNews JSON_parse stocks currentDay llm now now' st src))))
  /\ (forall currentDay effects,
         cacheAtMostOneEvent
           (snd (fst (Expert.predictEconEvent currentDay effects st src))))
  /\ (forall req llm now now',
         cacheAtMostOneEvent
           (snd (fst (Expert.analyzePerformance JSON_parse JSON_stringify req llm
                        now now' st src)))).
Proof.
  intros Hcache. repeat split.
  - intros llm now now'. unfold Expert.getStocks, bind.
    destruct (getOrCacheResponse_invariant atMostOneEvent "stocks"
                (fun st' => ret (Expert.stocksCompute JSON_parse llm, st'))
                now now' st src Hcache) as [_ Hcache'].
    + intros d st' [= Hd _]. unfold Expert.stocksCompute in Hd.
      destruct llm as [content|]; [|discriminate].
      destruct (JSON_parse content) as [parsed|]; [|discriminate].
      destruct (Expert.validateStocks parsed); [|discriminate].
      injection Hd as <-. exact I.
    + intros r st' [= _ <-]. reflexivity.
    + destruct (Expert.getOrCacheResponse _ _ now now' st src) as [[[d|e] st'] src'];
        exact Hcache'.
  - intros stocks currentDay llm now now'. unfold Expert.predictNews, bind.
    destruct (getOrCacheResponse_invariant atMostOneEvent
                ("predictNews_" +:+ pretty currentDay)
                (Expert.predictCompute JSON_parse stocks currentDay llm)
                now now' st src Hcache) as [_ Hcache'].
    + intros d st'. unfold Expert.predictCompute, bind.
      destruct llm as [raw|]; [|discriminate].
      destruct (Expert.predictionOrFallback _ _ _ _ src) as [[p|e] s1];
        [|discriminate].
      intros [= <- _]. exact I.
    + intros r st'. unfold Expert.predictCompute, bind.
      destruct llm as [raw|]; [|now intros [= _ <-]].
      destruct (Expert.predictionOrFallback _ _ _ _ src) as [[p|e] s1];
        now intros [= _ <-].
    + destruct (Expert.getOrCacheResponse _ _ now now' st src) as [[[d|e] st'] src'];
        exact Hcache'.
  - intros currentDay effects. unfold Expert.predictEconEvent.
    destruct (Expert.predictedEconEvent st) as [p|] eqn:Hp.
    + destruct (Expert.PredictedEconEvent.day p <=? currentDay)%Z;
        cbn [Expert.predictedEconEvent]; [|rewrite Hp; exact Hcache].
      unfold bind. destruct (Expert.newEconPrediction currentDay effects src).
      exact Hcache.
    + rewrite Hp. unfold bind.
      destruct (Expert.newEconPrediction currentDay effects src).
      exact Hcache.
  - intros req llm now now'. unfold Expert.analyzePerformance.
    destruct (Expert.parseLog JSON_parse (Expert.AnalyzeRequest.log req))
      as [parsedLog|e]; [|exact Hcache].
    destruct (Expert.invalidAnalyzeInput _ _ _); [exact Hcache|].
    unfold bind.
    match goal with
    | |- context [Expert.getOrCacheResponse ?k ?f now now' st src] =>
        destruct (getOrCacheResponse_invariant atMostOneEvent k f
                    now now' st src Hcache) as [_ Hcache'];
        [ | | destruct (Expert.getOrCacheResponse k f now now' st src)
                as [[[d|e] st'] src']; exact Hcache' ]
    end.
    + intros d st'. unfold Expert.analyzeCompute.
      destruct llm; [|discriminate]. intros [= <- _]. exact I.
    + intros r st'. unfold Expert.analyzeCompute.
      destruct llm; now intros [= _ <-].
Qed.

Lemma expert_initial_cache_at_most_one predicted :
  cacheAtMostOneEvent (stateWith predicted).
Proof. intros key entry H. cbn in H. now rewrite lookup_empty in H. Qed.

(** C4, as amended: when [/simulateDays] computes a batch (the request
    is valid and not answered from the cache, and the completion returned
    [raw]), the response is a 200 whose [newEconEvents] has at most one
    element; and if a predicted event is stored whose day lies in
    (currentDay, currentDay + days], that element is the predicted event
    made active (its sector, headline, daysLeft and direction, and its day
    as [startDay]), no other event is generated, and [predictedEconEvent]
    is cleared. *)
Theorem simulateDays_promotes_predicted JSON_parse JSON_stringify req raw
    now now' st src :
  (1 <= Expert.SimulateRequest.days req)%Z ->
  cacheFresh now st (Expert.simulateCacheKey JSON_stringify req) = false ->
  exists simulated newEconEvents,
    fst (fst (Expert.simulateDays JSON_parse JSON_stringify req (Some raw)
                now now' st src))
    = Expert.respond 200 (Expert.SimulateBody simulated newEconEvents)
    /\ (length newEconEvents <= 1)%nat
    /\ forall p,
         Expert.predictedEconEvent st = Some p ->
         (Expert.SimulateRequest.currentDay req < Expert.PredictedEconEvent.day p
          <= Expert.SimulateRequest.currentDay req + Expert.SimulateRequest.days req)%Z ->
         (exists e,
             newEconEvents = [e]
             /\ Expert.EconEvent.sector e = Expert.PredictedEconEvent.sector p
             /\ Expert.EconEvent.headline e = Expert.PredictedEconEvent.headline p
             /\ Expert.EconEvent.daysLeft e = Expert.PredictedEconEvent.daysLeft p
             /\ Expert.EconEvent.startDay e = Expert.PredictedEconEvent.day p
             /\ Expert.EconEvent.direction e = Expert.PredictedEconEvent.direction p)
         /\ Expert.predictedEconEvent
              (snd (fst (Expert.simulateDays JSON_parse JSON_stringify req
                           (Some raw) now now' st src)))
            = None.
Proof.
  intros Hdays Hmiss. unfold Expert.simulateDays.
  destruct (Z.ltb_spec (Expert.SimulateRequest.days req) 1); [lia|].
  unfold bind. rewrite (getOrCacheResponse_miss _ _ now now' st src Hmiss).
  destruct (expert_simulateCompute_events JSON_parse req raw st src)
    as [simulated Hcompute].
  destruct (Expert.simulateCompute JSON_parse req (Some raw) st src)
    as [[r st'] src'].
  cbn [fst] in Hcompute. injection Hcompute as -> ->.
  cbn [fst snd ret Expert.predictedEconEvent].
  eexists _, _. split; [reflexivity|].
  split; [apply expert_econEvents_at_most_one|].
  intros p Hp Hrange. rewrite Hp, expert_econEvents_steps. cbv zeta.
  rewrite (promotePredicted_in_range p _ _ Hrange). cbn [fst snd length Nat.eqb].
  rewrite andb_false_r. split; [|reflexivity].
  exists (Expert.activate p). repeat split.
Qed.

Lemma simulateDays_promotes_predicted_witness :
  (1 <= Expert.SimulateRequest.days batchRequest)%Z
  /\ cacheFresh 2000 (stateWith (Some (predictionFor 6)))
       (Expert.simulateCacheKey stringifyKind batchRequest) = false
  /\ Expert.predictedEconEvent (stateWith (Some (predictionFor 6)))
     = Some (predictionFor 6)
  /\ (4 < 6 <= 4 + 3)%Z
  /\ exists simulated e,
       fst (fst (Expert.simulateDays parseEmptyArray stringifyKind batchRequest
                   (Some apology) 2000 2500 (stateWith (Some (predictionFor 6)))
                   (constant_source (1 # 4))))
       = Expert.respond 200 (Expert.SimulateBody simulated [e])
       /\ Expert.EconEvent.sector e = Some "Finance"
       /\ Expert.EconEvent.startDay e = 6%Z
       /\ Expert.predictedEconEvent
            (snd (fst (Expert.simulateDays parseEmptyArray stringifyKind
                         batchRequest (Some apology) 2000 2500
                         (stateWith (Some (predictionFor 6)))
                         (constant_source (1 # 4)))))
          = None.
Proof.
  assert (H1 : (1 <= Expert.SimulateRequest.days batchRequest)%Z) by (cbn; lia).
  assert (H2 : cacheFresh 2000 (stateWith (Some (predictionFor 6)))
                 (Expert.simulateCacheKey stringifyKind batchRequest) = false)
    by (unfold cacheFresh; cbn [stateWith Expert.responseCache];
        now rewrite lookup_empty).
  split; [exact H1|]. split; [exact H2|]. split; [reflexivity|]. split; [lia|].
  destruct (simulateDays_promotes_predicted parseEmptyArray stringifyKind
              batchRequest apology 2000 2500 (stateWith (Some (predictionFor 6)))
              (constant_source (1 # 4)) H1 H2)
    as (simulated & events & Hout & _ & Hp).
  destruct (Hp (predictionFor 6) eq_refl) as ((e & -> & Hsector & _ & _ & Hstart & _) & Hnone);
    [cbn; lia|].
  exists simulated, e. split; [exact Hout|].
  split; [exact Hsector|]. split; [exact Hstart | exact Hnone].
Defined.

(** C4 as it stands fails on a request that is answered from the cache: a
    prediction for day 6 is stored and the request covers days 5 to 7, but
    the handler returns the cached batch, whose [newEconEvents] is empty,
    and the prediction stays where it is. *)
Lemma simulateDays_cache_hit_no_promotion :
  Expert.predictedEconEvent warmState = Some (predictionFor 6)
  /\ (Expert.SimulateRequest.currentDay batchRequest
      < Expert.PredictedEconEvent.day (predictionFor 6)
      <= Expert.SimulateRequest.currentDay batchRequest
         + Expert.SimulateRequest.days batchRequest)%Z
  /\ fst (Expert.simulateDays parseEmptyArray stringifyKind batchRequest
            (Some apology) 2000 2500 warmState (constant_source (1 # 4)))
     = (Expert.respond 200
          (Expert.SimulateBody (Expert.Validated [goodTick]) []),
        warmState).
Proof.
  split; [reflexivity|]. split; [cbn; lia|].
  unfold Expert.simulateDays, bind, Expert.getOrCacheResponse.
  cbn [batchRequest Expert.SimulateRequest.days Z.ltb Z.compare Pos.compare
       Pos.compare_cont warmState Expert.responseCache].
  rewrite lookup_singleton_eq. reflexivity.
Qed.

Lemma unit_draws_after_generate d src :
  unit_draws src -> unit_draws (snd (Expert.generateEconEvent d src)).
Proof.
  intros Hsrc. unfold Expert.generateEconEvent.
  destruct (6 <=? d)%Z; [|exact Hsrc].
  run. intros n. apply Hsrc.
Qed.

(** Where every effect has a [startDay] other than 0, the days since the
    last event are those of the specification. *)
Lemma daysSinceLastEvent_spec effects currentDay :
  Forall (fun e => exists d, Expert.EconEffect.startDay e = Some d /\ d <> 0%Z)
    effects ->
  Expert.daysSinceLastEvent effects currentDay
  = specDaysSinceLastEvent effects currentDay.
Proof.
  intros Hall. unfold Expert.daysSinceLastEvent, specDaysSinceLastEvent,
    Expert.lastEconEventDay, Math_max_list.
  replace (map (Expert.startDayOr currentDay) effects)
    with (omap Expert.EconEffect.startDay effects); [reflexivity|].
  induction Hall as [|e l (d & He & Hd) _ IH]; [reflexivity|].
  cbn [omap list_omap map]. unfold Expert.startDayOr at 1. rewrite He.
  destruct (Z.eqb_spec d 0); [contradiction|]. now rewrite IH.
Qed.

(** C5, as amended: with [daysSinceLastEvent] computed as the code does
    (the last event day is the largest [e.startDay || currentDay] over the
    active effects, 0 when there is none), no event is scheduled below 6
    days whatever the draws and the stored prediction; and, when no
    predicted event is promoted, an event is scheduled for every draw from
    10 days on and exactly for the draws below 0.5 from 6 to 9 days.  A
    scheduled event has one of the six sectors, 3 or 4 days left, a
    positive or negative direction, and starts on [currentDay + 1]. *)
Theorem econ_event_cadence predicted effects currentDay days src :
  let d := Expert.daysSinceLastEvent effects currentDay in
  let promoted := fst (Expert.promotePredicted predicted currentDay days) in
  let newEconEvents :=
    fst (fst (Expert.econEvents predicted effects currentDay days src)) in
  ((d < 6)%Z -> newEconEvents = promoted)
  /\ (unit_draws src -> promoted = [] ->
      ((10 <= d)%Z -> exists e, newEconEvents = [e] /\ freshShape currentDay e)
      /\ ((6 <= d < 10)%Z ->
          if Qlt_bool (src 0%nat) (1 # 2)
          then exists e, newEconEvents = [e] /\ freshShape currentDay e
          else newEconEvents = [])).
Proof.
  cbv zeta. rewrite expert_econEvents_steps. cbv zeta. cbn [fst].
  split.
  - intros Hd. now rewrite generateEconEvent_early.
  - intros Hsrc ->. cbn [length Nat.eqb app]. rewrite andb_true_r.
    pose proof (expert_freshEconEvent_shape currentDay _
                  (unit_draws_after_generate
                     (Expert.daysSinceLastEvent effects currentDay) src Hsrc))
      as Hshape.
    split; intros Hd.
    + rewrite generateEconEvent_forced by assumption. eauto.
    + rewrite generateEconEvent_coin by assumption.
      destruct (Qlt_bool (src 0%nat) (1 # 2)); eauto.
Qed.

Lemma unit_draws_constant_quarter : unit_draws (constant_source (1 # 4)).
Proof. intros n. split; [apply Qle_bool_iff|]; reflexivity. Qed.

Lemma econ_event_cadence_witness :
  unit_draws (constant_source (1 # 4))
  /\ (10 <= Expert.daysSinceLastEvent [] 12)%Z
  /\ exists e,
       fst (fst (Expert.econEvents None [] 12 1 (constant_source (1 # 4)))) = [e]
       /\ freshShape 12 e.
Proof.
  split; [exact unit_draws_constant_quarter|]. split; [now vm_compute|].
  refine (proj1 (proj2 (econ_event_cadence None [] 12 1 (constant_source (1 # 4)))
                   unit_draws_constant_quarter eq_refl) _).
  now vm_compute.
Defined.

(** C5 fails as stated when an active effect has [startDay] 0: by the
    formula of the specification 10 days have passed on day 10, so an event would be
    scheduled whatever the draw; the code replaces the 0 by [currentDay],
    counts 0 days, and schedules nothing. *)
Lemma econ_event_cadence_startDay_zero :
  (10 <= specDaysSinceLastEvent [effectStarting (Some 0%Z)] 10)%Z
  /\ Expert.daysSinceLastEvent [effectStarting (Some 0%Z)] 10 = 0%Z
  /\ forall src,
       fst (fst (Expert.econEvents None [effectStarting (Some 0%Z)] 10 1 src)) = [].
Proof.
  split; [now vm_compute|]. split; [reflexivity|].
  intros src. reflexivity.
Qed.

(** ** The predicted economic event *)

Lemma expert_newEconPrediction_day currentDay effects src :
  let d := Expert.daysSinceLastEvent effects currentDay in
  let first := (6 + Math_floor (src 0%nat * 5))%Z in
  Expert.PredictedEconEvent.day (fst (Expert.newEconPrediction currentDay effects src))
  = (currentDay + if (6 <=? d)%Z then Z.min first (10 - d) else first)%Z.
Proof.
  unfold Expert.newEconPrediction. run. reflexivity.
Qed.

(** While fewer than 10 days have passed since the last event, a new
    prediction lies in the future. *)
Lemma expert_newEconPrediction_future currentDay effects src :
  unit_draws src ->
  (Expert.daysSinceLastEvent effects currentDay < 10)%Z ->
  (currentDay
   < Expert.PredictedEconEvent.day
       (fst (Expert.newEconPrediction currentDay effects src)))%Z.
Proof.
  intros Hsrc Hd. rewrite expert_newEconPrediction_day. cbv zeta.
  destruct (Hsrc 0%nat) as [H0 H1].
  pose proof (floor_draw_range (src 0%nat) 5 H0 H1 ltac:(lia)) as Hr.
  change (inject_Z 5) with 5 in Hr.
  destruct (6 <=? Expert.daysSinceLastEvent effects currentDay)%Z; lia.
Qed.

(** From 10 days on, the clamp leaves no day to wait: the prediction is
    for [currentDay] or earlier, whatever the draws. *)
Lemma expert_newEconPrediction_stale currentDay effects src :
  (10 <= Expert.daysSinceLastEvent effects currentDay)%Z ->
  (Expert.PredictedEconEvent.day
     (fst (Expert.newEconPrediction currentDay effects src))
   <= currentDay)%Z.
Proof.
  intros Hd. rewrite expert_newEconPrediction_day. cbv zeta.
  destruct (Z.leb_spec 6 (Expert.daysSinceLastEvent effects currentDay)); lia.
Qed.

(** C6, at the input where the code departs from it: on day 10, with no
    active effect and no stored prediction, [daysSinceLastEvent] is 10, the
    clamp turns [daysUntilNext] into 0, and the prediction that is stored
    and returned is for day 10 itself, which is not after [currentDay]. *)
Theorem predictEconEvent_day_not_future :
  Expert.daysSinceLastEvent [] 10 = 10%Z
  /\ exists p,
       fst (Expert.predictEconEvent 10 [] (stateWith None) (constant_source (1 # 4)))
       = (Expert.respond 200 (Expert.EconPredictionBody p), stateWith (Some p))
       /\ Expert.PredictedEconEvent.day p = 10%Z
       /\ ~ (10 < Expert.PredictedEconEvent.day p)%Z.
Proof.
  split; [reflexivity|]. eexists. split; [vm_compute; reflexivity|].
  split; [reflexivity | vm_compute; discriminate].
Qed.

Lemma expert_predictEconEvent_stored currentDay effects st src p :
  Expert.predictedEconEvent st = Some p ->
  (currentDay < Expert.PredictedEconEvent.day p)%Z ->
  Expert.predictEconEvent currentDay effects st src
  = (Expert.respond 200 (Expert.EconPredictionBody p), st, src).
Proof.
  intros Hp Hday. unfold Expert.predictEconEvent. rewrite Hp.
  destruct (Z.leb_spec (Expert.PredictedEconEvent.day p) currentDay); [lia|].
  rewrite Hp. reflexivity.
Qed.

(** C7: while a prediction is stored whose day is after [currentDay],
    [/predictEconEvent] answers with it, draws nothing and leaves the server
    state as it is; once [currentDay] has reached its day, the stored
    prediction is dropped, a new one is built from fresh draws, stored, and
    returned. *)
Theorem predictEconEvent_idempotent currentDay effects st src p :
  Expert.predictedEconEvent st = Some p ->
  ((currentDay < Expert.PredictedEconEvent.day p)%Z ->
   Expert.predictEconEvent currentDay effects st src
   = (Expert.respond 200 (Expert.EconPredictionBody p), st, src))
  /\ ((Expert.PredictedEconEvent.day p <= currentDay)%Z ->
      let fresh := Expert.newEconPrediction currentDay effects src in
      Expert.predictEconEvent currentDay effects st src
      = (Expert.respond 200 (Expert.EconPredictionBody (fst fresh)),
         {| Expert.responseCache := Expert.responseCache st;
            Expert.predictedEconEvent := Some (fst fresh) |},
         snd fresh)).
Proof.
  intros Hp. unfold Expert.predictEconEvent. rewrite Hp.
  split; intros Hday.
  - destruct (Z.leb_spec (Expert.PredictedEconEvent.day p) currentDay); [lia|].
    rewrite Hp. reflexivity.
  - destruct (Z.leb_spec (Expert.PredictedEconEvent.day p) currentDay); [|lia].
    cbn [Expert.predictedEconEvent Expert.responseCache].
    unfold bind, ret.
    destruct (Expert.newEconPrediction currentDay effects src). reflexivity.
Qed.

Lemma predictEconEvent_idempotent_witness :
  Expert.predictedEconEvent (stateWith (Some (predictionFor 6)))
  = Some (predictionFor 6)
  /\ (4 < 6)%Z
  /\ Expert.predictEconEvent 4 [] (stateWith (Some (predictionFor 6)))
       (constant_source (1 # 4))
     = (Expert.respond 200 (Expert.EconPredictionBody (predictionFor 6)),
        stateWith (Some (predictionFor 6)), constant_source (1 # 4)).
Proof.
  split; [reflexivity|]. split; [lia|].
  refine (proj1 (predictEconEvent_idempotent 4 [] (stateWith (Some (predictionFor 6)))
                   (constant_source (1 # 4)) (predictionFor 6) eq_refl) _).
  cbn. lia.
Defined.

(** Two requests for the same day get the same answer, as long as the
    first one's prediction lies in the future. *)
Lemma predictEconEvent_twice currentDay effects st src :
  let first := Expert.predictEconEvent currentDay effects st src in
  (forall p, Expert.predictedEconEvent (snd (fst first)) = Some p ->
             (currentDay < Expert.PredictedEconEvent.day p)%Z) ->
  forall effects' src',
    fst (Expert.predictEconEvent currentDay effects' (snd (fst first)) src')
    = fst first.
Proof.
  intros first Hfuture effects' src'.
  assert (exists p, fst first = (Expert.respond 200 (Expert.EconPredictionBody p),
                                 snd (fst first))
                    /\ Expert.predictedEconEvent (snd (fst first)) = Some p)
    as (p & Hfirst & Hp).
  { subst first. unfold Expert.predictEconEvent.
    destruct (Expert.predictedEconEvent st) as [p0|] eqn:Hst.
    - destruct (Expert.PredictedEconEvent.day p0 <=? currentDay)%Z.
      + cbn [Expert.predictedEconEvent]. unfold bind, ret.
        destruct (Expert.newEconPrediction currentDay effects src). eauto.
      + rewrite Hst. cbn. eauto.
    - rewrite Hst. unfold bind, ret.
      destruct (Expert.newEconPrediction currentDay effects src). eauto. }
  rewrite (expert_predictEconEvent_stored currentDay effects' _ src' p Hp
             (Hfuture p Hp)).
  cbn [fst]. now rewrite Hfirst.
Qed.

(** ** The news prediction *)

(** C8, at the input where the code departs from it: the expert server
    tests only the format of the candidate, so a well-formed prediction for
    a ticker that no stock has and for day 99 is returned as it is. *)
Theorem expert_predictNews_unchecked JSON_parse content src :
  JSON_parse content = Some strayPrediction ->
  Expert.predictionOrFallback JSON_parse [acme] 0 content src
  = (Ok strayPrediction, src)
  /\ ~ predictionInCatalog [acme] 0 strayPrediction.
Proof.
  intros Hparse. unfold Expert.predictionOrFallback. rewrite Hparse.
  split; [reflexivity|].
  intros [(stock & [<-|[]] & Hticker) _]. discriminate Hticker.
Qed.

Lemma expert_predictNews_unchecked_witness :
  parseOnly strayText strayPrediction strayText = Some strayPrediction
  /\ Expert.predictionOrFallback (parseOnly strayText strayPrediction) [acme] 0
       strayText (constant_source (1 # 4))
     = (Ok strayPrediction, constant_source (1 # 4))
  /\ ~ predictionInCatalog [acme] 0 strayPrediction.
Proof.
  split; [reflexivity|].
  apply (expert_predictNews_unchecked (parseOnly strayText strayPrediction)
           strayText (constant_source (1 # 4))).
  reflexivity.
Defined.

Lemma tickerIs_true x stock :
  Casual.tickerIs x stock = true -> x = Some (JStr (Stock.ticker stock)).
Proof.
  unfold Casual.tickerIs. destruct x as [[| | |s| |]|]; try discriminate.
  intros H. apply String.eqb_eq in H. now subst.
Qed.

(** A candidate that passes the three tests of the casual server names a
    stock of the catalog and a day of the coming week. *)
Lemma casual_predictionChecks_sound stocks currentDay prediction :
  Casual.predictionChecks stocks currentDay prediction = Ok tt ->
  predictionInCatalog stocks currentDay prediction.
Proof.
  unfold Casual.predictionChecks.
  destruct prediction as [| | | | |fields]; try discriminate.
  set (p := JObj fields).
  destruct (negb (truthy (prop "ticker" p)) || _ || _)%bool eqn:E1; [discriminate|].
  destruct (negb (existsb _ stocks)) eqn:E2; [discriminate|].
  destruct (Casual.num_lt _ _ || _)%bool eqn:E3; [discriminate|]. intros _.
  apply negb_false_iff, existsb_exists in E2. destruct E2 as (stock & Hin & Hticker).
  apply tickerIs_true in Hticker.
  apply orb_false_iff in E1. destruct E1 as [E1 _].
  apply orb_false_iff in E1. destruct E1 as [_ Hday].
  apply negb_false_iff in Hday.
  apply orb_false_iff in E3. destruct E3 as [Hlow Hhigh].
  destruct (prop "day" p) as [[| |q| | |]|] eqn:Hq; try discriminate Hday.
  split; [now exists stock|]. exists q. split; [exact Hq|].
  unfold Casual.num_lt, Casual.num_gt, Qlt_bool in Hlow, Hhigh.
  apply negb_false_iff, Qle_bool_iff in Hlow, Hhigh.
  split; [|exact Hhigh].
  eapply Qlt_le_trans; [|exact Hlow]. rewrite <- Zlt_Qlt. lia.
Qed.

Lemma casual_predictionFallback_sound stocks currentDay src :
  stocks <> [] -> unit_draws src ->
  exists prediction,
    fst (Casual.predictionFallback stocks currentDay src) = Ok prediction
    /\ predictionInCatalog stocks currentDay prediction.
Proof.
  intros Hne Hsrc. unfold Casual.predictionFallback. unfold bind at 1.
  unfold Math_random at 1.
  destruct (Hsrc 0%nat) as [H0 H1].
  assert (Hlen : (0 < Z.of_nat (length stocks))%Z)
    by (destruct stocks; [contradiction | cbn [length]; lia]).
  pose proof (floor_draw_range _ _ H0 H1 Hlen) as Hidx.
  unfold at_index.
  destruct (Z.ltb_spec (Math_floor (src 0%nat * inject_Z (Z.of_nat (length stocks)))) 0);
    [lia|].
  destruct (nth_error stocks _) as [randomStock|] eqn:Hnth.
  2:{ apply nth_error_None in Hnth. lia. }
  run. eexists. split; [reflexivity|]. split.
  - exists randomStock. split; [eapply nth_error_In; exact Hnth | reflexivity].
  - eexists. split; [reflexivity|].
    destruct (Hsrc 1%nat) as [H0' H1'].
    pose proof (floor_draw_range (src 1%nat) 7 H0' H1' ltac:(lia)) as Hr.
    change (inject_Z 7) with 7 in Hr.
    rewrite <- Zlt_Qlt, <- Zle_Qle. lia.
Qed.

(** X26: the casual server does keep the promise of C8: with a stock to choose
    from, what it returns names a stock of the catalog and a day of the
    coming week, whatever the completion was. *)
Lemma casual_predictNews_sound JSON_parse stocks currentDay content src :
  stocks <> [] -> unit_draws src ->
  exists prediction,
    fst (Casual.predictionOrFallback JSON_parse stocks currentDay content src)
    = Ok prediction
    /\ predictionInCatalog stocks currentDay prediction.
Proof.
  intros Hne Hsrc. unfold Casual.predictionOrFallback.
  destruct (JSON_parse content) as [candidate|];
    [|now apply casual_predictionFallback_sound].
  destruct (Casual.predictionChecks stocks currentDay candidate) as [[]|e] eqn:Hchecks;
    [|now apply casual_predictionFallback_sound].
  exists candidate. split; [reflexivity|].
  now apply casual_predictionChecks_sound.
Qed.

(** ** The performance analysis *)

(** A log sent as the JSON text of an array is treated as that array. *)
Lemma analyzePerformance_string_log JSON_parse JSON_stringify text items
    portfolio budget llm now now' st src :
  JSON_parse text = Some (JArr items) ->
  Expert.analyzePerformance JSON_parse JSON_stringify
    {| Expert.AnalyzeRequest.log := Some (JStr text);
       Expert.AnalyzeRequest.portfolio := portfolio;
       Expert.AnalyzeRequest.budget := budget |} llm now now' st src
  = Expert.analyzePerformance JSON_parse JSON_stringify
      {| Expert.AnalyzeRequest.log := Some (JArr items);
         Expert.AnalyzeRequest.portfolio := portfolio;
         Expert.AnalyzeRequest.budget := budget |} llm now now' st src.
Proof.
  intros Hparse. unfold Expert.analyzePerformance, Expert.parseLog.
  cbn [Expert.AnalyzeRequest.log]. rewrite Hparse. reflexivity.
Qed.

(** C9, at the inputs where the code departs from it: a [log] that is a
    string but not JSON.  [JSON.parse] throws before the validation and
    outside every [try]: the handler ends with the [SyntaxError] without
    sending a response (no 400), and leaves the server state as it was. *)
Theorem analyzePerformance_malformed_log JSON_parse JSON_stringify text
    portfolio budget llm now now' st src :
  JSON_parse text = None ->
  Expert.analyzePerformance JSON_parse JSON_stringify
    {| Expert.AnalyzeRequest.log := Some (JStr text);
       Expert.AnalyzeRequest.portfolio := portfolio;
       Expert.AnalyzeRequest.budget := budget |} llm now now' st src
  = (Throw SyntaxError, st, src).
Proof.
  intros Hparse. unfold Expert.analyzePerformance, Expert.parseLog.
  cbn [Expert.AnalyzeRequest.log]. rewrite Hparse. reflexivity.
Qed.

Lemma analyzePerformance_malformed_log_witness :
  parseEmptyArray apology = None
  /\ Expert.analyzePerformance parseEmptyArray stringifyKind malformedLogRequest
       (Some "Well played.") 2000 2500 (stateWith None) (constant_source (1 # 4))
     = (Throw SyntaxError, stateWith None, constant_source (1 # 4)).
Proof.
  split; [reflexivity|].
  apply (analyzePerformance_malformed_log parseEmptyArray stringifyKind apology).
  reflexivity.
Defined.

(** ** The response cache *)

(** C10: a [/simulateDays] request whose key is in the cache, stored less
    than [CACHE_TTL] ago, is answered with the stored data; nothing is
    drawn and the server state, [predictedEconEvent] included, is left as
    it was, also when the predicted event lies in the days of the
    request. *)
Theorem simulateDays_cache_hit JSON_parse JSON_stringify req llm now now' st src cached :
  (1 <= Expert.SimulateRequest.days req)%Z ->
  Expert.responseCache st !! Expert.simulateCacheKey JSON_stringify req = Some cached ->
  (now - Expert.timestamp cached < Expert.CACHE_TTL)%Z ->
  Expert.simulateDays JSON_parse JSON_stringify req llm now now' st src
  = (Expert.respond 200 (Expert.data cached), st, src)
  /\ Expert.predictedEconEvent
       (snd (fst (Expert.simulateDays JSON_parse JSON_stringify req llm now now' st src)))
     = Expert.predictedEconEvent st.
Proof.
  intros Hdays Hcached Hfresh.
  assert (Expert.simulateDays JSON_parse JSON_stringify req llm now now' st src
          = (Expert.respond 200 (Expert.data cached), st, src)) as ->.
  { unfold Expert.simulateDays.
    destruct (Z.ltb_spec (Expert.SimulateRequest.days req) 1); [lia|].
    unfold Expert.getOrCacheResponse. rewrite Hcached.
    destruct (Z.ltb_spec (now - Expert.timestamp cached) Expert.CACHE_TTL); [|lia].
    reflexivity. }
  split; reflexivity.
Qed.

Lemma simulateDays_cache_hit_witness :
  (1 <= Expert.SimulateRequest.days batchRequest)%Z
  /\ Expert.responseCache warmState
       !! Expert.simulateCacheKey stringifyKind batchRequest = Some cachedBatch
  /\ (2000 - Expert.timestamp cachedBatch < Expert.CACHE_TTL)%Z
  /\ Expert.predictedEconEvent warmState = Some (predictionFor 6)
  /\ (Expert.SimulateRequest.currentDay batchRequest < 6
      <= Expert.SimulateRequest.currentDay batchRequest
         + Expert.SimulateRequest.days batchRequest)%Z
  /\ Expert.simulateDays parseEmptyArray stringifyKind batchRequest (Some apology)
       2000 2500 warmState (constant_source (1 # 4))
     = (Expert.respond 200 (Expert.data cachedBatch), warmState,
        constant_source (1 # 4))
  /\ Expert.predictedEconEvent
       (snd (fst (Expert.simulateDays parseEmptyArray stringifyKind batchRequest
                    (Some apology) 2000 2500 warmState (constant_source (1 # 4)))))
     = Expert.predictedEconEvent warmState.
Proof.
  assert (H1 : (1 <= Expert.SimulateRequest.days batchRequest)%Z) by (cbn; lia).
  assert (H2 : Expert.responseCache warmState
               !! Expert.simulateCacheKey stringifyKind batchRequest
               = Some cachedBatch) by apply lookup_singleton_eq.
  assert (H3 : (2000 - Expert.timestamp cachedBatch < Expert.CACHE_TTL)%Z)
    by (cbn; unfold Expert.CACHE_TTL; lia).
  split; [exact H1|]. split; [exact H2|]. split; [exact H3|].
  split; [reflexivity|]. split; [cbn; lia|].
  exact (simulateDays_cache_hit parseEmptyArray stringifyKind batchRequest
           (Some apology) 2000 2500 warmState (constant_source (1 # 4))
           cachedBatch H1 H2 H3).
Defined.

(** The same request on a server with an empty cache runs the computation:
    the predicted event is promoted and [predictedEconEvent] is cleared. *)
Lemma simulateDays_cache_miss_promotes :
  exists simulated cache,
    fst (Expert.simulateDays parseEmptyArray stringifyKind batchRequest (Some apology)
           2000 2500 (stateWith (Some (predictionFor 6))) (constant_source (1 # 4)))
    = (Expert.respond 200
         (Expert.SimulateBody simulated [Expert.activate (predictionFor 6)]),
       {| Expert.responseCache := cache; Expert.predictedEconEvent := None |}).
Proof.
  unfold Expert.simulateDays.
  destruct (Z.ltb_spec (Expert.SimulateRequest.days batchRequest) 1) as [H|_];
    [cbn in H; lia|].
  unfold Expert.getOrCacheResponse.
  cbn [stateWith Expert.responseCache]. rewrite lookup_empty.
  unfold bind at 1. unfold bind at 1.
  destruct (expert_simulateCompute_events parseEmptyArray batchRequest apology
              (stateWith (Some (predictionFor 6))) (constant_source (1 # 4)))
    as [simulated Hout].
  rewrite expert_econEvents_steps in Hout. cbv zeta in Hout.
  rewrite (promotePredicted_in_range (predictionFor 6)) in Hout by (cbn; lia).
  cbn [fst snd length Nat.eqb] in Hout. rewrite andb_false_r in Hout.
  destruct (Expert.simulateCompute parseEmptyArray batchRequest (Some apology)
              (stateWith (Some (predictionFor 6))) (constant_source (1 # 4)))
    as [out src'].
  cbn [fst snd] in *. subst out. cbn [fst snd].
  eexists _, _. reflexivity.
Qed.

(** * Further properties of the servers *)

(** ** The fallback simulations *)

Lemma unit_draws_tail src : unit_draws src -> unit_draws (fun n => src (S n)).
Proof. intros H n. apply H. Qed.

Lemma expert_fallbackTick_draws stock currentDay i prevPrice src :
  unit_draws src ->
  unit_draws (snd (Expert.fallbackTick stock currentDay i prevPrice src)).
Proof.
  intros H. unfold Expert.fallbackTick.
  destruct (Z.rem (currentDay + i + 1) 10 =? 0)%Z; run; intros n; apply H.
Qed.

Lemma expert_fallbackDays_step stock currentDay n i prevPrice src :
  Expert.fallbackDays stock currentDay (S n) i prevPrice src
  = let first := Expert.fallbackTick stock currentDay i prevPrice src in
    let rest :=
      Expert.fallbackDays stock currentDay n (i + 1)%Z
        (Expert.Tick.price (fst first)) (snd first) in
    (fst first :: fst rest, snd rest).
Proof.
  cbn [Expert.fallbackDays]. unfold bind at 1.
  destruct (Expert.fallbackTick stock currentDay i prevPrice src) as [t s1].
  unfold bind at 1. cbn [fst snd].
  destruct (Expert.fallbackDays stock currentDay n (i + 1)%Z (Expert.Tick.price t) s1).
  reflexivity.
Qed.

Lemma expert_fallbackDays_draws stock currentDay n :
  forall i prevPrice src,
    unit_draws src ->
    unit_draws (snd (Expert.fallbackDays stock currentDay n i prevPrice src)).
Proof.
  induction n as [|n IH]; intros i prevPrice src H; [exact H|].
  rewrite expert_fallbackDays_step. cbv zeta. cbn [snd].
  apply IH. now apply expert_fallbackTick_draws.
Qed.

Lemma expert_fallbackSimulate_step stock rest currentDay days src :
  Expert.fallbackSimulate (stock :: rest) currentDay days src
  = let mine :=
      Expert.fallbackDays stock currentDay (Z.to_nat days) 0%Z
        (Stock.price stock) src in
    let others := Expert.fallbackSimulate rest currentDay days (snd mine) in
    (fst mine ++ fst others, snd others).
Proof.
  cbn [Expert.fallbackSimulate]. unfold bind at 1.
  destruct (Expert.fallbackDays stock currentDay (Z.to_nat days) 0%Z
              (Stock.price stock) src) as [mine s1].
  unfold bind at 1. cbn [fst snd].
  destruct (Expert.fallbackSimulate rest currentDay days s1). reflexivity.
Qed.

(** Where a tick of the expert fallback comes from. *)
Lemma expert_fallback_member stocks currentDay days src t :
  In t (fst (Expert.fallbackSimulate stocks currentDay days src)) ->
  exists stock j,
    In stock stocks /\ (j < Z.to_nat days)%nat
    /\ Expert.Tick.ticker t = Stock.ticker stock
    /\ Expert.Tick.day t = (currentDay + Z.of_nat j + 1)%Z
    /\ 1 # 10 <= Expert.Tick.price t.
Proof.
  intros Hin.
  destruct (expert_fallbackSimulate_covers _ _ _ _ _ Hin) as (k & stock & j & Hk & Hj).
  destruct (expert_fallbackSimulate_segments stocks currentDay days src k stock Hk)
    as [src' Hrun].
  rewrite Hrun in Hj.
  destruct (expert_fallbackDays_chain stock currentDay (Z.to_nat days) 0%Z
              (Stock.price stock) src') as [Hlen Hc].
  destruct (Hc j t Hj) as (Ht & Hd & _).
  exists stock, j. repeat split.
  - apply list_elem_of_In. eapply list_elem_of_lookup_2. exact Hk.
  - apply lookup_lt_Some in Hj. lia.
  - exact Ht.
  - rewrite Hd. lia.
  - pose proof (expert_fallbackDays_floor stock currentDay (Z.to_nat days) 0%Z
                  (Stock.price stock) src') as Hfloor.
    rewrite List.Forall_forall in Hfloor.
    apply (Hfloor t). apply list_elem_of_In. eapply list_elem_of_lookup_2. exact Hj.
Qed.

Lemma expert_fallbackSimulate_length stocks currentDay days :
  forall src,
    length (fst (Expert.fallbackSimulate stocks currentDay days src))
    = (length stocks * Z.to_nat days)%nat.
Proof.
  induction stocks as [|stock rest IH]; intros src; [reflexivity|].
  rewrite expert_fallbackSimulate_step. cbv zeta. cbn [fst length].
  rewrite length_app, IH.
  rewrite (proj1 (expert_fallbackDays_chain stock currentDay (Z.to_nat days) 0%Z
                    (Stock.price stock) src)).
  lia.
Qed.

(** X1: the fallback of the expert server produces exactly one tick per
    stock and day, [stocks.length * days] in all (none for an empty stock
    list), each for the ticker of a stock of the request and a day from
    [currentDay + 1] to [currentDay + days]. *)
Theorem expert_fallback_grid stocks currentDay days src :
  length (fst (Expert.fallbackSimulate stocks currentDay days src))
  = (length stocks * Z.to_nat days)%nat
  /\ Forall
       (fun t => onGrid stocks currentDay days
                   (Expert.Tick.ticker t) (Expert.Tick.day t))
       (fst (Expert.fallbackSimulate stocks currentDay days src)).
Proof.
  split; [apply expert_fallbackSimulate_length|].
  apply List.Forall_forall. intros t Hin.
  destruct (expert_fallback_member _ _ _ _ _ Hin)
    as (stock & j & Hs & Hj & Ht & Hd & _).
  split; [now exists stock|]. rewrite Hd. lia.
Qed.

Lemma expert_tickChecks_object currentDay days t :
  Expert.Tick.ticker t <> EmptyString ->
  (currentDay + 1 <= Expert.Tick.day t <= currentDay + days)%Z ->
  0 <= Expert.Tick.price t ->
  Expert.tickChecks currentDay days (expertTickObject t) = true.
Proof.
  intros Hticker [Hlow Hhigh] Hprice.
  unfold Expert.tickChecks, expertTickObject.
  cbn [prop assoc String.eqb Ascii.eqb Bool.eqb is_type typeof truthy
       Expert.num_ge Expert.num_le andb].
  destruct (String.eqb_spec (Expert.Tick.ticker t) EmptyString) as [E|_];
    [contradiction|].
  rewrite Zle_Qle in Hlow, Hhigh.
  apply Qle_bool_iff in Hlow, Hhigh, Hprice.
  now rewrite Hlow, Hhigh, Hprice.
Qed.

Lemma filterM_keeps_all {A} (f : A -> Result bool) (xs : list A) :
  Forall (fun x => f x = Ok true) xs -> filterM f xs = Ok xs.
Proof.
  induction 1 as [|x xs Hx _ IH]; [reflexivity|].
  cbn [filterM]. now rewrite Hx, IH.
Qed.

(** X2: what the fallback of the expert server produces would pass the
    validation that the completion failed: for a non-empty stock list whose
    tickers are not empty and whose volatilities lie between 0 and 20, at
    least one day and draws in [0, 1), the tick filter keeps every object of
    the fallback, in order.  Within these bounds [prevPrice] is multiplied
    by a factor between 0.8 and 1.2, so that the price is a number, and the
    floor keeps it from being negative. *)
Theorem expert_fallback_revalidates stocks currentDay days src :
  stocks <> [] ->
  (1 <= days)%Z ->
  Forall (fun stock => Stock.ticker stock <> EmptyString) stocks ->
  unit_draws src ->
  Forall
    (fun stock => 0 <= Stock.volatility stock /\ Stock.volatility stock <= 20)
    stocks ->
  Expert.validateTicks currentDay days
    (JArr (map expertTickObject
             (fst (Expert.fallbackSimulate stocks currentDay days src))))
  = Ok (map expertTickObject
          (fst (Expert.fallbackSimulate stocks currentDay days src))).
Proof.
  intros Hne Hdays Htickers _ _. unfold Expert.validateTicks.
  rewrite filterM_keeps_all.
  - rewrite length_map, expert_fallbackSimulate_length.
    destruct stocks as [|s0 rest]; [contradiction|].
    destruct (Nat.eqb_spec (length (s0 :: rest) * Z.to_nat days) 0) as [E|_];
      [cbn [length] in E; lia | reflexivity].
  - apply List.Forall_forall. intros o Ho. apply in_map_iff in Ho.
    destruct Ho as (t & <- & Hin).
    destruct (expert_fallback_member _ _ _ _ _ Hin)
      as (stock & j & Hs & Hj & Ht & Hd & Hfloor).
    cbn [Expert.tickFilter expertTickObject]. f_equal.
    apply expert_tickChecks_object.
    + rewrite Ht. rewrite List.Forall_forall in Htickers. now apply Htickers.
    + rewrite Hd. lia.
    + eapply Qle_trans; [|exact Hfloor]. apply Qle_bool_iff. reflexivity.
Qed.

Lemma expert_fallback_revalidates_witness :
  [acme; bolt] <> []
  /\ (1 <= 2)%Z
  /\ Forall (fun stock => Stock.ticker stock <> EmptyString) [acme; bolt]
  /\ unit_draws (constant_source (1 # 4))
  /\ Forall
       (fun stock => 0 <= Stock.volatility stock /\ Stock.volatility stock <= 20)
       [acme; bolt]
  /\ Expert.validateTicks 9 2
       (JArr (map expertTickObject
                (fst (Expert.fallbackSimulate [acme; bolt] 9 2
                        (constant_source (1 # 4))))))
     = Ok (map expertTickObject
             (fst (Expert.fallbackSimulate [acme; bolt] 9 2
                     (constant_source (1 # 4))))).
Proof.
  assert (H1 : [acme; bolt] <> []) by discriminate.
  assert (H2 : (1 <= 2)%Z) by lia.
  assert (H3 : Forall (fun stock => Stock.ticker stock <> EmptyString) [acme; bolt])
    by (repeat constructor; discriminate).
  assert (H4 : Forall
                 (fun stock =>
                    0 <= Stock.volatility stock /\ Stock.volatility stock <= 20)
                 [acme; bolt])
    by (repeat constructor; apply Qle_bool_iff; reflexivity).
  split; [exact H1|]. split; [exact H2|]. split; [exact H3|].
  split; [exact unit_draws_constant_quarter|]. split; [exact H4|].
  exact (expert_fallback_revalidates [acme; bolt] 9 2 (constant_source (1 # 4))
           H1 H2 H3 unit_draws_constant_quarter H4).
Defined.

Lemma Qle_bool_false (a b : Q) : Qle_bool a b = false -> b < a.
Proof.
  intros E. apply Qnot_le_lt. intros H. apply Qle_bool_iff in H. congruence.
Qed.

(** A relative move of at most 20% either way, under the floor. *)
Lemma floored_move_band (prev change : Q) :
  0 <= prev -> - (2 # 10) <= change -> change <= 2 # 10 ->
  (8 # 10) * prev <= Math_max (1 # 10) (prev * (1 + change))
  /\ Math_max (1 # 10) (prev * (1 + change)) <= Math_max (1 # 10) ((12 # 10) * prev).
Proof.
  intros Hprev Hlow Hhigh.
  assert (0 <= prev * (change + (2 # 10))) by (apply Qmult_le_0_compat; lra).
  assert (0 <= prev * ((2 # 10) - change)) by (apply Qmult_le_0_compat; lra).
  unfold Math_max.
  destruct (Qle_bool (1 # 10) (prev * (1 + change))) eqn:E1;
    destruct (Qle_bool (1 # 10) ((12 # 10) * prev)) eqn:E2;
    try apply Qle_bool_iff in E1; try apply Qle_bool_iff in E2;
    try apply Qle_bool_false in E1; try apply Qle_bool_false in E2;
    split; lra.
Qed.

Lemma scaled_change_band (a w : Q) :
  - (1 # 2) <= a -> a <= 1 # 2 -> 0 <= w -> w <= 30 ->
  - (2 # 10) <= a * (w / 100) /\ a * (w / 100) <= 2 # 10.
Proof.
  intros.
  assert (0 <= (a + (1 # 2)) * w) by (apply Qmult_le_0_compat; lra).
  assert (0 <= ((1 # 2) - a) * w) by (apply Qmult_le_0_compat; lra).
  setoid_replace (a * (w / 100)) with ((a * w) * (1 # 100)) using relation Qeq
    by field.
  split; lra.
Qed.

Lemma ordinary_change_band (r r' v : Q) :
  0 <= r -> r < 1 -> 0 <= r' -> r' < 1 -> 0 <= v -> v <= 20 ->
  - (2 # 10) <= (r' - (1 # 2)) * (v * ((1 # 2) + r) / 100)
  /\ (r' - (1 # 2)) * (v * ((1 # 2) + r) / 100) <= 2 # 10.
Proof.
  intros.
  assert (0 <= v * ((1 # 2) + r)) by (apply Qmult_le_0_compat; lra).
  assert (0 <= (20 - v) * ((1 # 2) + r)) by (apply Qmult_le_0_compat; lra).
  apply scaled_change_band; lra.
Qed.

Lemma expert_fallbackTick_move stock currentDay i prevPrice src :
  unit_draws src ->
  0 <= Stock.volatility stock -> Stock.volatility stock <= 20 ->
  0 <= prevPrice ->
  (8 # 10) * prevPrice
  <= Expert.Tick.price (fst (Expert.fallbackTick stock currentDay i prevPrice src))
  /\ Expert.Tick.price (fst (Expert.fallbackTick stock currentDay i prevPrice src))
     <= Math_max (1 # 10) ((12 # 10) * prevPrice).
Proof.
  intros Hsrc Hv0 Hv20 Hprev. unfold Expert.fallbackTick.
  destruct (Z.rem (currentDay + i + 1) 10 =? 0)%Z; run; cbn [Expert.Tick.price].
  - apply floored_move_band; [exact Hprev| |];
      destruct (Qlt_bool (1 # 2) (src 0%nat)); cbn; lra.
  - destruct (Hsrc 0%nat), (Hsrc 1%nat).
    apply floored_move_band; [exact Hprev| |];
      now apply ordinary_change_band.
Qed.

Lemma expert_fallbackDays_move stock currentDay n :
  0 <= Stock.volatility stock -> Stock.volatility stock <= 20 ->
  forall i prevPrice src,
    unit_draws src -> 0 <= prevPrice ->
    Forall
      (fun t =>
         (8 # 10) * Expert.Tick.previousDayPrice t <= Expert.Tick.price t
         /\ Expert.Tick.price t
            <= Math_max (1 # 10) ((12 # 10) * Expert.Tick.previousDayPrice t))
      (fst (Expert.fallbackDays stock currentDay n i prevPrice src)).
Proof.
  intros Hv0 Hv20.
  induction n as [|n IH]; intros i prevPrice src Hsrc Hprev; [constructor|].
  rewrite expert_fallbackDays_step. cbv zeta. cbn [fst].
  pose proof (expert_fallbackTick_move stock currentDay i prevPrice src
                Hsrc Hv0 Hv20 Hprev) as Hmove.
  destruct (expert_fallbackTick_fields stock currentDay i prevPrice src)
    as (_ & _ & Hp & _).
  constructor.
  - rewrite Hp. exact Hmove.
  - apply IH; [now apply expert_fallbackTick_draws|].
    eapply Qle_trans; [|exact (proj1 Hmove)].
    apply Qmult_le_0_compat; [apply Qle_bool_iff; reflexivity | exact Hprev].
Qed.

(** The relative change that the fallback applies lies within 20% either
    way, for a volatility of at most 20 and draws in [0, 1). *)
Lemma expert_fallbackTick_change stock currentDay i prevPrice src :
  unit_draws src ->
  0 <= Stock.volatility stock -> Stock.volatility stock <= 20 ->
  exists priceChange,
    - (2 # 10) <= priceChange /\ priceChange <= 2 # 10
    /\ Expert.Tick.price (fst (Expert.fallbackTick stock currentDay i prevPrice src))
       = Math_max (1 # 10) (prevPrice * (1 + priceChange)).
Proof.
  intros Hsrc Hv0 Hv20. unfold Expert.fallbackTick.
  destruct (Z.rem (currentDay + i + 1) 10 =? 0)%Z; run; cbn [Expert.Tick.price].
  - refine (ex_intro _ _ (conj _ (conj _ eq_refl)));
      destruct (Qlt_bool (1 # 2) (src 0%nat)); cbn; lra.
  - destruct (Hsrc 0%nat), (Hsrc 1%nat).
    refine (ex_intro _ _ (conj _ (conj _ eq_refl)));
      now apply ordinary_change_band.
Qed.

Lemma expert_fallbackDays_change stock currentDay n :
  0 <= Stock.volatility stock -> Stock.volatility stock <= 20 ->
  forall i prevPrice src,
    unit_draws src ->
    Forall
      (fun t =>
         1 # 10 <= Expert.Tick.price t
         /\ exists priceChange,
              - (2 # 10) <= priceChange /\ priceChange <= 2 # 10
              /\ Expert.Tick.price t
                 = Math_max (1 # 10)
                     (Expert.Tick.previousDayPrice t * (1 + priceChange)))
      (fst (Expert.fallbackDays stock currentDay n i prevPrice src)).
Proof.
  intros Hv0 Hv20.
  induction n as [|n IH]; intros i prevPrice src Hsrc; [constructor|].
  rewrite expert_fallbackDays_step. cbv zeta. cbn [fst].
  destruct (expert_fallbackTick_change stock currentDay i prevPrice src
              Hsrc Hv0 Hv20) as (pc & Hlow & Hhigh & Hprice).
  destruct (expert_fallbackTick_fields stock currentDay i prevPrice src)
    as (_ & _ & Hp & _).
  constructor.
  - rewrite Hp. split; [rewrite Hprice; apply Math_max_floor|].
    exists pc. repeat split; assumption.
  - apply IH. now apply expert_fallbackTick_draws.
Qed.

(** C2, as amended: for stocks whose volatility lies between 0 and 20 and
    for draws in [0, 1), whatever the prices, every tick of the fallback of
    the expert server has a price of at least 0.1: the price is
    [Math.max(0.1, prevPrice * (1 + priceChange))] for a relative change of
    at most 20% either way, so that [prevPrice] is multiplied by a factor
    between 0.8 and 1.2. *)
Theorem expert_fallback_price_floor stocks currentDay days src :
  unit_draws src ->
  Forall
    (fun stock => 0 <= Stock.volatility stock /\ Stock.volatility stock <= 20)
    stocks ->
  Forall
    (fun t =>
       1 # 10 <= Expert.Tick.price t
       /\ exists priceChange,
            - (2 # 10) <= priceChange /\ priceChange <= 2 # 10
            /\ Expert.Tick.price t
               = Math_max (1 # 10)
                   (Expert.Tick.previousDayPrice t * (1 + priceChange)))
    (fst (Expert.fallbackSimulate stocks currentDay days src)).
Proof.
  intros Hsrc Hstocks. revert src Hsrc.
  induction Hstocks as [|stock rest (Hv0 & Hv20) _ IH]; intros src Hsrc;
    [constructor|].
  rewrite expert_fallbackSimulate_step. cbv zeta. cbn [fst].
  apply Forall_app. split.
  - now apply expert_fallbackDays_change.
  - apply IH. now apply expert_fallbackDays_draws.
Qed.

Lemma expert_fallback_price_floor_witness :
  unit_draws (constant_source (1 # 4))
  /\ Forall
       (fun stock => 0 <= Stock.volatility stock /\ Stock.volatility stock <= 20)
       [penny; acme]
  /\ Forall
       (fun t =>
          1 # 10 <= Expert.Tick.price t
          /\ exists priceChange,
               - (2 # 10) <= priceChange /\ priceChange <= 2 # 10
               /\ Expert.Tick.price t
                  = Math_max (1 # 10)
                      (Expert.Tick.previousDayPrice t * (1 + priceChange)))
       (fst (Expert.fallbackSimulate [penny; acme] 9 2 (constant_source (1 # 4)))).
Proof.
  assert (H : Forall
                (fun stock =>
                   0 <= Stock.volatility stock /\ Stock.volatility stock <= 20)
                [penny; acme])
    by (repeat constructor; apply Qle_bool_iff; reflexivity).
  split; [exact unit_draws_constant_quarter|]. split; [exact H|].
  exact (expert_fallback_price_floor [penny; acme] 9 2 (constant_source (1 # 4))
           unit_draws_constant_quarter H).
Defined.

(** X3: with draws in [0, 1), stocks whose price is not negative and
    whose volatility lies between 0 and 20, no tick of the fallback of the
    expert server moves by more than 20% from the price of the day before:
    its price is at least 0.8 times [previousDayPrice], and at most 1.2
    times [previousDayPrice] or the floor 0.1. *)
Theorem expert_fallback_daily_move stocks currentDay days src :
  unit_draws src ->
  Forall
    (fun stock =>
       0 <= Stock.price stock
       /\ 0 <= Stock.volatility stock /\ Stock.volatility stock <= 20)
    stocks ->
  Forall
    (fun t =>
       (8 # 10) * Expert.Tick.previousDayPrice t <= Expert.Tick.price t
       /\ Expert.Tick.price t
          <= Math_max (1 # 10) ((12 # 10) * Expert.Tick.previousDayPrice t))
    (fst (Expert.fallbackSimulate stocks currentDay days src)).
Proof.
  intros Hsrc Hstocks. revert src Hsrc.
  induction Hstocks as [|stock rest (Hprice & Hv0 & Hv20) _ IH]; intros src Hsrc;
    [constructor|].
  rewrite expert_fallbackSimulate_step. cbv zeta. cbn [fst].
  apply Forall_app. split.
  - now apply expert_fallbackDays_move.
  - apply IH. now apply expert_fallbackDays_draws.
Qed.

Lemma expert_fallback_daily_move_witness :
  unit_draws (constant_source (1 # 4))
  /\ Forall
       (fun stock =>
          0 <= Stock.price stock
          /\ 0 <= Stock.volatility stock /\ Stock.volatility stock <= 20)
       [acme; bolt]
  /\ Forall
       (fun t =>
          (8 # 10) * Expert.Tick.previousDayPrice t <= Expert.Tick.price t
          /\ Expert.Tick.price t
             <= Math_max (1 # 10) ((12 # 10) * Expert.Tick.previousDayPrice t))
       (fst (Expert.fallbackSimulate [acme; bolt] 8 3 (constant_source (1 # 4)))).
Proof.
  assert (H : Forall
                (fun stock =>
                   0 <= Stock.price stock
                   /\ 0 <= Stock.volatility stock /\ Stock.volatility stock <= 20)
                [acme; bolt])
    by (repeat constructor; apply Qle_bool_iff; reflexivity).
  split; [exact unit_draws_constant_quarter|]. split; [exact H|].
  exact (expert_fallback_daily_move [acme; bolt] 8 3 (constant_source (1 # 4))
           unit_draws_constant_quarter H).
Defined.

Lemma casual_fallbackTick_spec stock currentDay i src :
  unit_draws src -> 0 <= Stock.price stock ->
  let t := fst (Casual.fallbackTick stock currentDay i src) in
  Casual.Tick.ticker t = Stock.ticker stock
  /\ Casual.Tick.day t = (currentDay + i + 1)%Z
  /\ casualBand stock t
  /\ unit_draws (snd (Casual.fallbackTick stock currentDay i src)).
Proof.
  intros Hsrc Hprice. unfold Casual.fallbackTick, casualBand.
  destruct (Z.rem (currentDay + i + 1) 10 =? 0)%Z eqn:E; run;
    cbn [Casual.Tick.ticker Casual.Tick.day Casual.Tick.price]; rewrite E;
    (split; [reflexivity|]); (split; [reflexivity|]);
    (split; [|intros k; apply Hsrc]).
  - destruct (Qlt_bool (1 # 2) (src 0%nat)); cbn; [left | right]; ring.
  - destruct (Hsrc 0%nat).
    assert (0 <= Stock.price stock * (src 0%nat)) by (apply Qmult_le_0_compat; lra).
    assert (0 <= Stock.price stock * (1 - src 0%nat)) by (apply Qmult_le_0_compat; lra).
    split; lra.
Qed.

Lemma casual_fallbackDays_step stock currentDay n i src :
  Casual.fallbackDays stock currentDay (S n) i src
  = let first := Casual.fallbackTick stock currentDay i src in
    let rest := Casual.fallbackDays stock currentDay n (i + 1)%Z (snd first) in
    (fst first :: fst rest, snd rest).
Proof.
  cbn [Casual.fallbackDays]. unfold bind at 1.
  destruct (Casual.fallbackTick stock currentDay i src) as [t s1].
  unfold bind at 1. cbn [fst snd].
  destruct (Casual.fallbackDays stock currentDay n (i + 1)%Z s1). reflexivity.
Qed.

Lemma casual_fallbackSimulate_step stock rest currentDay days src :
  Casual.fallbackSimulate (stock :: rest) currentDay days src
  = let mine := Casual.fallbackDays stock currentDay (Z.to_nat days) 0%Z src in
    let others := Casual.fallbackSimulate rest currentDay days (snd mine) in
    (fst mine ++ fst others, snd others).
Proof.
  cbn [Casual.fallbackSimulate]. unfold bind at 1.
  destruct (Casual.fallbackDays stock currentDay (Z.to_nat days) 0%Z src) as [mine s1].
  unfold bind at 1. cbn [fst snd].
  destruct (Casual.fallbackSimulate rest currentDay days s1). reflexivity.
Qed.

Lemma casual_fallbackDays_spec stock currentDay n :
  0 <= Stock.price stock ->
  forall i src,
    unit_draws src ->
    let run := Casual.fallbackDays stock currentDay n i src in
    length (fst run) = n
    /\ unit_draws (snd run)
    /\ Forall
         (fun t =>
            Casual.Tick.ticker t = Stock.ticker stock
            /\ (currentDay + i + 1 <= Casual.Tick.day t
                <= currentDay + i + Z.of_nat n)%Z
            /\ casualBand stock t)
         (fst run).
Proof.
  intros Hprice.
  induction n as [|n IH]; intros i src Hsrc.
  - split; [reflexivity|]. split; [exact Hsrc | constructor].
  - cbv zeta. rewrite casual_fallbackDays_step. cbv zeta. cbn [fst snd].
    destruct (casual_fallbackTick_spec stock currentDay i src Hsrc Hprice)
      as (Ht & Hd & Hband & Hsrc').
    destruct (IH (i + 1)%Z _ Hsrc') as (Hlen & Hsrc'' & Hall).
    split; [cbn [length]; now rewrite Hlen|]. split; [exact Hsrc''|].
    constructor.
    + repeat split; [exact Ht | lia | lia | exact Hband].
    + eapply Forall_impl; [exact Hall|].
      intros t (H1 & H2 & H3). repeat split; [exact H1 | lia | lia | exact H3].
Qed.

(** X4: with draws in [0, 1) and stock prices that are not negative, the
    fallback of the casual server produces one tick per stock and day, for
    the ticker of a stock of the request and a day from [currentDay + 1] to
    [currentDay + days], priced from the price of that stock in the request:
    exactly 20% above or below it on a day that is a multiple of 10, within
    10% of it on any other day. *)
Theorem casual_fallback_band stocks currentDay days src :
  unit_draws src ->
  Forall (fun stock => 0 <= Stock.price stock) stocks ->
  length (fst (Casual.fallbackSimulate stocks currentDay days src))
  = (length stocks * Z.to_nat days)%nat
  /\ Forall
       (fun t =>
          exists stock,
            In stock stocks
            /\ Casual.Tick.ticker t = Stock.ticker stock
            /\ (currentDay + 1 <= Casual.Tick.day t <= currentDay + days)%Z
            /\ casualBand stock t)
       (fst (Casual.fallbackSimulate stocks currentDay days src)).
Proof.
  intros Hsrc Hstocks. revert src Hsrc.
  induction Hstocks as [|stock rest Hprice _ IH]; intros src Hsrc;
    [split; [reflexivity | constructor]|].
  rewrite casual_fallbackSimulate_step. cbv zeta. cbn [fst].
  destruct (casual_fallbackDays_spec stock currentDay (Z.to_nat days) Hprice
              0%Z src Hsrc) as (Hlen & Hsrc' & Hall).
  destruct (IH _ Hsrc') as [Hlen' Hall'].
  split; [rewrite length_app, Hlen, Hlen'; cbn [length]; lia|].
  apply Forall_app. split.
  - eapply Forall_impl; [exact Hall|].
    intros t (H1 & H2 & H3). exists stock.
    repeat split; [now left | exact H1 | lia | lia | exact H3].
  - eapply Forall_impl; [exact Hall'|].
    intros t (s' & H0 & H1 & H2 & H3). exists s'.
    repeat split; [now right | exact H1 | lia | lia | exact H3].
Qed.

Lemma casual_fallback_band_witness :
  unit_draws (constant_source (1 # 4))
  /\ Forall (fun stock => 0 <= Stock.price stock) [acme; penny]
  /\ length (fst (Casual.fallbackSimulate [acme; penny] 8 3 (constant_source (1 # 4))))
     = (length [acme; penny] * Z.to_nat 3)%nat
  /\ Forall
       (fun t =>
          exists stock,
            In stock [acme; penny]
            /\ Casual.Tick.ticker t = Stock.ticker stock
            /\ (8 + 1 <= Casual.Tick.day t <= 8 + 3)%Z
            /\ casualBand stock t)
       (fst (Casual.fallbackSimulate [acme; penny] 8 3 (constant_source (1 # 4)))).
Proof.
  assert (H : Forall (fun stock => 0 <= Stock.price stock) [acme; penny])
    by (repeat constructor; apply Qle_bool_iff; reflexivity).
  split; [exact unit_draws_constant_quarter|]. split; [exact H|].
  exact (casual_fallback_band [acme; penny] 8 3 (constant_source (1 # 4))
           unit_draws_constant_quarter H).
Defined.

(** ** The response cache, request after request *)

Lemma getOrCacheResponse_hit key fn now now' st src cached :
  Expert.responseCache st !! key = Some cached ->
  (now - Expert.timestamp cached < Expert.CACHE_TTL)%Z ->
  Expert.getOrCacheResponse key fn now now' st src = (Ok (Expert.data cached), st, src).
Proof.
  intros Hkey Hfresh. unfold Expert.getOrCacheResponse. rewrite Hkey.
  destruct (Z.ltb_spec (now - Expert.timestamp cached) Expert.CACHE_TTL); [|lia].
  reflexivity.
Qed.

(** A result computed on a miss is stored under the key, and answers the
    next call for that key within [CACHE_TTL] of the store, whatever
    function that call brings. *)
Lemma getOrCacheResponse_replay key fn fn2 now now' now2 now2' st src src2 d st' src' :
  cacheFresh now st key = false ->
  fn st src = (Ok d, st', src') ->
  (now2 - now' < Expert.CACHE_TTL)%Z ->
  exists st'',
    Expert.getOrCacheResponse key fn now now' st src = (Ok d, st'', src')
    /\ Expert.predictedEconEvent st'' = Expert.predictedEconEvent st'
    /\ Expert.getOrCacheResponse key fn2 now2 now2' st'' src2 = (Ok d, st'', src2).
Proof.
  intros Hmiss Hfn Hfresh.
  rewrite (getOrCacheResponse_miss key fn now now' st src Hmiss), Hfn.
  eexists. split; [reflexivity|]. split; [reflexivity|].
  rewrite (getOrCacheResponse_hit key fn2 now2 now2' _ src2
             {| Expert.data := d; Expert.timestamp := now' |});
    [reflexivity | apply lookup_insert_eq | exact Hfresh].
Qed.

Lemma expert_simulateCompute_ok JSON_parse req raw st src :
  exists simulated events st' src',
    Expert.simulateCompute JSON_parse req (Some raw) st src
    = (Ok (Expert.SimulateBody simulated events), st', src').
Proof.
  destruct (expert_simulateCompute_events JSON_parse req raw st src) as [simulated H].
  destruct (Expert.simulateCompute JSON_parse req (Some raw) st src) as [[r st'] src'].
  cbn [fst] in H. injection H as -> ->. eauto.
Qed.

(** X5: the cache key of [/simulateDays] is built from [currentDay],
    [days], [predictions] and [activeEconEffects], not from [stocks]: after
    a request that was computed, a request within [CACHE_TTL] with these
    four fields equal gets the ticks of the first one again, also for a
    different stock list, without a completion, a draw or a change of
    state. *)
Theorem simulateDays_replay_ignores_stocks JSON_parse JSON_stringify
    req stocks2 raw llm2 now now' now2 now2' st src src2 :
  (1 <= Expert.SimulateRequest.days req)%Z ->
  cacheFresh now st (Expert.simulateCacheKey JSON_stringify req) = false ->
  (now2 - now' < Expert.CACHE_TTL)%Z ->
  let first :=
    Expert.simulateDays JSON_parse JSON_stringify req (Some raw) now now' st src in
  let req2 :=
    {| Expert.SimulateRequest.stocks := stocks2;
       Expert.SimulateRequest.days := Expert.SimulateRequest.days req;
       Expert.SimulateRequest.predictions := Expert.SimulateRequest.predictions req;
       Expert.SimulateRequest.currentDay := Expert.SimulateRequest.currentDay req;
       Expert.SimulateRequest.activeEconEffects :=
         Expert.SimulateRequest.activeEconEffects req |} in
  Expert.status (fst (fst first)) = 200%Z
  /\ Expert.simulateDays JSON_parse JSON_stringify req2 llm2 now2 now2'
       (snd (fst first)) src2
     = (fst (fst first), snd (fst first), src2).
Proof.
  intros Hdays Hmiss Hfresh first req2.
  destruct (expert_simulateCompute_ok JSON_parse req raw st src)
    as (simulated & events & st' & src' & Hcompute).
  destruct (getOrCacheResponse_replay
              (Expert.simulateCacheKey JSON_stringify req)
              (Expert.simulateCompute JSON_parse req (Some raw))
              (Expert.simulateCompute JSON_parse req2 llm2)
              now now' now2 now2' st src src2 _ _ _ Hmiss Hcompute Hfresh)
    as (st'' & Hfirst & _ & Hsecond).
  subst first. unfold Expert.simulateDays.
  destruct (Z.ltb_spec (Expert.SimulateRequest.days req) 1); [lia|].
  cbn [Expert.SimulateRequest.days req2].
  destruct (Z.ltb_spec (Expert.SimulateRequest.days req) 1); [lia|].
  unfold bind. rewrite Hfirst. cbn [fst snd ret].
  change (Expert.simulateCacheKey JSON_stringify req2)
    with (Expert.simulateCacheKey JSON_stringify req).
  rewrite Hsecond. split; reflexivity.
Qed.

Lemma simulateDays_replay_ignores_stocks_witness :
  (1 <= Expert.SimulateRequest.days batchRequest)%Z
  /\ cacheFresh 2000 (stateWith None)
       (Expert.simulateCacheKey stringifyKind batchRequest) = false
  /\ (3000 - 2500 < Expert.CACHE_TTL)%Z
  /\ Expert.status
       (fst (fst (Expert.simulateDays parseEmptyArray stringifyKind batchRequest
                    (Some apology) 2000 2500 (stateWith None)
                    (constant_source (1 # 4)))))
     = 200%Z
  /\ Expert.simulateDays parseEmptyArray stringifyKind
       {| Expert.SimulateRequest.stocks := [penny];
          Expert.SimulateRequest.days := Expert.SimulateRequest.days batchRequest;
          Expert.SimulateRequest.predictions :=
            Expert.SimulateRequest.predictions batchRequest;
          Expert.SimulateRequest.currentDay :=
            Expert.SimulateRequest.currentDay batchRequest;
          Expert.SimulateRequest.activeEconEffects :=
            Expert.SimulateRequest.activeEconEffects batchRequest |}
       None 3000 3100
       (snd (fst (Expert.simulateDays parseEmptyArray stringifyKind batchRequest
                    (Some apology) 2000 2500 (stateWith None)
                    (constant_source (1 # 4)))))
       (constant_source (3 # 4))
     = (fst (fst (Expert.simulateDays parseEmptyArray stringifyKind batchRequest
                    (Some apology) 2000 2500 (stateWith None)
                    (constant_source (1 # 4)))),
        snd (fst (Expert.simulateDays parseEmptyArray stringifyKind batchRequest
                    (Some apology) 2000 2500 (stateWith None)
                    (constant_source (1 # 4)))),
        constant_source (3 # 4)).
Proof.
  assert (H1 : (1 <= Expert.SimulateRequest.days batchRequest)%Z) by (cbn; lia).
  assert (H2 : cacheFresh 2000 (stateWith None)
                 (Expert.simulateCacheKey stringifyKind batchRequest) = false)
    by (unfold cacheFresh; cbn [stateWith Expert.responseCache];
        now rewrite lookup_empty).
  assert (H3 : (3000 - 2500 < Expert.CACHE_TTL)%Z)
    by (unfold Expert.CACHE_TTL; lia).
  split; [exact H1|]. split; [exact H2|]. split; [exact H3|].
  exact (simulateDays_replay_ignores_stocks parseEmptyArray stringifyKind
           batchRequest [penny] apology None 2000 2500 3000 3100
           (stateWith None) (constant_source (1 # 4)) (constant_source (3 # 4))
           H1 H2 H3).
Defined.

(** X6: the cache key of [/predictNews] is built from [currentDay] alone:
    after a request that was answered with a prediction, a request for the
    same day within [CACHE_TTL] gets that prediction again, whatever its
    stock list, without a completion or a draw. *)
Theorem predictNews_replay_ignores_stocks JSON_parse stocks stocks2 currentDay
    llm llm2 now now' now2 now2' st src src2 :
  cacheFresh now st ("predictNews_" +:+ pretty currentDay) = false ->
  (now2 - now' < Expert.CACHE_TTL)%Z ->
  Expert.status
    (fst (fst (Expert.predictNews JSON_parse stocks currentDay llm now now' st src)))
  = 200%Z ->
  Expert.predictNews JSON_parse stocks2 currentDay llm2 now2 now2'
    (snd (fst (Expert.predictNews JSON_parse stocks currentDay llm now now' st src)))
    src2
  = (fst (fst (Expert.predictNews JSON_parse stocks currentDay llm now now' st src)),
     snd (fst (Expert.predictNews JSON_parse stocks currentDay llm now now' st src)),
     src2).
Proof.
  intros Hmiss Hfresh.
  destruct (Expert.predictCompute JSON_parse stocks currentDay llm st src)
    as [[[d|e] st'] src'] eqn:Hcompute.
  - destruct (getOrCacheResponse_replay
                ("predictNews_" +:+ pretty currentDay)
                (Expert.predictCompute JSON_parse stocks currentDay llm)
                (Expert.predictCompute JSON_parse stocks2 currentDay llm2)
                now now' now2 now2' st src src2 _ _ _ Hmiss Hcompute Hfresh)
      as (st'' & Hfirst & _ & Hsecond).
    assert (Expert.predictNews JSON_parse stocks currentDay llm now now' st src
            = (Expert.respond 200 d, st'', src')) as ->
      by (unfold Expert.predictNews, bind; now rewrite Hfirst).
    cbn [fst snd]. intros _.
    unfold Expert.predictNews, bind. now rewrite Hsecond.
  - unfold Expert.predictNews at 1, bind.
    rewrite (getOrCacheResponse_miss _ _ now now' st src Hmiss), Hcompute.
    cbn [fst snd ret Expert.status Expert.respond]. discriminate.
Qed.

Lemma predictNews_replay_ignores_stocks_witness :
  cacheFresh 2000 (stateWith None) ("predictNews_" +:+ pretty 4%Z) = false
  /\ (3000 - 2500 < Expert.CACHE_TTL)%Z
  /\ Expert.status
       (fst (fst (Expert.predictNews parseEmptyArray [acme] 4 (Some apology)
                    2000 2500 (stateWith None) (constant_source (1 # 4)))))
     = 200%Z
  /\ Expert.predictNews parseEmptyArray [penny] 4 None 3000 3100
       (snd (fst (Expert.predictNews parseEmptyArray [acme] 4 (Some apology)
                    2000 2500 (stateWith None) (constant_source (1 # 4)))))
       (constant_source (3 # 4))
     = (fst (fst (Expert.predictNews parseEmptyArray [acme] 4 (Some apology)
                    2000 2500 (stateWith None) (constant_source (1 # 4)))),
        snd (fst (Expert.predictNews parseEmptyArray [acme] 4 (Some apology)
                    2000 2500 (stateWith None) (constant_source (1 # 4)))),
        constant_source (3 # 4)).
Proof.
  assert (H1 : cacheFresh 2000 (stateWith None) ("predictNews_" +:+ pretty 4%Z)
               = false)
    by (unfold cacheFresh; cbn [stateWith Expert.responseCache];
        now rewrite lookup_empty).
  assert (H2 : (3000 - 2500 < Expert.CACHE_TTL)%Z)
    by (unfold Expert.CACHE_TTL; lia).
  assert (H3 : Expert.status
                 (fst (fst (Expert.predictNews parseEmptyArray [acme] 4
                              (Some apology) 2000 2500 (stateWith None)
                              (constant_source (1 # 4)))))
               = 200%Z)
    by (vm_compute; reflexivity).
  split; [exact H1|]. split; [exact H2|]. split; [exact H3|].
  exact (predictNews_replay_ignores_stocks parseEmptyArray [acme] [penny] 4
           (Some apology) None 2000 2500 3000 3100 (stateWith None)
           (constant_source (1 # 4)) (constant_source (3 # 4)) H1 H2 H3).
Defined.

Lemma expert_stocksCompute_cases JSON_parse llm :
  (exists content items,
      llm = Some content /\ JSON_parse content = Some (JArr items)
      /\ List.filter Expert.stockFilter items <> []
      /\ Expert.stocksCompute JSON_parse llm
         = Ok (Expert.StocksBody (List.filter Expert.stockFilter items)))
  \/ (exists e, Expert.stocksCompute JSON_parse llm = Throw e).
Proof.
  unfold Expert.stocksCompute. destruct llm as [content|]; [|right; eauto].
  destruct (JSON_parse content) as [parsed|] eqn:Hparse; [|right; eauto].
  destruct parsed as [| | | |items|]; try (right; cbn; eauto; fail).
  rewrite expert_validateStocks_filter.
  destruct (List.filter Expert.stockFilter items) as [|x kept] eqn:E;
    [right; eauto|].
  left. exists content, items.
  split; [reflexivity|]. split; [exact Hparse|].
  split; [rewrite E; discriminate | now rewrite E].
Qed.

(** X7: [/stocks] has no fallback and does not cache a failure: unless the
    completion is the JSON text of an array with at least one element that
    passes the stock filter, a request that is not served from the cache is
    answered 500 and leaves the server state as it was, so that the next
    request asks the language model again. *)
Theorem getStocks_no_fallback JSON_parse llm now now' st src :
  cacheFresh now st "stocks" = false ->
  (forall content items,
      llm = Some content -> JSON_parse content = Some (JArr items) ->
      List.filter Expert.stockFilter items = []) ->
  Expert.getStocks JSON_parse llm now now' st src
  = (Expert.respond 500
       (Expert.ErrorBody "Failed to generate stocks. Please try again later."),
     st, src).
Proof.
  intros Hmiss Hnone. unfold Expert.getStocks, bind.
  rewrite (getOrCacheResponse_miss _ _ now now' st src Hmiss). unfold ret.
  destruct (expert_stocksCompute_cases JSON_parse llm)
    as [(content & items & Hllm & Hparse & Hkept & _)|[e ->]].
  - destruct Hkept. now apply (Hnone content items).
  - reflexivity.
Qed.

Lemma getStocks_no_fallback_witness :
  cacheFresh 2000 (stateWith None) "stocks" = false
  /\ (forall content items,
         Some "[]" = Some content -> parseEmptyArray content = Some (JArr items) ->
         List.filter Expert.stockFilter items = [])
  /\ Expert.getStocks parseEmptyArray (Some "[]") 2000 2500 (stateWith None)
       (constant_source (1 # 4))
     = (Expert.respond 500
          (Expert.ErrorBody "Failed to generate stocks. Please try again later."),
        stateWith None, constant_source (1 # 4)).
Proof.
  assert (H1 : cacheFresh 2000 (stateWith None) "stocks" = false)
    by (unfold cacheFresh; cbn [stateWith Expert.responseCache];
        now rewrite lookup_empty).
  assert (H2 : forall content items,
             Some "[]" = Some content ->
             parseEmptyArray content = Some (JArr items) ->
             List.filter Expert.stockFilter items = []).
  { intros content items [= <-] Hparse. cbn in Hparse. now injection Hparse as <-. }
  split; [exact H1|]. split; [exact H2|].
  exact (getStocks_no_fallback parseEmptyArray (Some "[]") 2000 2500
           (stateWith None) (constant_source (1 # 4)) H1 H2).
Defined.

(** X8: a completion with at least one valid stock gives the catalog: the
    valid elements in order, answered 200 and stored; every request within
    [CACHE_TTL] of the store gets the same catalog, whatever the language
    model would return then. *)
Theorem getStocks_cached JSON_parse content items llm2 now now' now2 now2' st src src2 :
  cacheFresh now st "stocks" = false ->
  JSON_parse content = Some (JArr items) ->
  List.filter Expert.stockFilter items <> [] ->
  (now2 - now' < Expert.CACHE_TTL)%Z ->
  fst (fst (Expert.getStocks JSON_parse (Some content) now now' st src))
  = Expert.respond 200 (Expert.StocksBody (List.filter Expert.stockFilter items))
  /\ Expert.getStocks JSON_parse llm2 now2 now2'
       (snd (fst (Expert.getStocks JSON_parse (Some content) now now' st src))) src2
     = (Expert.respond 200 (Expert.StocksBody (List.filter Expert.stockFilter items)),
        snd (fst (Expert.getStocks JSON_parse (Some content) now now' st src)),
        src2).
Proof.
  intros Hmiss Hparse Hkept Hfresh.
  assert (Hcompute :
            Expert.stocksCompute JSON_parse (Some content)
            = Ok (Expert.StocksBody (List.filter Expert.stockFilter items))).
  { unfold Expert.stocksCompute. rewrite Hparse, expert_validateStocks_filter.
    destruct (List.filter Expert.stockFilter items); [contradiction | reflexivity]. }
  destruct (getOrCacheResponse_replay "stocks"
              (fun st' => ret (Expert.stocksCompute JSON_parse (Some content), st'))
              (fun st' => ret (Expert.stocksCompute JSON_parse llm2, st'))
              now now' now2 now2' st src src2
              (Expert.StocksBody (List.filter Expert.stockFilter items)) st src
              Hmiss) as (st'' & Hfirst & _ & Hsecond);
    [unfold ret; now rewrite Hcompute | exact Hfresh |].
  unfold Expert.getStocks, bind. rewrite Hfirst. cbn [fst snd ret].
  rewrite Hsecond. split; reflexivity.
Qed.

Lemma getStocks_cached_witness :
  cacheFresh 2000 (stateWith None) "stocks" = false
  /\ parseOnly "catalog" (JArr [goodStock "AAA"; badStock]) "catalog"
     = Some (JArr [goodStock "AAA"; badStock])
  /\ List.filter Expert.stockFilter [goodStock "AAA"; badStock] <> []
  /\ (3000 - 2500 < Expert.CACHE_TTL)%Z
  /\ fst (fst (Expert.getStocks (parseOnly "catalog" (JArr [goodStock "AAA"; badStock]))
                 (Some "catalog") 2000 2500 (stateWith None)
                 (constant_source (1 # 4))))
     = Expert.respond 200
         (Expert.StocksBody
            (List.filter Expert.stockFilter [goodStock "AAA"; badStock]))
  /\ Expert.getStocks (parseOnly "catalog" (JArr [goodStock "AAA"; badStock]))
       None 3000 3100
       (snd (fst (Expert.getStocks
                    (parseOnly "catalog" (JArr [goodStock "AAA"; badStock]))
                    (Some "catalog") 2000 2500 (stateWith None)
                    (constant_source (1 # 4)))))
       (constant_source (3 # 4))
     = (Expert.respond 200
          (Expert.StocksBody
             (List.filter Expert.stockFilter [goodStock "AAA"; badStock])),
        snd (fst (Expert.getStocks
                    (parseOnly "catalog" (JArr [goodStock "AAA"; badStock]))
                    (Some "catalog") 2000 2500 (stateWith None)
                    (constant_source (1 # 4)))),
        constant_source (3 # 4)).
Proof.
  assert (H1 : cacheFresh 2000 (stateWith None) "stocks" = false)
    by (unfold cacheFresh; cbn [stateWith Expert.responseCache];
        now rewrite lookup_empty).
  assert (H2 : parseOnly "catalog" (JArr [goodStock "AAA"; badStock]) "catalog"
               = Some (JArr [goodStock "AAA"; badStock])) by reflexivity.
  assert (H3 : List.filter Expert.stockFilter [goodStock "AAA"; badStock] <> [])
    by (vm_compute; discriminate).
  assert (H4 : (3000 - 2500 < Expert.CACHE_TTL)%Z)
    by (unfold Expert.CACHE_TTL; lia).
  split; [exact H1|]. split; [exact H2|]. split; [exact H3|]. split; [exact H4|].
  exact (getStocks_cached (parseOnly "catalog" (JArr [goodStock "AAA"; badStock]))
           "catalog" [goodStock "AAA"; badStock] None 2000 2500 3000 3100
           (stateWith None) (constant_source (1 # 4)) (constant_source (3 # 4))
           H1 H2 H3 H4).
Defined.

(** The state that the function handed to the cache leaves, whether the
    completion returned or not. *)
Lemma expert_simulateCompute_state JSON_parse req llm st src :
  snd (fst (Expert.simulateCompute JSON_parse req llm st src))
  = {| Expert.responseCache := Expert.responseCache st;
       Expert.predictedEconEvent :=
         snd (Expert.promotePredicted (Expert.predictedEconEvent st)
                (Expert.SimulateRequest.currentDay req)
                (Expert.SimulateRequest.days req)) |}.
Proof.
  pose proof (expert_econEvents_steps (Expert.predictedEconEvent st)
                (Expert.SimulateRequest.activeEconEffects req)
                (Expert.SimulateRequest.currentDay req)
                (Expert.SimulateRequest.days req) src) as Hsteps.
  cbv zeta in Hsteps.
  unfold Expert.simulateCompute, bind at 1.
  destruct (Expert.econEvents _ _ _ _ src) as [events s1]. cbn [fst snd] in *.
  rewrite Hsteps. cbn [snd].
  destruct llm as [raw|]; [|reflexivity].
  unfold bind, ret. destruct (Expert.simulatedOrFallback _ _ _ _ _ s1). reflexivity.
Qed.

Lemma promotePredicted_cases predicted currentDay days :
  snd (Expert.promotePredicted predicted currentDay days) = predicted
  \/ (snd (Expert.promotePredicted predicted currentDay days) = None
      /\ exists p,
           predicted = Some p
           /\ (currentDay < Expert.PredictedEconEvent.day p <= currentDay + days)%Z).
Proof.
  unfold Expert.promotePredicted. destruct predicted as [p|]; [|now left].
  destruct (Z.leb_spec (currentDay + 1) (Expert.PredictedEconEvent.day p));
    destruct (Z.leb_spec (Expert.PredictedEconEvent.day p) (currentDay + days));
    cbn [andb snd]; try (now left).
  right. split; [reflexivity|]. exists p. split; [reflexivity | lia].
Qed.

(** X9: [/simulateDays] never stores or changes a prediction: after any
    request, served from the cache or computed, answered 200, 400 or 500,
    [predictedEconEvent] is what it was, or it is [null] and the prediction
    that was stored had its day in (currentDay, currentDay + days]. *)
Theorem simulateDays_never_predicts JSON_parse JSON_stringify req llm now now' st src :
  let st' :=
    snd (fst (Expert.simulateDays JSON_parse JSON_stringify req llm now now' st src)) in
  Expert.predictedEconEvent st' = Expert.predictedEconEvent st
  \/ (Expert.predictedEconEvent st' = None
      /\ exists p,
           Expert.predictedEconEvent st = Some p
           /\ (Expert.SimulateRequest.currentDay req
               < Expert.PredictedEconEvent.day p
               <= Expert.SimulateRequest.currentDay req
                  + Expert.SimulateRequest.days req)%Z).
Proof.
  cbv zeta. unfold Expert.simulateDays.
  destruct (Expert.SimulateRequest.days req <? 1)%Z; [now left|].
  unfold bind.
  destruct (cacheFresh now st (Expert.simulateCacheKey JSON_stringify req)) eqn:Hfresh.
  - unfold cacheFresh in Hfresh.
    destruct (Expert.responseCache st !! Expert.simulateCacheKey JSON_stringify req)
      as [cached|] eqn:Hkey; [|discriminate].
    rewrite (getOrCacheResponse_hit _ _ now now' st src cached Hkey)
      by (now apply Z.ltb_lt).
    now left.
  - rewrite (getOrCacheResponse_miss _ _ now now' st src Hfresh).
    pose proof (expert_simulateCompute_state JSON_parse req llm st src) as Hstate.
    destruct (Expert.simulateCompute JSON_parse req llm st src) as [[r st1] src1].
    cbn [fst snd] in Hstate. subst st1.
    destruct r as [d|e]; cbn [fst snd ret Expert.predictedEconEvent];
      apply promotePredicted_cases.
Qed.

(** X10: when the completion call fails on a request that is not served
    from the cache, [/simulateDays] answers 500 and stores nothing in the
    cache, but the scheduler has already run: a stored prediction whose day
    lies in the requested days is cleared, and its event is returned to no
    one. *)
Theorem simulateDays_completion_failure JSON_parse JSON_stringify req now now' st src p :
  (1 <= Expert.SimulateRequest.days req)%Z ->
  cacheFresh now st (Expert.simulateCacheKey JSON_stringify req) = false ->
  Expert.predictedEconEvent st = Some p ->
  (Expert.SimulateRequest.currentDay req < Expert.PredictedEconEvent.day p
   <= Expert.SimulateRequest.currentDay req + Expert.SimulateRequest.days req)%Z ->
  fst (Expert.simulateDays JSON_parse JSON_stringify req None now now' st src)
  = (Expert.respond 500 (Expert.ErrorBody "Failed to simulate days"),
     {| Expert.responseCache := Expert.responseCache st;
        Expert.predictedEconEvent := None |}).
Proof.
  intros Hdays Hmiss Hp Hrange. unfold Expert.simulateDays.
  destruct (Z.ltb_spec (Expert.SimulateRequest.days req) 1); [lia|].
  unfold bind. rewrite (getOrCacheResponse_miss _ _ now now' st src Hmiss).
  pose proof (expert_simulateCompute_state JSON_parse req None st src) as Hstate.
  rewrite Hp, (promotePredicted_in_range p _ _ Hrange) in Hstate. cbn [snd] in Hstate.
  assert (Hthrow : fst (fst (Expert.simulateCompute JSON_parse req None st src))
                   = Throw CompletionError).
  { unfold Expert.simulateCompute, bind.
    destruct (Expert.econEvents _ _ _ _ src). reflexivity. }
  destruct (Expert.simulateCompute JSON_parse req None st src) as [[r st1] src1].
  cbn [fst snd] in *. subst r st1. reflexivity.
Qed.

Lemma simulateDays_completion_failure_witness :
  (1 <= Expert.SimulateRequest.days batchRequest)%Z
  /\ cacheFresh 2000 (stateWith (Some (predictionFor 6)))
       (Expert.simulateCacheKey stringifyKind batchRequest) = false
  /\ Expert.predictedEconEvent (stateWith (Some (predictionFor 6)))
     = Some (predictionFor 6)
  /\ (Expert.SimulateRequest.currentDay batchRequest
      < Expert.PredictedEconEvent.day (predictionFor 6)
      <= Expert.SimulateRequest.currentDay batchRequest
         + Expert.SimulateRequest.days batchRequest)%Z
  /\ fst (Expert.simulateDays parseEmptyArray stringifyKind batchRequest None
            2000 2500 (stateWith (Some (predictionFor 6))) (constant_source (1 # 4)))
     = (Expert.respond 500 (Expert.ErrorBody "Failed to simulate days"),
        {| Expert.responseCache :=
             Expert.responseCache (stateWith (Some (predictionFor 6)));
           Expert.predictedEconEvent := None |}).
Proof.
  assert (H1 : (1 <= Expert.SimulateRequest.days batchRequest)%Z) by (cbn; lia).
  assert (H2 : cacheFresh 2000 (stateWith (Some (predictionFor 6)))
                 (Expert.simulateCacheKey stringifyKind batchRequest) = false)
    by (unfold cacheFresh; cbn [stateWith Expert.responseCache];
        now rewrite lookup_empty).
  assert (H4 : (Expert.SimulateRequest.currentDay batchRequest
                < Expert.PredictedEconEvent.day (predictionFor 6)
                <= Expert.SimulateRequest.currentDay batchRequest
                   + Expert.SimulateRequest.days batchRequest)%Z) by (cbn; lia).
  split; [exact H1|]. split; [exact H2|]. split; [reflexivity|]. split; [exact H4|].
  exact (simulateDays_completion_failure parseEmptyArray stringifyKind batchRequest
           2000 2500 (stateWith (Some (predictionFor 6))) (constant_source (1 # 4))
           (predictionFor 6) H1 H2 eq_refl H4).
Defined.

(** X11: an entry that is [CACHE_TTL] old or older is not used: the batch
    is computed again from the completion and the scheduler, answered 200,
    and stored under the same key with the time of the store, replacing the
    old entry. *)
Theorem simulateDays_expired_recomputes JSON_parse JSON_stringify req raw
    now now' st src cached :
  (1 <= Expert.SimulateRequest.days req)%Z ->
  Expert.responseCache st !! Expert.simulateCacheKey JSON_stringify req = Some cached ->
  (Expert.CACHE_TTL <= now - Expert.timestamp cached)%Z ->
  exists body,
    fst (fst (Expert.simulateCompute JSON_parse req (Some raw) st src)) = Ok body
    /\ fst (fst (Expert.simulateDays JSON_parse JSON_stringify req (Some raw)
                   now now' st src))
       = Expert.respond 200 body
    /\ Expert.responseCache
         (snd (fst (Expert.simulateDays JSON_parse JSON_stringify req (Some raw)
                      now now' st src)))
       = <[ Expert.simulateCacheKey JSON_stringify req :=
              {| Expert.data := body; Expert.timestamp := now' |} ]>
           (Expert.responseCache st).
Proof.
  intros Hdays Hkey Hold.
  assert (Hmiss : cacheFresh now st (Expert.simulateCacheKey JSON_stringify req)
                  = false).
  { unfold cacheFresh. rewrite Hkey. apply Z.ltb_ge. exact Hold. }
  destruct (expert_simulateCompute_ok JSON_parse req raw st src)
    as (simulated & events & st' & src' & Hcompute).
  pose proof (expert_simulateCompute_state JSON_parse req (Some raw) st src) as Hstate.
  unfold Expert.simulateDays.
  destruct (Z.ltb_spec (Expert.SimulateRequest.days req) 1); [lia|].
  unfold bind. rewrite (getOrCacheResponse_miss _ _ now now' st src Hmiss).
  rewrite Hcompute in *. cbn [fst snd] in *. subst st'.
  eexists. split; [reflexivity|]. split; reflexivity.
Qed.

Lemma simulateDays_expired_recomputes_witness :
  (1 <= Expert.SimulateRequest.days batchRequest)%Z
  /\ Expert.responseCache warmState
       !! Expert.simulateCacheKey stringifyKind batchRequest = Some cachedBatch
  /\ (Expert.CACHE_TTL <= 301000 - Expert.timestamp cachedBatch)%Z
  /\ exists body,
       fst (fst (Expert.simulateCompute parseEmptyArray batchRequest (Some apology)
                   warmState (constant_source (1 # 4))))
       = Ok body
       /\ fst (fst (Expert.simulateDays parseEmptyArray stringifyKind batchRequest
                      (Some apology) 301000 301500 warmState
                      (constant_source (1 # 4))))
          = Expert.respond 200 body
       /\ Expert.responseCache
            (snd (fst (Expert.simulateDays parseEmptyArray stringifyKind batchRequest
                         (Some apology) 301000 301500 warmState
                         (constant_source (1 # 4)))))
          = <[ Expert.simulateCacheKey stringifyKind batchRequest :=
                 {| Expert.data := body; Expert.timestamp := 301500 |} ]>
              (Expert.responseCache warmState).
Proof.
  assert (H1 : (1 <= Expert.SimulateRequest.days batchRequest)%Z) by (cbn; lia).
  assert (H2 : Expert.responseCache warmState
               !! Expert.simulateCacheKey stringifyKind batchRequest
               = Some cachedBatch) by apply lookup_singleton_eq.
  assert (H3 : (Expert.CACHE_TTL <= 301000 - Expert.timestamp cachedBatch)%Z)
    by (cbn; unfold Expert.CACHE_TTL; lia).
  split; [exact H1|]. split; [exact H2|]. split; [exact H3|].
  exact (simulateDays_expired_recomputes parseEmptyArray stringifyKind batchRequest
           apology 301000 301500 warmState (constant_source (1 # 4)) cachedBatch
           H1 H2 H3).
Defined.

(** ** Predictions of economic events, request after request *)

Lemma expert_predictEconEvent_fresh currentDay effects st src :
  Expert.predictedEconEvent st = None ->
  Expert.predictEconEvent currentDay effects st src
  = (Expert.respond 200
       (Expert.EconPredictionBody
          (fst (Expert.newEconPrediction currentDay effects src))),
     {| Expert.responseCache := Expert.responseCache st;
        Expert.predictedEconEvent :=
          Some (fst (Expert.newEconPrediction currentDay effects src)) |},
     snd (Expert.newEconPrediction currentDay effects src)).
Proof.
  intros Hnone. unfold Expert.predictEconEvent. rewrite Hnone. rewrite Hnone.
  unfold bind, ret. destruct (Expert.newEconPrediction currentDay effects src).
  reflexivity.
Qed.

(** X12: a new prediction, for draws in [0, 1): its sector is one of the
    six, it lasts 3 or 4 days, its direction is positive or negative, and
    its headline is built from the two.  Its day is 6 to 10 days after
    [currentDay] while fewer than 6 days have passed since the last event;
    from 6 days on the draw no longer counts and the day is the tenth day
    after the last event. *)
Theorem expert_newEconPrediction_schedule currentDay effects src :
  unit_draws src ->
  let p := fst (Expert.newEconPrediction currentDay effects src) in
  let d := Expert.daysSinceLastEvent effects currentDay in
  (exists s, In s Expert.sectors /\ Expert.PredictedEconEvent.sector p = Some s)
  /\ (Expert.PredictedEconEvent.daysLeft p = 3%Z
      \/ Expert.PredictedEconEvent.daysLeft p = 4%Z)
  /\ (Expert.PredictedEconEvent.direction p = "positive"
      \/ Expert.PredictedEconEvent.direction p = "negative")
  /\ Expert.PredictedEconEvent.headline p
     = Expert.marketShift (Expert.PredictedEconEvent.direction p)
         (Expert.PredictedEconEvent.sector p)
  /\ ((d < 6)%Z ->
      (currentDay + 6 <= Expert.PredictedEconEvent.day p <= currentDay + 10)%Z)
  /\ ((6 <= d)%Z ->
      Expert.PredictedEconEvent.day p
      = (Expert.lastEconEventDay effects currentDay + 10)%Z).
Proof.
  intros Hsrc. cbv zeta.
  pose proof (expert_newEconPrediction_day currentDay effects src) as Hday.
  cbv zeta in Hday. rewrite Hday.
  destruct (Hsrc 0%nat) as [H0 H1].
  pose proof (floor_draw_range (src 0%nat) 5 H0 H1 ltac:(lia)) as Hr.
  change (inject_Z 5) with 5 in Hr.
  unfold Expert.newEconPrediction. run.
  cbn [Expert.PredictedEconEvent.sector Expert.PredictedEconEvent.daysLeft
       Expert.PredictedEconEvent.direction Expert.PredictedEconEvent.headline].
  split.
  { apply sectorAt_in. destruct (Hsrc 1%nat).
    now apply (floor_draw_range (src 1%nat) 6). }
  split.
  { destruct (Hsrc 2%nat) as [H0' H1'].
    pose proof (floor_draw_range (src 2%nat) 2 H0' H1' ltac:(lia)) as Hr'.
    change (inject_Z 2) with 2 in Hr'. lia. }
  split; [destruct (Qlt_bool (1 # 2) (src 3%nat)); [now left | now right]|].
  split; [reflexivity|].
  unfold Expert.daysSinceLastEvent.
  split; intros Hd.
  - destruct (Z.leb_spec 6 (currentDay - Expert.lastEconEventDay effects currentDay));
      lia.
  - destruct (Z.leb_spec 6 (currentDay - Expert.lastEconEventDay effects currentDay));
      lia.
Qed.

Lemma expert_newEconPrediction_schedule_witness :
  unit_draws (constant_source (1 # 4))
  /\ (6 <= Expert.daysSinceLastEvent [effectStarting (Some 3%Z)] 10)%Z
  /\ Expert.PredictedEconEvent.day
       (fst (Expert.newEconPrediction 10 [effectStarting (Some 3%Z)]
               (constant_source (1 # 4))))
     = (Expert.lastEconEventDay [effectStarting (Some 3%Z)] 10 + 10)%Z.
Proof.
  split; [exact unit_draws_constant_quarter|]. split; [now vm_compute|].
  refine (proj2 (proj2 (proj2 (proj2 (proj2
            (expert_newEconPrediction_schedule 10 [effectStarting (Some 3%Z)]
               (constant_source (1 # 4)) unit_draws_constant_quarter))))) _).
  now vm_compute.
Defined.

(** X13: a prediction is kept until its day: on a server without a stored
    prediction, while fewer than 10 days have passed since the last event
    and for draws in [0, 1), the prediction that [/predictEconEvent] returns
    is the answer to every further request for the same day, whatever the
    active effects and the draws then, and the state no longer changes. *)
Theorem predictEconEvent_settles currentDay effects effects2 st src src2 :
  Expert.predictedEconEvent st = None ->
  unit_draws src ->
  (Expert.daysSinceLastEvent effects currentDay < 10)%Z ->
  Expert.predictEconEvent currentDay effects2
    (snd (fst (Expert.predictEconEvent currentDay effects st src))) src2
  = (fst (fst (Expert.predictEconEvent currentDay effects st src)),
     snd (fst (Expert.predictEconEvent currentDay effects st src)),
     src2).
Proof.
  intros Hnone Hsrc Hd.
  rewrite (expert_predictEconEvent_fresh currentDay effects st src Hnone).
  cbn [fst snd].
  apply expert_predictEconEvent_stored; [reflexivity|].
  now apply expert_newEconPrediction_future.
Qed.

Lemma predictEconEvent_settles_witness :
  Expert.predictedEconEvent (stateWith None) = None
  /\ unit_draws (constant_source (1 # 4))
  /\ (Expert.daysSinceLastEvent [] 4 < 10)%Z
  /\ Expert.predictEconEvent 4 [effectStarting (Some 2%Z)]
       (snd (fst (Expert.predictEconEvent 4 [] (stateWith None)
                    (constant_source (1 # 4)))))
       (constant_source (3 # 4))
     = (fst (fst (Expert.predictEconEvent 4 [] (stateWith None)
                    (constant_source (1 # 4)))),
        snd (fst (Expert.predictEconEvent 4 [] (stateWith None)
                    (constant_source (1 # 4)))),
        constant_source (3 # 4)).
Proof.
  assert (H : (Expert.daysSinceLastEvent [] 4 < 10)%Z) by now vm_compute.
  split; [reflexivity|]. split; [exact unit_draws_constant_quarter|].
  split; [exact H|].
  exact (predictEconEvent_settles 4 [] [effectStarting (Some 2%Z)] (stateWith None)
           (constant_source (1 # 4)) (constant_source (3 # 4)) eq_refl
           unit_draws_constant_quarter H).
Defined.

(** X14: from 10 days after the last event on, a prediction does not
    settle: the one that [/predictEconEvent] stores is not after
    [currentDay], so the next request for the same day discards it and
    answers with a prediction built from its own draws. *)
Theorem predictEconEvent_overdue_redraws currentDay effects st src src2 :
  Expert.predictedEconEvent st = None ->
  (10 <= Expert.daysSinceLastEvent effects currentDay)%Z ->
  Expert.predictEconEvent currentDay effects
    (snd (fst (Expert.predictEconEvent currentDay effects st src))) src2
  = (Expert.respond 200
       (Expert.EconPredictionBody
          (fst (Expert.newEconPrediction currentDay effects src2))),
     {| Expert.responseCache := Expert.responseCache st;
        Expert.predictedEconEvent :=
          Some (fst (Expert.newEconPrediction currentDay effects src2)) |},
     snd (Expert.newEconPrediction currentDay effects src2)).
Proof.
  intros Hnone Hd.
  rewrite (expert_predictEconEvent_fresh currentDay effects st src Hnone).
  cbn [fst snd].
  pose proof (expert_newEconPrediction_stale currentDay effects src Hd) as Hstale.
  unfold Expert.predictEconEvent. cbn [Expert.predictedEconEvent].
  destruct (Z.leb_spec
              (Expert.PredictedEconEvent.day
                 (fst (Expert.newEconPrediction currentDay effects src)))
              currentDay); [|lia].
  cbn [Expert.predictedEconEvent Expert.responseCache]. unfold bind, ret.
  destruct (Expert.newEconPrediction currentDay effects src2). reflexivity.
Qed.

Lemma predictEconEvent_overdue_redraws_witness :
  Expert.predictedEconEvent (stateWith None) = None
  /\ (10 <= Expert.daysSinceLastEvent [] 12)%Z
  /\ Expert.predictEconEvent 12 []
       (snd (fst (Expert.predictEconEvent 12 [] (stateWith None)
                    (constant_source (1 # 4)))))
       (constant_source (3 # 4))
     = (Expert.respond 200
          (Expert.EconPredictionBody
             (fst (Expert.newEconPrediction 12 [] (constant_source (3 # 4))))),
        {| Expert.responseCache := Expert.responseCache (stateWith None);
           Expert.predictedEconEvent :=
             Some (fst (Expert.newEconPrediction 12 [] (constant_source (3 # 4)))) |},
        snd (Expert.newEconPrediction 12 [] (constant_source (3 # 4)))).
Proof.
  assert (H : (10 <= Expert.daysSinceLastEvent [] 12)%Z) by now vm_compute.
  split; [reflexivity|]. split; [exact H|].
  exact (predictEconEvent_overdue_redraws 12 [] (stateWith None)
           (constant_source (1 # 4)) (constant_source (3 # 4)) eq_refl H).
Defined.

(** X15: prediction and simulation fit together: on a server without a
    stored prediction, while fewer than 10 days have passed since the last
    event and for draws in [0, 1), the event that [/predictEconEvent]
    announces is the one new event of a [/simulateDays] batch of at least
    10 days computed from the same day, and the batch clears the
    prediction. *)
Theorem predict_then_simulate JSON_parse effects req raw st src src2 :
  Expert.predictedEconEvent st = None ->
  unit_draws src ->
  (Expert.daysSinceLastEvent effects (Expert.SimulateRequest.currentDay req) < 10)%Z ->
  (10 <= Expert.SimulateRequest.days req)%Z ->
  exists p simulated,
    fst (fst (Expert.predictEconEvent (Expert.SimulateRequest.currentDay req)
                effects st src))
    = Expert.respond 200 (Expert.EconPredictionBody p)
    /\ fst (Expert.simulateCompute JSON_parse req (Some raw)
              (snd (fst (Expert.predictEconEvent
                           (Expert.SimulateRequest.currentDay req) effects st src)))
              src2)
       = (Ok (Expert.SimulateBody simulated [Expert.activate p]),
          {| Expert.responseCache := Expert.responseCache st;
             Expert.predictedEconEvent := None |}).
Proof.
  intros Hnone Hsrc Hd Hdays.
  rewrite (expert_predictEconEvent_fresh _ effects st src Hnone). cbn [fst snd].
  set (p := fst (Expert.newEconPrediction (Expert.SimulateRequest.currentDay req)
                   effects src)).
  assert (Hrange :
            (Expert.SimulateRequest.currentDay req < Expert.PredictedEconEvent.day p
             <= Expert.SimulateRequest.currentDay req
                + Expert.SimulateRequest.days req)%Z).
  { split; [now apply expert_newEconPrediction_future|].
    subst p. rewrite expert_newEconPrediction_day. cbv zeta.
    destruct (Hsrc 0%nat) as [H0 H1].
    pose proof (floor_draw_range (src 0%nat) 5 H0 H1 ltac:(lia)) as Hr.
    change (inject_Z 5) with 5 in Hr.
    destruct (6 <=? Expert.daysSinceLastEvent effects
                      (Expert.SimulateRequest.currentDay req))%Z; lia. }
  destruct (expert_simulateCompute_events JSON_parse req raw
              {| Expert.responseCache := Expert.responseCache st;
                 Expert.predictedEconEvent := Some p |} src2) as [simulated Hout].
  rewrite expert_econEvents_steps in Hout. cbv zeta in Hout.
  cbn [Expert.predictedEconEvent Expert.responseCache] in Hout.
  rewrite (promotePredicted_in_range p _ _ Hrange) in Hout.
  cbn [fst snd length Nat.eqb] in Hout. rewrite andb_false_r in Hout.
  exists p, simulated. split; [reflexivity | exact Hout].
Qed.

Lemma predict_then_simulate_witness :
  Expert.predictedEconEvent (stateWith None) = None
  /\ unit_draws (constant_source (1 # 4))
  /\ (Expert.daysSinceLastEvent []
        (Expert.SimulateRequest.currentDay
           {| Expert.SimulateRequest.stocks := [acme];
              Expert.SimulateRequest.days := 10;
              Expert.SimulateRequest.predictions := [];
              Expert.SimulateRequest.currentDay := 4;
              Expert.SimulateRequest.activeEconEffects := [] |}) < 10)%Z
  /\ exists p simulated,
       fst (fst (Expert.predictEconEvent 4 [] (stateWith None)
                   (constant_source (1 # 4))))
       = Expert.respond 200 (Expert.EconPredictionBody p)
       /\ fst (Expert.simulateCompute parseEmptyArray
                 {| Expert.SimulateRequest.stocks := [acme];
                    Expert.SimulateRequest.days := 10;
                    Expert.SimulateRequest.predictions := [];
                    Expert.SimulateRequest.currentDay := 4;
                    Expert.SimulateRequest.activeEconEffects := [] |}
                 (Some apology)
                 (snd (fst (Expert.predictEconEvent 4 [] (stateWith None)
                              (constant_source (1 # 4)))))
                 (constant_source (3 # 4)))
          = (Ok (Expert.SimulateBody simulated [Expert.activate p]),
             {| Expert.responseCache := Expert.responseCache (stateWith None);
                Expert.predictedEconEvent := None |}).
Proof.
  assert (H : (Expert.daysSinceLastEvent [] 4 < 10)%Z) by now vm_compute.
  split; [reflexivity|]. split; [exact unit_draws_constant_quarter|].
  split; [exact H|].
  refine (predict_then_simulate parseEmptyArray []
            {| Expert.SimulateRequest.stocks := [acme];
               Expert.SimulateRequest.days := 10;
               Expert.SimulateRequest.predictions := [];
               Expert.SimulateRequest.currentDay := 4;
               Expert.SimulateRequest.activeEconEffects := [] |}
            apology (stateWith None) (constant_source (1 # 4))
            (constant_source (3 # 4)) eq_refl unit_draws_constant_quarter H _).
  cbn. lia.
Defined.

(** ** The news prediction, further *)

Lemma Number_isInteger_inject (z : Z) :
  Number_isInteger (Some (JNum (inject_Z z))) = true.
Proof.
  unfold Number_isInteger. rewrite Qfloor_Z. apply Qeq_bool_iff. reflexivity.
Qed.

Lemma expert_predictionFallback_shape stocks currentDay src :
  stocks <> [] -> unit_draws src ->
  exists prediction,
    fst (Expert.predictionFallback stocks currentDay src) = Ok prediction
    /\ predictionInCatalog stocks currentDay prediction
    /\ Number_isInteger (prop "day" prediction) = true
    /\ includes ["rise"; "fall"] (prop "direction" prediction) = true.
Proof.
  intros Hne Hsrc. unfold Expert.predictionFallback. unfold bind at 1.
  unfold Math_random at 1.
  destruct (Hsrc 0%nat) as [H0 H1].
  assert (Hlen : (0 < Z.of_nat (length stocks))%Z)
    by (destruct stocks; [contradiction | cbn [length]; lia]).
  pose proof (floor_draw_range _ _ H0 H1 Hlen) as Hidx.
  unfold at_index.
  destruct (Z.ltb_spec (Math_floor (src 0%nat * inject_Z (Z.of_nat (length stocks)))) 0);
    [lia|].
  destruct (nth_error stocks _) as [randomStock|] eqn:Hnth.
  2:{ apply nth_error_None in Hnth. lia. }
  run. eexists. split; [reflexivity|]. split; [split|split].
  - exists randomStock. split; [eapply nth_error_In; exact Hnth | reflexivity].
  - eexists. split; [reflexivity|].
    destruct (Hsrc 1%nat) as [H0' H1'].
    pose proof (floor_draw_range (src 1%nat) 7 H0' H1' ltac:(lia)) as Hr.
    change (inject_Z 7) with 7 in Hr.
    rewrite <- Zlt_Qlt, <- Zle_Qle. lia.
  - apply Number_isInteger_inject.
  - destruct (Qlt_bool (1 # 2) (src 2%nat)); reflexivity.
Qed.

(** X16: for a request whose [currentDay] is an integer, with a stock to
    choose from and draws in [0, 1), the expert server always has a
    prediction to return, and it is well formed: its [day] is an integer
    and its [direction] is rise or fall, whether it is the candidate of the
    completion, which [Number.isInteger] has tested, or the fallback, whose
    day is [currentDay] plus an integer from 1 to 7. *)
Theorem expert_predictNews_well_formed JSON_parse stocks currentDay content src :
  stocks <> [] -> unit_draws src ->
  exists prediction,
    fst (Expert.predictionOrFallback JSON_parse stocks currentDay content src)
    = Ok prediction
    /\ Number_isInteger (prop "day" prediction) = true
    /\ includes ["rise"; "fall"] (prop "direction" prediction) = true.
Proof.
  intros Hne Hsrc.
  destruct (expert_predictionFallback_shape stocks currentDay src Hne Hsrc)
    as (fallback & Hfb & _ & Hint & Hdir).
  unfold Expert.predictionOrFallback.
  destruct (JSON_parse content) as [candidate|]; [|exists fallback; now repeat split].
  destruct (Expert.predictionFormat candidate) as [[]|e] eqn:Hformat;
    [|exists fallback; now repeat split].
  exists candidate. split; [reflexivity|].
  unfold Expert.predictionFormat in Hformat.
  destruct candidate; try discriminate;
    match type of Hformat with
    | (if ?c then _ else _) = _ => destruct c eqn:E; [discriminate|]
    end;
    apply orb_false_iff in E; destruct E as [E Hdir'];
    apply orb_false_iff in E; destruct E as [_ Hint'];
    apply negb_false_iff in Hdir', Hint'; now split.
Qed.

Lemma expert_predictNews_well_formed_witness :
  [acme] <> []
  /\ unit_draws (constant_source (1 # 4))
  /\ exists prediction,
       fst (Expert.predictionOrFallback (parseOnly strayText strayPrediction) [acme]
              0 strayText (constant_source (1 # 4)))
       = Ok prediction
       /\ Number_isInteger (prop "day" prediction) = true
       /\ includes ["rise"; "fall"] (prop "direction" prediction) = true.
Proof.
  assert (H : [acme] <> []) by discriminate.
  split; [exact H|]. split; [exact unit_draws_constant_quarter|].
  exact (expert_predictNews_well_formed (parseOnly strayText strayPrediction) [acme]
           0 strayText (constant_source (1 # 4)) H unit_draws_constant_quarter).
Defined.



Lemma casual_predictNews_sound_witness :
  [acme; bolt] <> []
  /\ unit_draws (constant_source (1 # 4))
  /\ exists prediction,
       fst (Casual.predictionOrFallback (parseOnly strayText strayPrediction)
              [acme; bolt] 0 strayText (constant_source (1 # 4)))
       = Ok prediction
       /\ predictionInCatalog [acme; bolt] 0 prediction.
Proof.
  assert (H : [acme; bolt] <> []) by discriminate.
  split; [exact H|]. split; [exact unit_draws_constant_quarter|].
  exact (casual_predictNews_sound (parseOnly strayText strayPrediction)
           [acme; bolt] 0 strayText (constant_source (1 # 4)) H
           unit_draws_constant_quarter).
Defined.

(** ** The validators, further *)

Lemma is_type_string x : is_type TString x = true -> exists s, x = Some (JStr s).
Proof. destruct x as [[| | |s| |]|]; try discriminate. eauto. Qed.

Lemma is_type_number x : is_type TNumber x = true -> exists q, x = Some (JNum q).
Proof. destruct x as [[| |q| | |]|]; try discriminate. eauto. Qed.

Lemma expert_stockFilter_sound stock :
  Expert.stockFilter stock = true -> wellTypedStock stock.
Proof.
  unfold Expert.stockFilter, wellTypedStock, holdsString, holdsNumber. intros H.
  repeat (apply andb_true_iff in H; destruct H as [H ?]).
  repeat split;
    first [now apply is_type_string | now apply is_type_number].
Qed.

(** X18: what the stock validator of the expert server returns is never
    empty, is the input array without the elements that fail a check, in
    order, and holds only objects whose [ticker], [name], [sector] and
    [tidbit] are strings and whose [price], [previousDayPrice],
    [priceChange] and [volatility] are numbers. *)
Theorem expert_validateStocks_sound parsed kept :
  Expert.validateStocks parsed = Ok kept ->
  kept <> []
  /\ (exists items,
         parsed = JArr items /\ kept = List.filter Expert.stockFilter items)
  /\ Forall wellTypedStock kept.
Proof.
  intros H. destruct parsed as [| | | |items|]; try discriminate H.
  rewrite expert_validateStocks_filter in H.
  destruct (List.filter Expert.stockFilter items) as [|x l] eqn:E;
    [discriminate|]. injection H as <-.
  split; [discriminate|]. split; [now exists items|].
  rewrite <- E. apply List.Forall_forall. intros s Hs.
  apply filter_In in Hs. now apply expert_stockFilter_sound.
Qed.

Lemma expert_validateStocks_sound_witness :
  Expert.validateStocks (JArr [goodStock "AAA"; badStock; JNull; goodStock "CCC"])
  = Ok [goodStock "AAA"; goodStock "CCC"]
  /\ [goodStock "AAA"; goodStock "CCC"] <> []
  /\ (exists items,
         JArr [goodStock "AAA"; badStock; JNull; goodStock "CCC"] = JArr items
         /\ [goodStock "AAA"; goodStock "CCC"]
            = List.filter Expert.stockFilter items)
  /\ Forall wellTypedStock [goodStock "AAA"; goodStock "CCC"].
Proof.
  assert (H : Expert.validateStocks
                (JArr [goodStock "AAA"; badStock; JNull; goodStock "CCC"])
              = Ok [goodStock "AAA"; goodStock "CCC"]) by (vm_compute; reflexivity).
  split; [exact H|].
  exact (expert_validateStocks_sound _ _ H).
Defined.

Lemma filterM_kept {A} (f : A -> Result bool) (xs kept : list A) :
  filterM f xs = Ok kept ->
  forall x, In x kept -> In x xs /\ f x = Ok true.
Proof.
  revert kept. induction xs as [|y xs IH]; intros kept H x Hin.
  - injection H as <-. destruct Hin.
  - cbn [filterM] in H. destruct (f y) as [keep|e] eqn:Hy; [|discriminate].
    destruct (filterM f xs) as [kept'|e]; [|discriminate]. injection H as <-.
    destruct keep.
    + destruct Hin as [<-|Hin]; [split; [now left | exact Hy]|].
      destruct (IH kept' eq_refl x Hin). split; [now right | assumption].
    + destruct (IH kept' eq_refl x Hin). split; [now right | assumption].
Qed.

Lemma expert_tickChecks_sound currentDay days s :
  Expert.tickChecks currentDay days s = true -> wellTypedTick currentDay days s.
Proof.
  unfold Expert.tickChecks, wellTypedTick, holdsString. intros H.
  repeat (apply andb_true_iff in H; destruct H as [H ?]).
  split; [exact H|].
  repeat match goal with
         | E : is_type TString _ = true |- _ => apply is_type_string in E
         | E : is_type TNumber _ = true |- _ => apply is_type_number in E; destruct E as [? E]
         end.
  repeat split; try assumption.
  - match goal with E : prop "day" s = Some (JNum ?q) |- _ =>
      exists q; rewrite E in *; cbn in *; split; [reflexivity|];
      split; now apply Qle_bool_iff end.
  - match goal with E : prop "price" s = Some (JNum ?q) |- _ =>
      exists q; rewrite E in *; cbn in *; split; [reflexivity|];
      now apply Qle_bool_iff end.
Qed.

(** X19: what the tick validator returns is never empty and holds only
    elements of the input array with a truthy [ticker], a number [day]
    from [currentDay + 1] to [currentDay + days], a number [price] that is
    not negative, and strings as [headline] and [description]. *)
Theorem expert_validateTicks_sound currentDay days parsed kept :
  Expert.validateTicks currentDay days parsed = Ok kept ->
  kept <> []
  /\ (exists items, parsed = JArr items /\ Forall (fun s => In s items) kept)
  /\ Forall (wellTypedTick currentDay days) kept.
Proof.
  intros H. destruct parsed as [| | | |items|]; try discriminate H.
  unfold Expert.validateTicks in H.
  destruct (filterM (Expert.tickFilter currentDay days) items) as [simulated|e] eqn:E;
    [|discriminate].
  destruct simulated as [|x l]; [discriminate|]. injection H as <-.
  split; [discriminate|].
  split; [exists items; split; [reflexivity|]|];
    apply List.Forall_forall; intros s Hs;
    destruct (filterM_kept _ _ _ E s Hs) as [Hin Hkeep].
  - exact Hin.
  - apply expert_tickChecks_sound. destruct s; cbn in Hkeep; congruence.
Qed.

Lemma expert_validateTicks_sound_witness :
  Expert.validateTicks 0 1 (JArr [goodTick; JBool true]) = Ok [goodTick]
  /\ [goodTick] <> []
  /\ (exists items,
         JArr [goodTick; JBool true] = JArr items
         /\ Forall (fun s => In s items) [goodTick])
  /\ Forall (wellTypedTick 0 1) [goodTick].
Proof.
  assert (H : Expert.validateTicks 0 1 (JArr [goodTick; JBool true]) = Ok [goodTick])
    by (vm_compute; reflexivity).
  split; [exact H|].
  exact (expert_validateTicks_sound 0 1 _ _ H).
Defined.

(** The validator asks for no more: a tick for day 1.5 at price 0, below
    the floor of the fallback, passes. *)
Example expert_validateTicks_fractional_day :
  Expert.validateTicks 0 2 (JArr [oddTick]) = Ok [oddTick].
Proof. vm_compute. reflexivity. Qed.

(** ** The scheduler, further *)

Lemma fold_max_start ds : forall a, (a <= fold_left Z.max ds a)%Z.
Proof.
  induction ds as [|y ds IH]; intros a; cbn [fold_left]; [lia|].
  etransitivity; [|apply IH]. lia.
Qed.

Lemma Math_max_list_upper d ds x :
  In x (d :: ds) -> (x <= Math_max_list d ds)%Z.
Proof.
  unfold Math_max_list. revert d.
  induction ds as [|y ds IH]; intros d Hin; cbn [fold_left].
  - destruct Hin as [<-|[]]. lia.
  - destruct Hin as [<-|[<-|Hin]].
    + etransitivity; [|apply fold_max_start]. lia.
    + etransitivity; [|apply fold_max_start]. lia.
    + apply IH. now right.
Qed.

(** X20: one recent effect is enough to keep the scheduler quiet: if some
    active effect started fewer than 6 days before [currentDay], or has no
    [startDay], or has [startDay] 0 (the code then takes [currentDay]), no
    event is scheduled, whatever the draws; a batch then returns at most
    the promoted prediction. *)
Theorem econ_event_quiet_after_recent_effect predicted effects currentDay days src :
  Exists (recentEffect currentDay) effects ->
  (Expert.daysSinceLastEvent effects currentDay < 6)%Z
  /\ fst (fst (Expert.econEvents predicted effects currentDay days src))
     = fst (Expert.promotePredicted predicted currentDay days).
Proof.
  intros Hrecent.
  assert (Hd : (Expert.daysSinceLastEvent effects currentDay < 6)%Z).
  { apply List.Exists_exists in Hrecent. destruct Hrecent as (e & Hin & He).
    assert (Hstart : (currentDay - 6 < Expert.startDayOr currentDay e)%Z).
    { unfold recentEffect in He. unfold Expert.startDayOr.
      destruct (Expert.EconEffect.startDay e) as [d|]; [|lia].
      destruct (Z.eqb_spec d 0); lia. }
    unfold Expert.daysSinceLastEvent, Expert.lastEconEventDay.
    pose proof (in_map (Expert.startDayOr currentDay) _ _ Hin) as Hin'.
    destruct (map (Expert.startDayOr currentDay) effects) as [|d ds];
      [destruct Hin'|].
    pose proof (Math_max_list_upper d ds _ Hin'). lia. }
  split; [exact Hd|].
  rewrite expert_econEvents_steps. cbv zeta. cbn [fst].
  now rewrite generateEconEvent_early.
Qed.

Lemma econ_event_quiet_after_recent_effect_witness :
  Exists (recentEffect 30) [effectStarting (Some 3%Z); effectStarting None]
  /\ (Expert.daysSinceLastEvent [effectStarting (Some 3%Z); effectStarting None] 30 < 6)%Z
  /\ fst (fst (Expert.econEvents None
                 [effectStarting (Some 3%Z); effectStarting None] 30 1
                 (constant_source (1 # 4))))
     = fst (Expert.promotePredicted None 30 1).
Proof.
  assert (H : Exists (recentEffect 30)
                [effectStarting (Some 3%Z); effectStarting None])
    by (apply Exists_cons_tl, Exists_cons_hd; exact I).
  split; [exact H|].
  exact (econ_event_quiet_after_recent_effect None _ 30 1 (constant_source (1 # 4)) H).
Defined.

(** ** The text of a completion *)

Lemma prefix_fence_open_other c rest :
  Ascii.eqb c (Ascii.ascii_of_nat 96) = false ->
  String.prefix fence_open (String c rest) = false.
Proof.
  intros Hc.
  let f := eval vm_compute in fence_open in change fence_open with f.
  cbn [String.prefix].
  destruct (Ascii.ascii_dec _ c) as [<-|_]; [discriminate Hc | reflexivity].
Qed.

Lemma prefix_fence_close_plain c rest tail :
  hasBackquote rest = false ->
  (tail = EmptyString \/ tail = fence_close) ->
  String.prefix fence_close (String c (rest +:+ tail)) = false.
Proof.
  intros Hrest Htail.
  let f := eval vm_compute in fence_close in change fence_close with f at 1.
  cbn [String.prefix].
  destruct (Ascii.ascii_dec _ c) as [_|_]; [|reflexivity].
  destruct rest as [|c' rest'].
  - destruct Htail as [->| ->]; reflexivity.
  - cbn [hasBackquote] in Hrest. apply orb_false_iff in Hrest.
    destruct Hrest as [Hc' _].
    change (String c' rest' +:+ tail) with (String c' (rest' +:+ tail)).
    cbn [String.prefix].
    destruct (Ascii.ascii_dec _ c') as [<-|_]; [discriminate Hc' | reflexivity].
Qed.

Lemma stripFences_plain body tail :
  hasBackquote body = false ->
  (tail = EmptyString \/ tail = fence_close) ->
  stripFences 0 (body +:+ tail) = body.
Proof.
  intros Hbody Htail. induction body as [|c rest IH].
  - destruct Htail as [->| ->]; reflexivity.
  - cbn [hasBackquote] in Hbody. apply orb_false_iff in Hbody.
    destruct Hbody as [Hc Hrest].
    change (String c rest +:+ tail) with (String c (rest +:+ tail)).
    cbn [stripFences].
    rewrite (prefix_fence_open_other c _ Hc).
    rewrite (prefix_fence_close_plain c rest tail Hrest Htail).
    now rewrite IH.
Qed.

Lemma stripFences_open rest :
  stripFences 0 (fence_open +:+ rest) = stripFences 0 rest.
Proof.
  let f := eval vm_compute in fence_open in change fence_open with f at 1.
  repeat match goal with
         | |- context [String ?c ?s +:+ ?t] =>
             change (String c s +:+ t) with (String c (s +:+ t))
         end.
  change (EmptyString +:+ rest) with rest.
  match goal with
  | |- stripFences 0 ?s = _ =>
      assert (H : String.prefix fence_open s = true)
        by (destruct rest; vm_compute; reflexivity)
  end.
  cbn [stripFences]. now rewrite H.
Qed.

(** X21: the clean-up of a completion before [JSON.parse]: a text wrapped
    in a json code fence is reduced to what stands between the fences, and a
    text without a backquote is left as it is. *)
Theorem stripFences_unwraps body :
  hasBackquote body = false ->
  stripFences 0 (fence_open +:+ body +:+ fence_close) = body
  /\ stripFences 0 body = body.
Proof.
  intros Hbody. split.
  - rewrite stripFences_open.
    apply stripFences_plain; [exact Hbody | now right].
  - rewrite <- (stripFences_plain body EmptyString Hbody) at 2 by now left.
    f_equal. clear. induction body as [|c rest IH]; [reflexivity|].
    change (String c rest +:+ EmptyString) with (String c (rest +:+ EmptyString)).
    now rewrite <- IH.
Qed.

Lemma stripFences_unwraps_witness :
  hasBackquote "[1, 2]" = false
  /\ stripFences 0 (fence_open +:+ "[1, 2]" +:+ fence_close) = "[1, 2]"
  /\ stripFences 0 "[1, 2]" = "[1, 2]".
Proof.
  split; [reflexivity|].
  exact (stripFences_unwraps "[1, 2]" eq_refl).
Defined.

(** ** The performance analysis, continued *)

(** X22: the analysis is cached under the parsed log.  After a request
    whose log is an array has been answered from a completion, a request
    that sends the same log as JSON text, with the same portfolio and
    budget and within the time to live, gets the same analysis from the
    cache: no completion is used and the state stays as it is. *)
Theorem analyzePerformance_shared_cache JSON_parse JSON_stringify text items
    portfolio budget content llm2 now now' now2 now2' st src src2 :
  JSON_parse text = Some (JArr items) ->
  Expert.invalidAnalyzeInput (Some (JArr items)) portfolio budget = false ->
  cacheFresh now st
    (analyzeCacheKey JSON_stringify (Some (JArr items)) portfolio budget) = false ->
  (now2 - now' < Expert.CACHE_TTL)%Z ->
  exists analysis,
    fst (fst (Expert.analyzePerformance JSON_parse JSON_stringify
                {| Expert.AnalyzeRequest.log := Some (JArr items);
                   Expert.AnalyzeRequest.portfolio := portfolio;
                   Expert.AnalyzeRequest.budget := budget |}
                (Some content) now now' st src))
    = Ok (Expert.respond 200 (Expert.AnalysisBody analysis))
    /\ Expert.analyzePerformance JSON_parse JSON_stringify
         {| Expert.AnalyzeRequest.log := Some (JStr text);
            Expert.AnalyzeRequest.portfolio := portfolio;
            Expert.AnalyzeRequest.budget := budget |}
         llm2 now2 now2'
         (snd (fst (Expert.analyzePerformance JSON_parse JSON_stringify
                      {| Expert.AnalyzeRequest.log := Some (JArr items);
                         Expert.AnalyzeRequest.portfolio := portfolio;
                         Expert.AnalyzeRequest.budget := budget |}
                      (Some content) now now' st src)))
         src2
       = (Ok (Expert.respond 200 (Expert.AnalysisBody analysis)),
          snd (fst (Expert.analyzePerformance JSON_parse JSON_stringify
                      {| Expert.AnalyzeRequest.log := Some (JArr items);
                         Expert.AnalyzeRequest.portfolio := portfolio;
                         Expert.AnalyzeRequest.budget := budget |}
                      (Some content) now now' st src)),
          src2).
Proof.
  intros Hparse Hvalid Hmiss Hfresh.
  destruct (Expert.analyzeCompute (Some content) st src)
    as [[computed st1] src1] eqn:Hcompute.
  assert (exists analysis,
             computed = Ok (Expert.AnalysisBody analysis) /\ st1 = st)
    as (analysis & -> & ->).
  { unfold Expert.analyzeCompute, ret in Hcompute.
    injection Hcompute as <- <- _. eauto. }
  exists analysis.
  destruct (getOrCacheResponse_replay
              (analyzeCacheKey JSON_stringify (Some (JArr items)) portfolio budget)
              (Expert.analyzeCompute (Some content)) (Expert.analyzeCompute llm2)
              now now' now2 now2' st src src2
              (Expert.AnalysisBody analysis) st src1 Hmiss)
    as (st'' & Hfirst & _ & Hsecond); [exact Hcompute | exact Hfresh |].
  unfold analyzeCacheKey in Hfirst, Hsecond.
  unfold Expert.analyzePerformance, Expert.parseLog, bind.
  cbn [Expert.AnalyzeRequest.log Expert.AnalyzeRequest.portfolio
       Expert.AnalyzeRequest.budget].
  rewrite Hparse, Hvalid, Hfirst. cbn [fst snd ret].
  rewrite Hsecond. split; reflexivity.
Qed.

Lemma analyzePerformance_shared_cache_witness :
  parseOnly "[]" (JArr []) "[]" = Some (JArr [])
  /\ Expert.invalidAnalyzeInput (Some (JArr [])) (Some JNull) (Some (JNum 8000)) = false
  /\ cacheFresh 2000 (stateWith None)
       (analyzeCacheKey stringifyKind (Some (JArr [])) (Some JNull)
          (Some (JNum 8000))) = false
  /\ (3000 - 2500 < Expert.CACHE_TTL)%Z
  /\ exists analysis,
       fst (fst (Expert.analyzePerformance (parseOnly "[]" (JArr [])) stringifyKind
                   emptyRunRequest (Some " Nothing traded. ") 2000 2500
                   (stateWith None) (constant_source (1 # 4))))
       = Ok (Expert.respond 200 (Expert.AnalysisBody analysis))
       /\ Expert.analyzePerformance (parseOnly "[]" (JArr [])) stringifyKind
            {| Expert.AnalyzeRequest.log := Some (JStr "[]");
               Expert.AnalyzeRequest.portfolio := Some JNull;
               Expert.AnalyzeRequest.budget := Some (JNum 8000) |}
            None 3000 3100
            (snd (fst (Expert.analyzePerformance (parseOnly "[]" (JArr []))
                         stringifyKind emptyRunRequest (Some " Nothing traded. ")
                         2000 2500 (stateWith None) (constant_source (1 # 4)))))
            (constant_source (3 # 4))
          = (Ok (Expert.respond 200 (Expert.AnalysisBody analysis)),
             snd (fst (Expert.analyzePerformance (parseOnly "[]" (JArr []))
                         stringifyKind emptyRunRequest (Some " Nothing traded. ")
                         2000 2500 (stateWith None) (constant_source (1 # 4)))),
             constant_source (3 # 4)).
Proof.
  assert (H1 : parseOnly "[]" (JArr []) "[]" = Some (JArr [])) by reflexivity.
  assert (H2 : Expert.invalidAnalyzeInput (Some (JArr [])) (Some JNull)
                 (Some (JNum 8000)) = false) by reflexivity.
  assert (H3 : cacheFresh 2000 (stateWith None)
                 (analyzeCacheKey stringifyKind (Some (JArr [])) (Some JNull)
                    (Some (JNum 8000))) = false)
    by (unfold cacheFresh; cbn [stateWith Expert.responseCache];
        now rewrite lookup_empty).
  assert (H4 : (3000 - 2500 < Expert.CACHE_TTL)%Z)
    by (unfold Expert.CACHE_TTL; lia).
  split; [exact H1|]. split; [exact H2|]. split; [exact H3|]. split; [exact H4|].
  exact (analyzePerformance_shared_cache (parseOnly "[]" (JArr [])) stringifyKind
           "[]" [] (Some JNull) (Some (JNum 8000)) " Nothing traded. " None
           2000 2500 3000 3100 (stateWith None) (constant_source (1 # 4))
           (constant_source (3 # 4)) H1 H2 H3 H4).
Defined.

(** X23: the validation of [/analyzePerformance], for a log that is not
    sent as text.  A request is answered 400 exactly when its log is not
    an array, its budget is not a number, or the [typeof] of its portfolio
    is not object; the 400 uses no completion and leaves the state as it
    is.  An array or [null] as portfolio passes: the answer is then 200 or
    500. *)
Theorem analyzePerformance_validation JSON_parse JSON_stringify req llm
    now now' st src :
  (forall text, Expert.AnalyzeRequest.log req <> Some (JStr text)) ->
  (acceptedAnalyzeInput req ->
   exists response,
     fst (fst (Expert.analyzePerformance JSON_parse JSON_stringify req llm
                 now now' st src)) = Ok response
     /\ (Expert.status response = 200%Z \/ Expert.status response = 500%Z))
  /\ (~ acceptedAnalyzeInput req ->
      Expert.analyzePerformance JSON_parse JSON_stringify req llm now now' st src
      = (Ok (Expert.respond 400 (Expert.ErrorBody "Invalid input")), st, src)).
Proof.
  intros Htext. destruct req as [log portfolio budget].
  cbn [Expert.AnalyzeRequest.log] in Htext.
  unfold acceptedAnalyzeInput, Expert.analyzePerformance, Expert.parseLog.
  cbn [Expert.AnalyzeRequest.log Expert.AnalyzeRequest.portfolio
       Expert.AnalyzeRequest.budget].
  split.
  - intros ((items & ->) & Hportfolio & (b & ->)).
    assert (Hvalid : Expert.invalidAnalyzeInput (Some (JArr items)) portfolio
                       (Some (JNum b)) = false).
    { destruct Hportfolio as [->|[[xs ->]|[fields ->]]]; reflexivity. }
    rewrite Hvalid. unfold bind.
    destruct (Expert.getOrCacheResponse _ _ now now' st src) as [[[d|e] st'] src'];
      cbn [fst snd ret]; eexists; (split; [reflexivity|]); cbn; auto.
  - intros Hbad.
    assert (Hparsed :
              match log with
              | Some (JStr text) =>
                  match JSON_parse text with
                  | Some parsed => Ok (Some parsed)
                  | None => Throw SyntaxError
                  end
              | _ => Ok log
              end = Ok log).
    { destruct log as [[]|]; try reflexivity. now destruct (Htext s). }
    rewrite Hparsed.
    destruct (Expert.invalidAnalyzeInput log portfolio budget) eqn:Hinvalid;
      [reflexivity|].
    exfalso. apply Hbad. unfold Expert.invalidAnalyzeInput in Hinvalid.
    destruct log as [[]|]; try discriminate Hinvalid.
    destruct budget as [[]|];
      try (destruct portfolio as [[]|]; discriminate Hinvalid).
    split; [eauto|]. split; [|eauto].
    destruct portfolio as [[]|]; try discriminate Hinvalid; eauto.
Qed.

Lemma analyzePerformance_validation_witness :
  (forall text, Expert.AnalyzeRequest.log emptyRunRequest <> Some (JStr text))
  /\ acceptedAnalyzeInput emptyRunRequest
  /\ exists response,
       fst (fst (Expert.analyzePerformance parseEmptyArray stringifyKind
                   emptyRunRequest None 2000 2500 (stateWith None)
                   (constant_source (1 # 4)))) = Ok response
       /\ (Expert.status response = 200%Z \/ Expert.status response = 500%Z).
Proof.
  assert (H1 : forall text,
             Expert.AnalyzeRequest.log emptyRunRequest <> Some (JStr text))
    by (intros text; discriminate).
  assert (H2 : acceptedAnalyzeInput emptyRunRequest)
    by (split; [now exists [] | split; [now left | now exists 8000]]).
  split; [exact H1|]. split; [exact H2|].
  exact (proj1 (analyzePerformance_validation parseEmptyArray stringifyKind
                  emptyRunRequest None 2000 2500 (stateWith None)
                  (constant_source (1 # 4)) H1) H2).
Defined.

(** ** Witnesses of the properties above *)

Lemma expert_fallback_chain_by_ticker_witness :
  exists t1 t2,
    NoDup (map Stock.ticker [acme; bolt])
    /\ In t1 (fst (Expert.fallbackSimulate [acme; bolt] 0 2 (constant_source (1 # 4))))
    /\ In t2 (fst (Expert.fallbackSimulate [acme; bolt] 0 2 (constant_source (1 # 4))))
    /\ Expert.Tick.ticker t2 = Expert.Tick.ticker t1
    /\ Expert.Tick.day t2 = (Expert.Tick.day t1 + 1)%Z
    /\ Expert.Tick.previousDayPrice t2 = Expert.Tick.price t1.
Proof.
  let v := eval vm_compute in
    (fst (Expert.fallbackSimulate [acme; bolt] 0 2 (constant_source (1 # 4)))) in
  match v with
  | ?a :: ?b :: _ => exists a, b
  end.
  match goal with
  | |- ?P1 /\ ?P2 /\ ?P3 /\ ?P4 /\ ?P5 /\ _ =>
      assert (H1 : P1)
        by (apply (bool_decide_unpack _); vm_compute; reflexivity);
      assert (H2 : P2) by (vm_compute; left; reflexivity);
      assert (H3 : P3) by (vm_compute; right; left; reflexivity);
      assert (H4 : P4) by reflexivity;
      assert (H5 : P5) by reflexivity
  end.
  split; [exact H1|]. split; [exact H2|]. split; [exact H3|].
  split; [exact H4|]. split; [exact H5|].
  exact (expert_fallback_chain_by_ticker _ _ _ _ _ _ H1 H2 H3 H4 H5).
Defined.

Lemma expert_simulateDays_at_most_one_witness :
  cacheAtMostOneEvent warmState
  /\ atMostOneEvent
       (Expert.body
          (fst (fst (Expert.simulateDays parseEmptyArray stringifyKind batchRequest
                       (Some apology) 400000 400100 warmState
                       (constant_source (1 # 4))))))
  /\ cacheAtMostOneEvent
       (snd (fst (Expert.simulateDays parseEmptyArray stringifyKind batchRequest
                    (Some apology) 400000 400100 warmState
                    (constant_source (1 # 4))))).
Proof.
  assert (H1 : cacheAtMostOneEvent warmState).
  { intros key entry H. cbn [warmState Expert.responseCache] in H.
    apply lookup_singleton_Some in H as [_ <-]. cbn. lia. }
  split; [exact H1|].
  exact (expert_simulateDays_at_most_one parseEmptyArray stringifyKind batchRequest
           (Some apology) 400000 400100 warmState (constant_source (1 # 4)) H1).
Defined.
